(** * Karabo-Pipeline: partitioning, dispatch, campaign loop, report, sky model

    A shallow embedding of
    - [karabo/simulation/interferometer.py]  (class [InterferometerSimulation]),
    - [karabo/simulation/sky_model.py]       (class [SkyModel]),
    - [karabo/simulation/Telescope.py]       (the readers of the model files),
    - [karabo/performance_test/time_karabo_parallelization_by_channel.py]
    together with the properties the specification states about them.

    Conventions of the embedding.
    - A Python call either returns, raises, or never returns: [outcome].
    - numpy 2-D arrays are lists of rows; a row is the list of its cells.
    - Floating-point cells are only compared and copied by the code in scope,
      never computed with: the rank key is an integer [Z] (a total order
      without NaN) and the memory budget is a rational [Q].
    - External collaborators (OSKAR, dask, the beam fitter, the operating
      system) are parameters or small operational models of their documented
      contract; each one says so where it is introduced. *)

From Stdlib Require Import ZArith QArith Lia Ascii.
From stdpp Require Import base option list sorting gmap strings pretty.

Local Open Scope Z_scope.

(** ** Python-level helpers *)

Module Py.

(** The exceptions the code in scope can raise. [External] stands for any
    exception coming out of a collaborator, tagged by the collaborator. *)
Inductive exn : Type :=
  | IndexError
  | ValueError (msg : string)
  | TypeError
  | KeyError (key : string)
  | KaraboException (msg : string)
  | IsADirectoryError (path : string)
  | AssertionError
  | External (tag : string).

(** What a call does: return a value, raise, or never return (an unbounded
    [while True] that does not reach its [break], a [gather] that blocks
    forever). *)
Inductive outcome (A : Type) : Type :=
  | Ok (a : A)
  | Raise (e : exn)
  | Hang.
Arguments Ok {A} a.
Arguments Raise {A} e.
Arguments Hang {A}.

Definition bind {A B} (m : outcome A) (k : A -> outcome B) : outcome B :=
  match m with
  | Ok a => k a
  | Raise e => Raise e
  | Hang => Hang
  end.

Definition of_option {A} (e : exn) (o : option A) : outcome A :=
  match o with Some a => Ok a | None => Raise e end.

(** Run [f] on each element from left to right; stop at the first that does
    not return. *)
Fixpoint for_each {A B} (f : A -> outcome B) (l : list A) : outcome (list B) :=
  match l with
  | [] => Ok []
  | x :: l' =>
      bind (f x) (fun y => bind (for_each f l') (fun ys => Ok (y :: ys)))
  end.

(** [str(i)] for a Python [int]. *)
Definition str_int (i : Z) : string := pretty i.

(** [s.endswith(suffix)]. *)
Definition endswith (s suffix : string) : bool :=
  let n := String.length s in
  let m := String.length suffix in
  (m <=? n)%nat && String.eqb (String.substring (n - m) m s) suffix.

(** [os.path.join(a, b)] on POSIX, for two components. *)
Definition os_path_join (a b : string) : string :=
  if String.prefix "/" b then b
  else if String.eqb a "" then b
  else if endswith a "/" then a +:+ b
  else a +:+ "/" +:+ b.

(** [int(b)] for a [bool]: Python's [bool] is a subtype of [int]. *)
Definition int_of_bool (b : bool) : Z := if b then 1 else 0.

(** Truth value of a float ([0.0] is falsy). *)
Definition truthy_float (q : Q) : bool := negb (Qeq_bool q 0).

(** Truth value of an optional list ([None] and [[]] are falsy). *)
Definition truthy_list {A} (o : option (list A)) : bool :=
  match o with
  | Some (_ :: _) => true
  | _ => false
  end.

(** [l[st:en]] for [0 <= st], [0 <= en]. *)
Definition slice {A} (st en : nat) (l : list A) : list A :=
  take (en - st) (drop st l).

End Py.

Import Py.

Global Instance outcome_ret : MRet outcome := @Ok.
Global Instance outcome_bind : MBind outcome := fun A B k m => Py.bind m k.
Global Instance outcome_fmap : FMap outcome :=
  fun A B f m => Py.bind m (fun a => Ok (f a)).

(** ** numpy and pandas operations used by the partitioner *)

Module Np.

(** A row of the sky array: its cells, column 6 being the reference
    frequency. *)
Abbreviation row := (list Z) (only parsing).
Abbreviation ndarray := (list (list Z)) (only parsing).

(** [a[:, 6]]: fails on an array with fewer than seven columns. *)
Definition column6 (a : ndarray) : outcome (list Z) :=
  for_each (fun r : row => of_option IndexError (r !! 6%nat)) a.

(** The sort key of a row once [column6] is known to succeed. *)
Definition freq (r : row) : Z := default 0 (r !! 6%nat).

Definition freq_le (r1 r2 : row) : Prop := freq r1 <= freq r2.

Global Instance freq_le_dec r1 r2 : Decision (freq_le r1 r2).
Proof. unfold freq_le. apply _. Defined.

(** [a[a[:, 6].argsort()]]: the rows in ascending order of column 6. The
    order numpy gives to rows with equal keys is not specified; the proofs
    below use only that the result is a sorted permutation. *)
Definition sort_by_freq (a : ndarray) : ndarray := merge_sort freq_le a.

(** [Series.rank(method="dense")]: the rank of a value is the number of
    distinct values of the series not above it. *)
Definition rank_of (fs : list Z) (f : Z) : Z :=
  Z.of_nat (length (remove_dups (filter (fun g => g <= f) fs))).

Definition dense_rank (fs : list Z) : list Z := rank_of fs <$> fs.

(** [frequencies[frequencies["rank"] == t].index[0]]: the first position
    holding rank [t]; [IndexError] when no row has that rank. *)
Definition first_index_of_rank (ranks : list Z) (t : Z) : outcome nat :=
  match list_find (fun r => r = t) ranks with
  | Some (i, _) => Ok i
  | None => Raise IndexError
  end.

(** [np.split(a, idxs)] with a list of indices: numpy slices between
    consecutive division points [0; idxs...; len(a)]. *)
Fixpoint split_at {A} (div_points : list nat) (a : list A) : list (list A) :=
  match div_points with
  | st :: rest =>
      match rest with
      | en :: _ => slice st en a :: split_at rest a
      | [] => []
      end
  | [] => []
  end.

Definition np_split {A} (a : list A) (idxs : list nat) : list (list A) :=
  split_at (0%nat :: idxs ++ [length a]) a.

(** [chunk.nbytes]: number of cells times the item size of the dtype. *)
Definition nbytes (itemsize : Z) (chunk : ndarray) : Z :=
  itemsize * Z.of_nat (length (concat chunk)).

(** One index of [np.take(a, ..., axis=0)] in the default mode: negative
    indices count from the end, anything outside [-n, n) raises. *)
Definition take_row (a : ndarray) (i : Z) : outcome row :=
  let n := Z.of_nat (length a) in
  if (0 <=? i) && (i <? n) then of_option IndexError (a !! Z.to_nat i)
  else if (- n <=? i) && (i <? 0) then of_option IndexError (a !! Z.to_nat (n + i))
  else Raise IndexError.

(** Whether a nested list converts to an integer index array: all groups of
    one length (numpy refuses ragged nesting) and that length not zero (an
    empty nested list becomes a float array, which [take] refuses). *)
Definition index_shape_ok (groups : list (list Z)) : outcome unit :=
  match groups with
  | [] => Raise TypeError
  | g :: gs =>
      if negb (forallb (fun g' => Nat.eqb (length g') (length g)) gs)
      then Raise (ValueError "inhomogeneous shape")
      else if Nat.eqb (length g) 0 then Raise TypeError
      else Ok tt
  end.

(** [np.take(a, groups, axis=0)] for a list of index groups: one sub-array
    per group. *)
Definition np_take (a : ndarray) (groups : list (list Z)) : outcome (list ndarray) :=
  _ ← index_shape_ok groups;
  for_each (fun g => for_each (take_row a) g) groups.

End Np.

(** ** [InterferometerSimulation]: partitioning and dispatch *)

Module Interferometer.

Import Np.

(** An OSKAR settings tree: section name, then key, then the rendered
    value. *)
Definition settings : Type := gmap string (gmap string string).

(** The dask client: the number of workers its scheduler reports, and the
    order in which the futures of one [gather] complete (the timing of the
    cluster, which the caller does not control). *)
Record Client : Type := {
  workers : nat;
  completion_order : list nat -> list nat
}.

(** The attributes of [self] that the code in scope reads or writes. The
    three [*_entries] maps hold the entries of [__get_OSKAR_settings_tree]
    that are rendered from the remaining attributes and that no code in scope
    looks at. *)
Record InterferometerSimulation : Type := {
  vis_path : option string;
  enable_array_beam : bool;
  split_idxs_per_group : option (list (list Z));
  split_sky_for_dask_by : string;
  max_vram_usage_gpu : Q;
  precision : string;
  ionosphere_fits_path : option string;
  client : option Client;
  simulator_entries : gmap string string;
  interferometer_entries : gmap string string;
  telescope_entries : gmap string string
}.

Definition set_vis_path (self : InterferometerSimulation) (p : string) :
    InterferometerSimulation :=
  {| vis_path := Some p;
     enable_array_beam := enable_array_beam self;
     split_idxs_per_group := split_idxs_per_group self;
     split_sky_for_dask_by := split_sky_for_dask_by self;
     max_vram_usage_gpu := max_vram_usage_gpu self;
     precision := precision self;
     ionosphere_fits_path := ionosphere_fits_path self;
     client := client self;
     simulator_entries := simulator_entries self;
     interferometer_entries := interferometer_entries self;
     telescope_entries := telescope_entries self |}.

(** [karabo.util.gpu_util]: whether CUDA is there and how much memory the
    GPU has (MiB). *)
Record Gpu : Type := {
  is_cuda_available : bool;
  get_gpu_memory : Q
}.

(** Item size of the array OSKAR hands back for a precision. *)
Definition itemsize_of (precision : string) : Z :=
  if String.eqb precision "single" then 4 else 8.

(** [np.ceil(r / n)] on integers. For [n = 0] numpy yields an infinity that
    the code then never uses (there is no boundary to place). *)
Definition ceil_div (r n : Z) : Z := - ((- r) `div` n).

(** Lines 284-297: one split of the sorted array into [N] rank intervals. *)
Definition split_once (array_sky : ndarray) (ranks : list Z) (N : nat) :
    outcome (list ndarray) :=
  last_rank ← of_option IndexError (last ranks);
  let spacing := ceil_div last_rank (Z.of_nat N) in
  let split_ranks := (fun i : nat => 0 + spacing * Z.of_nat i) <$> seq 0 N in
  split_idxs ← for_each (first_index_of_rank ranks) (tail split_ranks);
  Ok (np_split array_sky split_idxs).

(** [a > b] on the budget scale. *)
Definition Qgtb (a b : Q) : bool := negb (Qle_bool a b).

(** How one pass through the body of [while True] ends. *)
Inductive loop_step (A : Type) : Type :=
  | Break (a : A)
  | Continue (N : nat).
Arguments Break {A} a.
Arguments Continue {A} N.

(** Lines 283-315: the body of the loop. [ratio_vram_usage] is the value of
    a comparison, compared in turn with [1]. *)
Definition split_body (self : InterferometerSimulation) (gpu : Gpu)
    (array_sky : ndarray) (ranks : list Z) (N : nat) :
    outcome (loop_step (list ndarray)) :=
  split_array_sky ← split_once array_sky ranks N;
  if is_cuda_available gpu && truthy_float (max_vram_usage_gpu self) then
    let max_vram := (max_vram_usage_gpu self * get_gpu_memory gpu)%Q in
    first ← of_option IndexError (head split_array_sky);
    let ratio_vram_usage : bool :=
      Qgtb (inject_Z (nbytes (itemsize_of (precision self)) first)
            / inject_Z (1024 ^ 2))%Q max_vram in
    if int_of_bool ratio_vram_usage >? 1
    then Ok (Continue (N + Z.to_nat (int_of_bool ratio_vram_usage))%nat)
    else Ok (Break split_array_sky)
  else Ok (Break split_array_sky).

(** Lines 282-315: the loop, unrolled at most [fuel] times. *)
Fixpoint split_loop (fuel : nat) (self : InterferometerSimulation) (gpu : Gpu)
    (array_sky : ndarray) (ranks : list Z) (N : nat) : outcome (list ndarray) :=
  match fuel with
  | O => Hang
  | S fuel' =>
      step ← split_body self gpu array_sky ranks N;
      match step with
      | Break chunks => Ok chunks
      | Continue N' => split_loop fuel' self gpu array_sky ranks N'
      end
  end.

(** Lines 266-315: the frequency-rank split. *)
Definition frequency_split (fuel : nat) (self : InterferometerSimulation)
    (gpu : Gpu) (N : nat) (array_sky : ndarray) : outcome (list ndarray) :=
  _ ← column6 array_sky;
  let array_sky := sort_by_freq array_sky in
  let frequencies := freq <$> array_sky in
  let ranks := dense_rank frequencies in
  split_loop fuel self gpu array_sky ranks N.

(** Lines 262-321: how the sky array is split for the cluster. *)
Definition split_sky (fuel : nat) (self : InterferometerSimulation) (gpu : Gpu)
    (N : nat) (array_sky : ndarray) : outcome (list ndarray) :=
  if truthy_list (split_idxs_per_group self) then
    np_take array_sky (default [] (split_idxs_per_group self))
  else if String.eqb (split_sky_for_dask_by self) "frequency" then
    frequency_split fuel self gpu N array_sky
  else
    Raise (ValueError
      "Unknown split_sky_for_dask_by value. Please use 'frequency' or 'group'.").

(** *** Dispatch *)

(** The object [Visibility(path)] wraps. *)
Record Visibility : Type := { vis_file : string }.

(** Collaborators that are not part of the sources in scope. *)
Record Collaborators : Type := {
  (** [oskar.Interferometer(settings).run()] on a sky array, at a precision *)
  oskar_run : settings -> ndarray -> string -> outcome unit;
  (** [sky.get_OSKAR_sky(precision).to_array()] *)
  oskar_sky_array : ndarray -> string -> ndarray;
  (** the path of the [k]-th temporary [FileHandle] (also the one a fresh
      [Visibility()] owns) *)
  new_file_handle : nat -> string;
  (** [karabo.util.gpu_util] *)
  gpu_util : Gpu
}.

(** Lines 496-553. *)
Definition get_OSKAR_settings_tree (self : InterferometerSimulation)
    (input_telpath ms_file_path : string) : settings :=
  let interferometer := <["ms_filename" := ms_file_path]> (interferometer_entries self) in
  let telescope := <["input_directory" := input_telpath]> (telescope_entries self) in
  let telescope :=
    match ionosphere_fits_path self with
    | Some p =>
        if String.eqb p "" then telescope
        else <["external_tec_screen/input_fits_file" := p]>
               (<["ionosphere_screen_type" := "External"]> telescope)
    | None => telescope
    end in
  let interferometer :=
    match vis_path self with
    | Some p =>
        if String.eqb p "" then interferometer
        else <["oskar_vis_filename" := p]> interferometer
    | None => interferometer
    end in
  <["simulator" := simulator_entries self]>
    (<["interferometer" := interferometer]>
       (<["telescope" := telescope]> ∅)).

(** [{**interferometer_params, **observation_params}]: the later dictionary
    wins on a shared top-level key. *)
Definition merge_params (interferometer_params observation_params : settings) : settings :=
  observation_params ∪ interferometer_params.

(** Lines 364-383: what one task does on a worker. *)
Definition run_simulation_oskar (ext : Collaborators) (params_total : settings)
    (os_sky : ndarray) (precision : string) : outcome string :=
  _ ← oskar_run ext params_total os_sky precision;
  section ← of_option (KeyError "interferometer") (params_total !! "interferometer");
  of_option (KeyError "ms_filename") (section !! "ms_filename").

(** The arguments of one [client.submit]. *)
Record WorkItem : Type := {
  params_total : settings;
  sky_ : ndarray
}.

(** Lines 328-344: one work item per chunk, each with a fresh visibility
    file; the future of item [i] gets key [i]. *)
Definition work_items (ext : Collaborators) (self : InterferometerSimulation)
    (input_telpath : string) (observation_params : settings) (handle : nat)
    (split_array_sky : list ndarray) : list WorkItem :=
  imap (fun i chunk =>
          {| params_total :=
               merge_params
                 (get_OSKAR_settings_tree self input_telpath
                    (new_file_handle ext (handle + i)))
                 observation_params;
             sky_ := chunk |})
       split_array_sky.

Definition run_item (ext : Collaborators) (precision : string) (w : WorkItem) :
    outcome string :=
  run_simulation_oskar ext (params_total w) (sky_ w) precision.

Definition all_done (futures : list nat) (done : gmap nat string) : bool :=
  forallb (fun k => bool_decide (is_Some (done !! k))) futures.

(** [client.gather(futures)], first half: block until every future has a
    result or one of them has failed. Completions arrive in the order
    [order]; a key that is no task, or a task that never ends, contributes
    nothing; running out of completions while a future is pending blocks
    forever. *)
Fixpoint wait (run : WorkItem -> outcome string) (tasks : list WorkItem)
    (futures : list nat) (order : list nat) (done : gmap nat string) :
    outcome (gmap nat string) :=
  if all_done futures done then Ok done
  else
    match order with
    | [] => Hang
    | k :: order' =>
        match tasks !! k with
        | None => wait run tasks futures order' done
        | Some w =>
            match run w with
            | Ok r => wait run tasks futures order' (<[k := r]> done)
            | Raise e => Raise e
            | Hang => wait run tasks futures order' done
            end
        end
    end.

(** [client.gather(futures)]: the results, read in the order of [futures]. *)
Definition gather (run : WorkItem -> outcome string) (tasks : list WorkItem)
    (futures : list nat) (order : list nat) : outcome (list string) :=
  done ← wait run tasks futures order ∅;
  for_each (fun k => of_option (KeyError "future") (done !! k)) futures.

(** Lines 328-345: submit every chunk, then gather. *)
Definition dispatch (ext : Collaborators) (self : InterferometerSimulation)
    (c : Client) (input_telpath : string) (observation_params : settings)
    (handle : nat) (split_array_sky : list ndarray) : outcome (list string) :=
  let tasks := work_items ext self input_telpath observation_params handle
                 split_array_sky in
  let futures := seq 0 (length tasks) in
  gather (run_item ext (precision self)) tasks futures (completion_order c futures).

(** Lines 243-362. [observation_params] is what
    [observation.get_OSKAR_settings_tree()] returned; [handle] counts the
    temporary files handed out so far and is returned updated. *)
Definition setup_run_simulation_oskar (ext : Collaborators) (fuel : nat)
    (self : InterferometerSimulation) (telescope_path : string) (sky : ndarray)
    (observation_params : settings) (handle : nat) : outcome (Visibility * nat) :=
  let array_sky := oskar_sky_array ext sky (precision self) in
  match client self with
  | Some c =>
      split_array_sky ←
        split_sky fuel self (gpu_util ext) (workers c) array_sky;
      results ← dispatch ext self c telescope_path observation_params handle
                  split_array_sky;
      first ← of_option IndexError (results !! 0%nat);
      Ok ({| vis_file := first |}, (handle + length split_array_sky)%nat)
  | None =>
      let interferometer_params :=
        get_OSKAR_settings_tree self telescope_path (new_file_handle ext handle) in
      let params_total := merge_params interferometer_params observation_params in
      path_to_vis ← run_simulation_oskar ext params_total array_sky (precision self);
      Ok ({| vis_file := path_to_vis |}, S handle)
  end.

End Interferometer.

(** ** [InterferometerSimulation.__run_simulation_long]: the day loop *)

Module Campaign.

Import Np Interferometer.

(** A [datetime] (day number and second of the day) or a [date]. *)
Inductive date_value : Type :=
  | DateTime (ordinal : Z) (seconds : Z)
  | Date (ordinal : Z).

Definition ordinal_of (d : date_value) : Z :=
  match d with
  | DateTime o _ => o
  | Date o => o
  end.

(** The attributes of [ObservationLong] read or written by the loop;
    [observation_entries] stands for all the others. *)
Record Observation : Type := {
  start_date_and_time : date_value;
  number_of_days : nat;
  observation_entries : gmap string string
}.

(** [pd.date_range(start, periods=n)] followed by [.date()] on each
    element: [n] consecutive calendar days from the day of [start]. *)
Definition date_range (start : date_value) (periods : nat) : list date_value :=
  (fun k : nat => Date (ordinal_of start + Z.of_nat k)) <$> seq 0 periods.

(** An entry of a directory. *)
Inductive entry_kind : Type :=
  | RegularFile
  | Directory.

Global Instance entry_kind_eq_dec : EqDecision entry_kind.
Proof. solve_decision. Defined.

(** Modelled from the spec: the telescope handle of the module
    [karabo.simulation.telescope] that the interferometer imports and that
    is not among the sources. It "exposes a path used as simulation input
    and as the shared-directory mutation target". *)
Record Telescope : Type := { path : string }.

(** Collaborators of the day loop. *)
Record DayCollaborators : Type := {
  (** the checks and parsing of the telescope model files that follow the
      two presence checks of [read_OSKAR_tm_file] *)
  parse_tm_files : gmap string entry_kind -> outcome unit;
  (** [BeamPattern.sim_beam], [save_cst_file] and [fit_elements] for one
      polarisation: they write into the telescope directory *)
  fit_elements : string -> gmap string entry_kind -> outcome (gmap string entry_kind);
  (** [Observation.get_OSKAR_settings_tree] *)
  observation_tree : Observation -> settings;
  (** [Visibility.write_to_file] *)
  write_to_file : Visibility -> string -> outcome unit
}.

(** [Telescope.read_OSKAR_tm_file(path)] on a directory with the given
    entries (Telescope.py, lines 109-164). *)
Definition read_OSKAR_tm_file (day_ext : DayCollaborators)
    (entries : gmap string entry_kind) (p : string) : outcome Telescope :=
  if negb (bool_decide (entries !! "position.txt" = Some RegularFile)) then
    Raise (KaraboException "Missing crucial position.txt file")
  else if negb (bool_decide (entries !! "layout.txt" = Some RegularFile)) then
    Raise (KaraboException
      "Only Layout.txt is support. layout_ecef.txt and layout_wgs84.txt support is on its way.")
  else
    _ ← parse_tm_files day_ext entries;
    Ok {| path := p |}.

(** [os.remove(os.path.join(dir, item))]. *)
Definition os_remove (entries : gmap string entry_kind) (item : string) :
    outcome (gmap string entry_kind) :=
  match entries !! item with
  | Some RegularFile => Ok (delete item entries)
  | Some Directory => Raise (IsADirectoryError item)
  | None => Raise (External "FileNotFoundError")
  end.

(** Lines 417-419, over the names [os.listdir] returned. *)
Fixpoint remove_bin_files (items : list string) (entries : gmap string entry_kind) :
    outcome (gmap string entry_kind) :=
  match items with
  | [] => Ok entries
  | item :: items' =>
      if endswith item ".bin" then
        entries' ← os_remove entries item;
        remove_bin_files items' entries'
      else remove_bin_files items' entries
  end.

Definition os_listdir (entries : gmap string entry_kind) : list string :=
  (map_to_list entries).*1.

Definition purge_beam_files (entries : gmap string entry_kind) :
    outcome (gmap string entry_kind) :=
  remove_bin_files (os_listdir entries) entries.

(** [deepcopy(o)] for an object at address [a]: a new object with the same
    content at an unused address. *)
Definition deepcopy (objects : gmap nat Observation) (a : nat) :
    outcome (nat * gmap nat Observation) :=
  o ← of_option (External "dangling reference") (objects !! a);
  let a' := fresh (dom objects) in
  Ok (a', <[a' := o]> objects).

(** [o.start_date_and_time = d] for the object at address [a]. *)
Definition set_start_date (objects : gmap nat Observation) (a : nat)
    (d : date_value) : gmap nat Observation :=
  alter (fun o => {| start_date_and_time := d;
                     number_of_days := number_of_days o;
                     observation_entries := observation_entries o |}) a objects.

(** What is recorded about one day, for the statements below: the directory
    as the beam regeneration finds it, the arguments of the day's
    simulation, and the caller's observation object once the day is over. *)
Record day_record : Type := {
  day : nat;
  entries_at_beam : gmap string entry_kind;
  sim_self : InterferometerSimulation;
  sim_observation : Observation;
  base_observation_after : option Observation
}.

(** The state the loop works on: [self], the observation objects, the
    entries of the telescope directory, the number of temporary files handed
    out, the list [visiblity_files], and the record of the days run. *)
Record state : Type := {
  self_ : InterferometerSimulation;
  objects : gmap nat Observation;
  entries : gmap string entry_kind;
  handles : nat;
  visiblity_files : list string;
  journal : list day_record
}.

Definition beam_vis_prefix : string := "beam_vis_".

(** Lines 407-443: one day. [observation] is the address of the caller's
    observation object. *)
Definition run_day (ext : Collaborators) (day_ext : DayCollaborators) (fuel : nat)
    (telescope : Telescope) (sky : ndarray) (observation : nat)
    (vis_dir_path : string) (st : state) (i : nat) (current_date : date_value) :
    outcome state :=
  let sky_run := sky in
  telescope_run ← read_OSKAR_tm_file day_ext (entries st) (path telescope);
  let vis_name := beam_vis_prefix +:+ str_int (Z.of_nat i) in
  purged ← purge_beam_files (entries st);
  entries' ←
    (if enable_array_beam (self_ st) then
       with_x ← fit_elements day_ext "X" purged;
       fit_elements day_ext "Y" with_x
     else Ok purged);
  let files := visiblity_files st ++ [os_path_join vis_dir_path (vis_name +:+ ".vis")] in
  vis ← of_option IndexError (last files);
  let self' := set_vis_path (self_ st) vis in
  let ms_files := os_path_join vis_dir_path (vis_name +:+ ".ms") in
  '(observation_run, objects') ← deepcopy (objects st) observation;
  let objects'' := set_start_date objects' observation_run current_date in
  run_obs ← of_option (External "dangling reference") (objects'' !! observation_run);
  '(visibility, handles') ←
    setup_run_simulation_oskar ext fuel self' (path telescope_run) sky_run
      (observation_tree day_ext run_obs) (handles st);
  _ ← write_to_file day_ext visibility ms_files;
  Ok {| self_ := self';
        objects := objects'';
        entries := entries';
        handles := handles';
        visiblity_files := files;
        journal := journal st ++
          [{| day := i;
              entries_at_beam := purged;
              sim_self := self';
              sim_observation := run_obs;
              base_observation_after := objects'' !! observation |}] |}.

(** The [for] loop of lines 401-443 over the enumerated dates. *)
Fixpoint days_loop (ext : Collaborators) (day_ext : DayCollaborators) (fuel : nat)
    (telescope : Telescope) (sky : ndarray) (observation : nat)
    (vis_dir_path : string) (st : state) (days : list (nat * date_value)) :
    outcome state :=
  match days with
  | [] => Ok st
  | (i, current_date) :: days' =>
      st' ← run_day ext day_ext fuel telescope sky observation vis_dir_path st
              i current_date;
      days_loop ext day_ext fuel telescope sky observation vis_dir_path st' days'
  end.

(** [enumerate(dates, 1)]. *)
Definition enumerate1 {A} (l : list A) : list (nat * A) :=
  zip (seq 1 (length l)) l.

(** Lines 385-445. The result pairs the returned [visiblity_files] with the
    final state. *)
Definition run_simulation_long (ext : Collaborators) (day_ext : DayCollaborators)
    (fuel : nat) (st : state) (telescope : Telescope) (sky : ndarray)
    (observation : nat) : outcome (list string * state) :=
  let vis_dir_path := new_file_handle ext (handles st) in
  let st0 := {| self_ := self_ st;
                objects := objects st;
                entries := entries st;
                handles := S (handles st);
                visiblity_files := [];
                journal := journal st |} in
  base ← of_option (External "dangling reference") (objects st !! observation);
  let dates := date_range (start_date_and_time base) (number_of_days base) in
  st' ← days_loop ext day_ext fuel telescope sky observation vis_dir_path st0
          (enumerate1 dates);
  Ok (visiblity_files st', st').

End Campaign.

(** ** [time_karabo_parallelization_by_channel.main]: the report *)

Module PerformanceTest.

(** The line feed that ends the report line. *)
Definition newline : string := String (Ascii.ascii_of_nat 10) EmptyString.

(** Line 67: the name of the report file. *)
Definition report_file_name (number_of_nodes n_channels : Z) : string :=
  "output_" +:+ str_int number_of_nodes +:+ "_nodes_" +:+ str_int n_channels
    +:+ "_channels.txt".

(** Line 71: the text written; [time_taken] is the rendering of the rounded
    number of minutes. *)
Definition report_line (n_channels : Z) (time_taken : string) : string :=
  "Number of channels: " +:+ str_int n_channels +:+ ". "
    +:+ "Time taken: " +:+ time_taken +:+ " min." +:+ newline.

(** [open(name, "a")] followed by one [write]: the file is created when it
    is not there, and the text goes after what it holds. *)
Definition open_append_write (files : gmap string string) (name text : string) :
    gmap string string :=
  <[name := default "" (files !! name) +:+ text]> files.

(** Lines 62-73, given what the simulation returned ([n_visibilities]
    results) and the elapsed minutes as rendered. *)
Definition main (files : gmap string string) (number_of_nodes n_channels : Z)
    (n_visibilities : Z) (time_taken : string) : outcome (gmap string string) :=
  if negb (n_visibilities =? n_channels) then Raise AssertionError
  else
    Ok (open_append_write files (report_file_name number_of_nodes n_channels)
          (report_line n_channels time_taken)).

End PerformanceTest.

(** ** [SkyModel.add_point_sources] *)

Module SkyModel.

(** A cell of the sources array: a number, [None], or another object. *)
Inductive cell : Type :=
  | Num (x : Z)
  | PyNone
  | Obj (s : string).

(** An n-dimensional array: its shape and its cells in row-major order. *)
Record array : Type := {
  shape : list nat;
  data : list cell
}.

Record SkyModel : Type := {
  num_sources : Z;
  sources : option array
}.

(** The rows of a 2-D array with [n] rows of [k] cells. *)
Definition rows_of (n k : nat) (cells : list cell) : list (list cell) :=
  (fun i : nat => take k (drop (i * k) cells)) <$> seq 0 n.

(** Lines 71-74: every row continued with zeros up to column 11, and
    [None] in column 12. *)
Definition fill_missing (n k : nat) (cells : list cell) : array :=
  {| shape := [n; 13%nat];
     data := concat ((fun r => r ++ replicate (12 - k) (Num 0) ++ [PyNone])
                       <$> rows_of n k cells) |}.

(** [np.atleast_2d]: a scalar becomes 1x1, a vector one row. *)
Definition atleast_2d (a : array) : array :=
  match shape a with
  | [] => {| shape := [1%nat; 1%nat]; data := data a |}
  | [n] => {| shape := [1%nat; n]; data := data a |}
  | _ => a
  end.

(** [np.vstack((a, b))]: both arrays, taken as at least 2-D, must agree on
    all dimensions but the first. *)
Definition vstack (a b : array) : outcome array :=
  match shape (atleast_2d a), shape (atleast_2d b) with
  | n1 :: rest1, n2 :: rest2 =>
      if bool_decide (rest1 = rest2) then
        Ok {| shape := (n1 + n2)%nat :: rest1; data := data a ++ data b |}
      else Raise (ValueError "all the input array dimensions must match")
  | _, _ => Raise (ValueError "all the input array dimensions must match")
  end.

(** Lines 44-79. The result is the model after the call. *)
Definition add_point_sources (self : SkyModel) (srcs : array) : outcome SkyModel :=
  if (2 <? length (shape srcs))%nat then Ok self
  else
    n ← of_option IndexError (shape srcs !! 0%nat);
    k ← of_option IndexError (shape srcs !! 1%nat);
    if (2 <? k)%nat && (k <? 14)%nat then
      let srcs := if (k <? 13)%nat then fill_missing n k (data srcs) else srcs in
      stacked ←
        match sources self with
        | Some old => vstack old srcs
        | None => Ok srcs
        end;
      Ok {| num_sources := num_sources self + Z.of_nat n;
            sources := Some stacked |}
    else Ok self.

(** Lines 33-42: [SkyModel(sources)]. *)
Definition init (srcs : option array) : outcome SkyModel :=
  let self := {| num_sources := 0; sources := None |} in
  match srcs with
  | Some a => add_point_sources self a
  | None => Ok self
  end.

(** The arguments of [add_point_source]: twelve numbers and the source
    id. *)
Record point_source : Type := {
  right_ascension : Z;
  declination : Z;
  stokes_I_flux : Z;
  stokes_Q_flux : Z;
  stokes_U_flux : Z;
  stokes_V_flux : Z;
  reference_frequency : Z;
  spectral_index : Z;
  rotation_measure : Z;
  major_axis_FWHM : Z;
  minor_axis_FWHM : Z;
  position_angle : Z;
  source_id : cell
}.

(** Lines 103-106: the 1x13 array built from the arguments. *)
Definition new_sources (p : point_source) : array :=
  {| shape := [1; 13]%nat;
     data := [Num (right_ascension p); Num (declination p); Num (stokes_I_flux p);
              Num (stokes_Q_flux p); Num (stokes_U_flux p); Num (stokes_V_flux p);
              Num (reference_frequency p); Num (spectral_index p);
              Num (rotation_measure p); Num (major_axis_FWHM p);
              Num (minor_axis_FWHM p); Num (position_angle p); source_id p] |}.

(** Lines 81-111. With sources already there, line 108 calls [np.vstack]
    with two positional arguments where it takes one sequence: numpy
    raises [TypeError]. *)
Definition add_point_source (self : SkyModel) (p : point_source) : outcome SkyModel :=
  match sources self with
  | Some _ => Raise TypeError
  | None =>
      Ok {| num_sources := num_sources self + 1;
            sources := Some (new_sources p) |}
  end.

(** Lines 122-128. *)
Definition to_array (self : SkyModel) : option array := sources self.

(** Whether a flux lies within the bounds; ordering [None] or a string against a number
    raises. *)
Definition flux_within (min_flux_jy max_flux_jy : Z) (c : cell) : outcome bool :=
  match c with
  | Num x => Ok ((x <=? max_flux_jy) && (min_flux_jy <=? x))
  | _ => Raise TypeError
  end.

(** The number of cells under one index pair of the first two axes. *)
Definition inner_size (a : array) : nat := foldr Nat.mul 1%nat (drop 2 (shape a)).

(** Lines 148-159. [np.where(...)[0]] lists the first-axis index of every
    cell of column 2 within the bounds, and [self.sources[idxs]] takes the
    blocks at these indices. *)
Definition filter_by_flux (self : SkyModel) (min_flux_jy max_flux_jy : Z) :
    outcome SkyModel :=
  match sources self with
  | None => Raise TypeError
  | Some a =>
      match shape a with
      | n :: k :: rest =>
          if (k <? 3)%nat then Raise IndexError
          else
            let inner := inner_size a in
            let blocks := rows_of n (k * inner) (data a) in
            hits ← for_each
                     (fun block =>
                        within ← for_each (flux_within min_flux_jy max_flux_jy)
                                   (take inner (drop (2 * inner) block));
                        Ok (replicate (length (filter (fun b => b = true) within)) block))
                     blocks;
            let kept := concat hits in
            Ok {| num_sources := Z.of_nat (length kept);
                  sources := Some {| shape := length kept :: k :: rest;
                                     data := concat kept |} |}
      | _ => Raise IndexError
      end
  end.

End SkyModel.

Module Layout.

(** [s.split(sep)] for a separator of one character. *)
Fixpoint str_split (sep : ascii) (s : string) : list string :=
  match s with
  | EmptyString => [EmptyString]
  | String c s' =>
      if Ascii.eqb c sep then EmptyString :: str_split sep s'
      else match str_split sep s' with
           | tok :: toks => String c tok :: toks
           | [] => [String c EmptyString]
           end
  end.

Section read_layout.

(** Python's [float(s)]: the number a string denotes, if it denotes one. *)
Variable float : string -> option Z.

(** Telescope.py, lines 174-177: the values of a line stored one after the
    other from index [i] on. *)
Fixpoint store_values (values : list Z) (i : nat) (station_position : list string) :
    outcome (list Z) :=
  match station_position with
  | [] => Ok values
  | pos :: rest =>
      x ← of_option (ValueError "could not convert string to float") (float pos);
      if (i <? length values)%nat then store_values (<[i := x]> values) (S i) rest
      else Raise IndexError
  end.

(** Telescope.py, lines 166-180, on the files given with their lines as
    [readlines] returns them. *)
Definition read_layout_txt (files : gmap string (list string)) (path : string) :
    outcome (list (list Z)) :=
  lines ← of_option (External "FileNotFoundError") (files !! path);
  for_each (fun line => store_values (replicate 6 0) 0 (str_split "," line)) lines.

End read_layout.

End Layout.

(** ** Vocabulary of the statements *)

Module Spec.

Import Np Interferometer Campaign.

(** The chunks are consecutive slices [l[d0:d1], l[d1:d2], ...] of [l] for
    division points [0 = d0 <= d1 <= ... <= dk = len(l)]: their index ranges
    are pairwise disjoint and cover every position once. *)
Definition disjoint_slices {A} (chunks : list (list A)) (l : list A) : Prop :=
  exists div_points : list nat,
    StronglySorted le div_points /\
    head div_points = Some 0%nat /\
    last div_points = Some (length l) /\
    length div_points = S (length chunks) /\
    forall i c, chunks !! i = Some c ->
      exists st en, div_points !! i = Some st /\ div_points !! S i = Some en /\
                    c = slice st en l.

(** Ten rows at each of the dense ranks 1 to 10. *)
Definition uniform_ranks : list Z :=
  r ← seqZ 1 10; replicate 10 r.

(** No budget check takes place: no CUDA, or no [max_vram_usage_gpu]. *)
Definition no_memory_budget (self : InterferometerSimulation) (gpu : Gpu) : Prop :=
  is_cuda_available gpu && truthy_float (max_vram_usage_gpu self) = false.

(** The branch of line 266 is the one taken. *)
Definition frequency_mode (self : InterferometerSimulation) : Prop :=
  truthy_list (split_idxs_per_group self) = false /\
  split_sky_for_dask_by self = "frequency".

(** The dense rank of a row within the collection [a]. *)
Definition row_rank (a : list (list Z)) (r : list Z) : Z :=
  rank_of (freq <$> a) (freq r).

Definition ranks_within (a : list (list Z)) (lo hi : Z) (chunk : list (list Z)) : Prop :=
  Forall (fun r => lo <= row_rank a r < hi) chunk.

(** The first chunk takes more MiB than the share of the GPU memory that
    [max_vram_usage_gpu] allows. *)
Definition over_budget (self : InterferometerSimulation) (gpu : Gpu)
    (chunk : list (list Z)) : Prop :=
  (max_vram_usage_gpu self * get_gpu_memory gpu
   < inject_Z (nbytes (itemsize_of (precision self)) chunk) / inject_Z (1024 ^ 2))%Q.

(** [l[i]] for a Python index: negative indices count from the end. *)
Definition py_index {A} (l : list A) (i : Z) : option A :=
  if decide (0 <= i) then l !! Z.to_nat i
  else if decide (- Z.of_nat (length l) <= i) then l !! Z.to_nat (Z.of_nat (length l) + i)
  else None.

(** Chunk [g] holds the rows of [a] at the indices of group [g]. *)
Definition rows_of_groups (a : list (list Z)) (groups : list (list Z))
    (chunks : list (list (list Z))) : Prop :=
  Forall2 (fun g chunk => Forall2 (fun i r => py_index a i = Some r) g chunk)
          groups chunks.

(** Index groups [np.take] accepts: all of one non-zero length, every index
    within [-n, n). *)
Definition well_formed_groups (a : list (list Z)) (groups : list (list Z)) : Prop :=
  (exists k, (0 < k)%nat /\ Forall (fun g => length g = k) groups) /\
  Forall (Forall (fun i => - Z.of_nat (length a) <= i < Z.of_nat (length a))) groups.

(** The results a returned [Visibility] carries. *)
Definition returned_results (v : Visibility) : list string := [vis_file v].

(** The sizes of the chunks of a split. *)
Definition chunk_sizes (o : outcome (list (list (list Z)))) : outcome (list nat) :=
  fmap (M := list) length <$> o.

(** The distinct values of a column in ascending order. *)
Definition distinct_sorted (fs : list Z) : list Z := merge_sort Z.le (remove_dups fs).

(** The number of distinct frequencies of the collection: the largest dense
    rank. *)
Definition distinct_frequencies (a : list (list Z)) : Z :=
  Z.of_nat (length (remove_dups (freq <$> a))).

(** What [gather] has collected so far came out of tasks that succeeded. *)
Definition collected (run : WorkItem -> outcome string) (tasks : list WorkItem)
    (done : gmap nat string) : Prop :=
  forall k r, done !! k = Some r -> exists w, tasks !! k = Some w /\ run w = Ok r.

(** The result of a work item whose task succeeds. *)
Definition result_of (ext : Collaborators) (precision : string) (w : WorkItem) : string :=
  match run_item ext precision w with
  | Ok r => r
  | _ => ""
  end.

(** The path of the visibility file of day [i]. *)
Definition vis_file_of (vis_dir_path : string) (i : nat) : string :=
  os_path_join vis_dir_path (beam_vis_prefix +:+ str_int (Z.of_nat i) +:+ ".vis").

(** No entry of the directory is a beam binary. *)
Definition no_beam_binaries (entries : gmap string entry_kind) : Prop :=
  forall name kind, entries !! name = Some kind -> endswith name ".bin" = false.

(** [o] with another start date. *)
Definition on_date (o : Observation) (d : date_value) : Observation :=
  {| start_date_and_time := d;
     number_of_days := number_of_days o;
     observation_entries := observation_entries o |}.

(** What the record of day [i], observed on [date], must show: the day's
    own path and date went into the simulation, and the caller's
    observation is still [base]. *)
Definition day_on_its_own (vis_dir_path : string) (base : Observation)
    (i_date : nat * date_value) (rec : day_record) : Prop :=
  day rec = i_date.1 /\
  vis_path (sim_self rec) = Some (vis_file_of vis_dir_path i_date.1) /\
  sim_observation rec = on_date base i_date.2 /\
  base_observation_after rec = Some base.

(** How often a character occurs in a string. *)
Fixpoint count_char (c : Ascii.ascii) (s : string) : nat :=
  match s with
  | EmptyString => 0
  | String c' s' => (if Ascii.eqb c c' then 1 else 0) + count_char c s'
  end.

(** The number of line feeds of a text. *)
Definition line_feeds (s : string) : nat := count_char (Ascii.ascii_of_nat 10) s.

(** The collection can be split for [N] workers: it is not empty, every row
    has its column 6, and the last boundary [(N - 1) * spacing] is a rank
    that occurs. *)
Definition splittable (N : nat) (a : list (list Z)) : Prop :=
  a <> [] /\
  Forall (fun r : list Z => (6 < length r)%nat) a /\
  ceil_div (distinct_frequencies a) (Z.of_nat N) * (Z.of_nat N - 1)
    <= distinct_frequencies a.

(** The rows of chunk [k] out of [n]: their rank is at least [k * spacing]
    and, unless the chunk is the last one, below [(k + 1) * spacing]. *)
Definition in_chunk (a : list (list Z)) (spacing : Z) (n k : nat) (r : list Z) : Prop :=
  Z.of_nat k * spacing <= row_rank a r /\
  (S k = n \/ row_rank a r < (Z.of_nat k + 1) * spacing).

Global Instance in_chunk_dec a spacing n k r : Decision (in_chunk a spacing n k r).
Proof. unfold in_chunk. apply _. Defined.

(** Position [i] cuts [l] at the key [t]: the keys before it are below [t],
    the keys from it on are not. *)
Definition cuts {A} (g : A -> Z) (l : list A) (i : nat) (t : Z) : Prop :=
  Forall (fun x => g x < t) (take i l) /\ Forall (fun x => t <= g x) (drop i l).

(** The state right after the campaign's directory of visibilities has been
    created. *)
Definition campaign_begun (st : state) : state :=
  {| self_ := self_ st;
     objects := objects st;
     entries := entries st;
     handles := S (handles st);
     visiblity_files := [];
     journal := journal st |}.

(** No directory carries the name of a beam binary. *)
Definition no_bin_directory (entries : gmap string entry_kind) : Prop :=
  forall name, entries !! name = Some Directory -> endswith name ".bin" = false.

(** The entries that are no beam binaries. *)
Definition without_binaries (entries : gmap string entry_kind) : gmap string entry_kind :=
  filter (fun kv => endswith kv.1 ".bin" = false) entries.

Import SkyModel.

(** A 2-D array of [n] rows of [k] cells. *)
Definition table (n k : nat) (a : array) : Prop :=
  shape a = [n; k] /\ length (data a) = (n * k)%nat.

(** The rows of a 2-D array. *)
Definition rows (a : array) : list (list cell) :=
  match shape a with
  | [n; k] => rows_of n k (data a)
  | _ => []
  end.

(** The rows a model holds. *)
Definition model_rows (m : SkyModel) : list (list cell) :=
  from_option rows [] (sources m).

(** A row of [k] cells completed to thirteen. *)
Definition padded (k : nat) (r : list cell) : list cell :=
  if (k <? 13)%nat then r ++ replicate (12 - k) (Num 0) ++ [PyNone] else r.

(** The model holds full rows only, and counts them. *)
Definition well_formed_model (m : SkyModel) : Prop :=
  match sources m with
  | None => num_sources m = 0
  | Some a => exists n, table n 13 a /\ num_sources m = Z.of_nat n
  end.

(** The flux of a row, its third cell, is a number within the bounds. *)
Definition flux_in_range (min_flux_jy max_flux_jy : Z) (r : list cell) : bool :=
  match r !! 2%nat with
  | Some (Num x) => (min_flux_jy <=? x) && (x <=? max_flux_jy)
  | _ => false
  end.

(** The flux of a row is a number. *)
Definition has_flux (r : list cell) : Prop :=
  exists x, r !! 2%nat = Some (Num x).

(** A call of one of the methods that change a model. *)
Inductive call : Type :=
  | AddPointSources (srcs : array)
  | AddPointSource (p : point_source)
  | FilterByFlux (min_flux_jy max_flux_jy : Z).

Definition run_call (m : SkyModel) (c : call) : outcome SkyModel :=
  match c with
  | AddPointSources srcs => add_point_sources m srcs
  | AddPointSource p => add_point_source m p
  | FilterByFlux lo hi => filter_by_flux m lo hi
  end.

Fixpoint run_calls (m : SkyModel) (cs : list call) : outcome SkyModel :=
  match cs with
  | [] => Ok m
  | c :: cs => m' ← run_call m c; run_calls m' cs
  end.

(** An array has as many cells as its shape says. *)
Definition sound_array (a : array) : Prop :=
  length (data a) = foldr Nat.mul 1%nat (shape a).

Definition sound_call (c : call) : Prop :=
  match c with
  | AddPointSources srcs => sound_array srcs
  | _ => True
  end.

(** The number of values a line of a layout file holds. *)
Definition values_in_line (line : string) : nat := S (count_char "," line).

(** The values of a line, read by [float], followed by zeros up to six. *)
Definition position_of_line (float : string -> option Z) (line : string)
    (position : list Z) : Prop :=
  exists vals,
    Forall2 (fun tok v => float tok = Some v) (Layout.str_split "," line) vals /\
    position = vals ++ replicate (6 - length vals) 0.

(** A line the reader accepts: at most six values, each one a number for
    [float]. *)
Definition readable_line (float : string -> option Z) (line : string) : Prop :=
  (values_in_line line <= 6)%nat /\
  Forall (fun tok => is_Some (float tok)) (Layout.str_split "," line).

End Spec.

(** ** Concrete inputs *)

Module Examples.

Import Np Interferometer Campaign.

(** A source with the twelve OSKAR columns; [ra] tells the rows apart. *)
Definition source_row (ra frequency : Z) : list Z :=
  [ra; 0; 1; 0; 0; 0; frequency; 0; 0; 0; 0; 0].

(** 100 rows, in no particular order, ten at each of ten frequencies. *)
Definition sky_100 : list (list Z) :=
  (fun k : nat => source_row (Z.of_nat k) (100 + 5 * Z.of_nat ((k * 7) mod 10)))
    <$> seq 0 100.

(** Six rows at four frequencies. *)
Definition sky_6 : list (list Z) :=
  [source_row 0 150; source_row 1 110; source_row 2 130;
   source_row 3 110; source_row 4 170; source_row 5 150].

(** The defaults of [InterferometerSimulation.__init__], without a client. *)
Definition sim : InterferometerSimulation :=
  {| vis_path := None;
     enable_array_beam := false;
     split_idxs_per_group := None;
     split_sky_for_dask_by := "frequency";
     max_vram_usage_gpu := 0.8%Q;
     precision := "single";
     ionosphere_fits_path := None;
     client := None;
     simulator_entries := ∅;
     interferometer_entries := ∅;
     telescope_entries := ∅ |}.

Definition with_groups (self : InterferometerSimulation)
    (groups : option (list (list Z))) : InterferometerSimulation :=
  {| vis_path := vis_path self;
     enable_array_beam := enable_array_beam self;
     split_idxs_per_group := groups;
     split_sky_for_dask_by := split_sky_for_dask_by self;
     max_vram_usage_gpu := max_vram_usage_gpu self;
     precision := precision self;
     ionosphere_fits_path := ionosphere_fits_path self;
     client := client self;
     simulator_entries := simulator_entries self;
     interferometer_entries := interferometer_entries self;
     telescope_entries := telescope_entries self |}.

Definition with_client (self : InterferometerSimulation) (c : option Client) :
    InterferometerSimulation :=
  {| vis_path := vis_path self;
     enable_array_beam := enable_array_beam self;
     split_idxs_per_group := split_idxs_per_group self;
     split_sky_for_dask_by := split_sky_for_dask_by self;
     max_vram_usage_gpu := max_vram_usage_gpu self;
     precision := precision self;
     ionosphere_fits_path := ionosphere_fits_path self;
     client := c;
     simulator_entries := simulator_entries self;
     interferometer_entries := interferometer_entries self;
     telescope_entries := telescope_entries self |}.

(** A machine without CUDA, and one whose GPU is far too small. *)
Definition no_gpu : Gpu := {| is_cuda_available := false; get_gpu_memory := 0 |}.
Definition small_gpu : Gpu := {| is_cuda_available := true; get_gpu_memory := 1 # 10000 |}.

(** The frequency-rank split of [sky_6] for two workers. *)
Definition chunks_6 : list (list (list Z)) :=
  [[source_row 1 110; source_row 3 110];
   [source_row 2 130; source_row 5 150; source_row 0 150; source_row 4 170]].

(** OSKAR always succeeds; temporary files are numbered. *)
Definition ext_ok : Collaborators :=
  {| oskar_run := fun _ _ _ => Ok tt;
     oskar_sky_array := fun sky _ => sky;
     new_file_handle := fun k => "/tmp/vis_" +:+ pretty k;
     gpu_util := no_gpu |}.

(** OSKAR fails on a sky chunk that is empty. *)
Definition ext_fail_on_empty : Collaborators :=
  {| oskar_run := fun _ chunk _ =>
       match chunk with [] => Raise (External "oskar: empty sky") | _ => Ok tt end;
     oskar_sky_array := fun sky _ => sky;
     new_file_handle := fun k => "/tmp/vis_" +:+ pretty k;
     gpu_util := no_gpu |}.

(** A cluster of [n] workers on which the last submitted task finishes
    first. *)
Definition cluster (n : nat) : Client :=
  {| workers := n; completion_order := reverse |}.

(** The telescope directory with a beam binary left behind. *)
Definition tm_entries : gmap string entry_kind :=
  <["position.txt" := RegularFile]>
    (<["layout.txt" := RegularFile]>
       (<["station000" := Directory]>
          (<["element_pattern_fit_x_0_100.bin" := RegularFile]> ∅))).

(** A beam fitter that leaves one binary per polarisation. *)
Definition day_ext_ok : DayCollaborators :=
  {| parse_tm_files := fun _ => Ok tt;
     fit_elements := fun pol entries =>
       Ok (<["element_pattern_fit_" +:+ pol +:+ "_0_100.bin" := RegularFile]> entries);
     observation_tree := fun o =>
       <["observation" := observation_entries o]> ∅;
     write_to_file := fun _ _ => Ok tt |}.

Definition with_array_beam (self : InterferometerSimulation) : InterferometerSimulation :=
  {| vis_path := vis_path self;
     enable_array_beam := true;
     split_idxs_per_group := split_idxs_per_group self;
     split_sky_for_dask_by := split_sky_for_dask_by self;
     max_vram_usage_gpu := max_vram_usage_gpu self;
     precision := precision self;
     ionosphere_fits_path := ionosphere_fits_path self;
     client := client self;
     simulator_entries := simulator_entries self;
     interferometer_entries := interferometer_entries self;
     telescope_entries := telescope_entries self |}.

(** Three days from day 738000 at 06:00. *)
Definition three_days : Observation :=
  {| start_date_and_time := DateTime 738000 21600;
     number_of_days := 3;
     observation_entries := <["num_channels" := "16"]> ∅ |}.

(** The caller's observation lives at address 5; nothing has run yet. *)
Definition campaign_start : state :=
  {| self_ := with_array_beam sim;
     objects := <[5%nat := three_days]> ∅;
     entries := tm_entries;
     handles := 0;
     visiblity_files := [];
     journal := [] |}.

(** The state in which the three-day campaign ends. *)
Definition campaign_end : state :=
  match run_simulation_long ext_ok day_ext_ok 1 campaign_start {| path := "/tm" |} sky_6 5 with
  | Ok (_, st') => st'
  | _ => campaign_start
  end.

(** A sky model holding one source. *)
Definition model_1 : SkyModel.SkyModel :=
  {| SkyModel.num_sources := 1;
     SkyModel.sources :=
       Some {| SkyModel.shape := [1; 13]%nat;
               SkyModel.data := replicate 12 (SkyModel.Num 0) ++ [SkyModel.PyNone] |} |}.

(** A directory in which an earlier run has left its report. *)
Definition report_files : gmap string string :=
  <["output_4_nodes_10_channels.txt" :=
      "Number of channels: 10. Time taken: 1.31 min." +:+ PerformanceTest.newline]> ∅.

(** Observation settings that bring an interferometer section of their
    own, without a measurement-set name. *)
Definition obs_with_interferometer : settings :=
  <["interferometer" := <["channel_bandwidth_hz" := "1000.0"]> ∅]>
    (<["observation" := <["num_channels" := "16"]> ∅]> ∅).

(** A simulation whose split attribute is not known. *)
Definition sim_unknown_split : InterferometerSimulation :=
  {| vis_path := None;
     enable_array_beam := false;
     split_idxs_per_group := Some [[7; 8]];
     split_sky_for_dask_by := "group";
     max_vram_usage_gpu := 0.8%Q;
     precision := "double";
     ionosphere_fits_path := None;
     client := None;
     simulator_entries := ∅;
     interferometer_entries := ∅;
     telescope_entries := ∅ |}.

(** A telescope directory in which a directory is named like a binary. *)
Definition tm_entries_bin_directory : gmap string entry_kind :=
  <["cache.bin" := Directory]> tm_entries.

(** The telescope directory without its position file. *)
Definition tm_entries_no_position : gmap string entry_kind :=
  delete "position.txt" tm_entries.

Definition campaign_start_no_position : state :=
  {| self_ := sim;
     objects := <[5%nat := three_days]> ∅;
     entries := tm_entries_no_position;
     handles := 0;
     visiblity_files := [];
     journal := [] |}.

(** An observation over no day at all. *)
Definition no_days : Observation :=
  {| start_date_and_time := DateTime 738000 21600;
     number_of_days := 0;
     observation_entries := ∅ |}.

Definition campaign_start_no_days : state :=
  {| self_ := sim;
     objects := <[5%nat := no_days]> ∅;
     entries := tm_entries_no_position;
     handles := 4;
     visiblity_files := ["left over"];
     journal := [] |}.

(** The three-day campaign without array beam. *)
Definition campaign_start_no_beam : state :=
  {| self_ := sim;
     objects := <[5%nat := three_days]> ∅;
     entries := tm_entries;
     handles := 0;
     visiblity_files := [];
     journal := [] |}.

Definition campaign_end_no_beam : state :=
  match run_simulation_long ext_ok day_ext_ok 1 campaign_start_no_beam
          {| path := "/tm" |} sky_6 5 with
  | Ok (_, st') => st'
  | _ => campaign_start_no_beam
  end.

Import SkyModel.

(** Three sources given by position and flux. *)
Definition three_sources : array :=
  {| shape := [3; 3]%nat;
     data := [Num 10; Num 20; Num 5;
              Num 11; Num 21; Num 50;
              Num 12; Num 22; Num 7] |}.

Definition a_point_source : point_source :=
  {| right_ascension := 20; declination := -30; stokes_I_flux := 8;
     stokes_Q_flux := 0; stokes_U_flux := 0; stokes_V_flux := 0;
     reference_frequency := 0; spectral_index := 0; rotation_measure := 0;
     major_axis_FWHM := 0; minor_axis_FWHM := 0; position_angle := 0;
     source_id := PyNone |}.

Definition empty_model : SkyModel := {| num_sources := 0; sources := None |}.

(** The model made of [three_sources]. *)
Definition model_3 : SkyModel :=
  {| num_sources := 3;
     sources :=
       Some {| shape := [3; 13]%nat;
               data := ([Num 10; Num 20; Num 5] ++ replicate 9 (Num 0) ++ [PyNone]) ++
                       ([Num 11; Num 21; Num 50] ++ replicate 9 (Num 0) ++ [PyNone]) ++
                       ([Num 12; Num 22; Num 7] ++ replicate 9 (Num 0) ++ [PyNone]) |} |}.

(** [model_3] without the sources fainter than 6 Jy. *)
Definition model_3_bright : SkyModel :=
  {| num_sources := 2;
     sources :=
       Some {| shape := [2; 13]%nat;
               data := ([Num 11; Num 21; Num 50] ++ replicate 9 (Num 0) ++ [PyNone]) ++
                       ([Num 12; Num 22; Num 7] ++ replicate 9 (Num 0) ++ [PyNone]) |} |}.

(** A [float] that reads decimal digits, with a line feed allowed at the
    end. *)
Definition float_digits (s : string) : option Z :=
  if String.eqb s "0" || String.eqb s ("0" +:+ PerformanceTest.newline) then Some 0
  else if String.eqb s "1" || String.eqb s ("1" +:+ PerformanceTest.newline) then Some 1
  else if String.eqb s "25" || String.eqb s ("25" +:+ PerformanceTest.newline) then Some 25
  else None.

(** A layout file of two stations, and one with a line of seven values. *)
Definition layout_files : gmap string (list string) :=
  <["tm/layout.txt" := ["0,0" +:+ PerformanceTest.newline; "25,1,0" +:+ PerformanceTest.newline]]>
  (<["bad/layout.txt" := ["0,0,0,0,0,0,1" +:+ PerformanceTest.newline]]> ∅).

End Examples.

(** * Proofs *)

(** ** Facts about the helpers *)

Module NpFacts.

Import Np.

Lemma bind_Ok {A B} (m : outcome A) (k : A -> outcome B) b :
  (m ≫= k) = Ok b -> exists a, m = Ok a /\ k a = Ok b.
Proof. destruct m; simpl; intros H; try discriminate. eauto. Qed.

Lemma for_each_Ok_length {A B} (f : A -> outcome B) l ys :
  for_each f l = Ok ys -> length ys = length l.
Proof.
  revert ys. induction l as [|x l IH]; intros ys H; simpl in H.
  - by inversion H.
  - destruct (f x) as [y| |]; simpl in H; try discriminate.
    destruct (for_each f l) as [ys'| |]; simpl in H; try discriminate.
    inversion H; subst. simpl. f_equal. by apply IH.
Qed.

Lemma for_each_Ok_lookup {A B} (f : A -> outcome B) l ys i x :
  for_each f l = Ok ys -> l !! i = Some x -> exists y, ys !! i = Some y /\ f x = Ok y.
Proof.
  revert ys i. induction l as [|x' l IH]; intros ys i H Hi; [done|].
  simpl in H.
  destruct (f x') as [y'| |] eqn:Hx; simpl in H; try discriminate.
  destruct (for_each f l) as [ys'| |]; simpl in H; try discriminate.
  inversion H; subst. destruct i as [|i]; simpl in *.
  - inversion Hi; subst. eauto.
  - eauto.
Qed.

Lemma for_each_all_Ok {A B} (f : A -> outcome B) (g : A -> B) l :
  (forall x, x ∈ l -> f x = Ok (g x)) -> for_each f l = Ok (g <$> l).
Proof.
  induction l as [|x l IH]; intros H; [done|].
  simpl. rewrite H by left. simpl. rewrite IH; [done|].
  intros y Hy. apply H. by right.
Qed.

Lemma for_each_Forall2 {A B} (f : A -> outcome B) (P : A -> B -> Prop) l :
  (forall x, x ∈ l -> exists y, f x = Ok y /\ P x y) ->
  exists ys, for_each f l = Ok ys /\ Forall2 P l ys.
Proof.
  induction l as [|x l IH]; intros H.
  - exists []. split; [done|constructor].
  - destruct (H x) as (y & Hy & HP); [by left|].
    destruct IH as (ys & Hys & HF); [intros z Hz; apply H; by right|].
    exists (y :: ys). split; [|by constructor].
    simpl. rewrite Hy. simpl. by rewrite Hys.
Qed.

Lemma for_each_not_Hang {A B} (f : A -> outcome B) l :
  (forall x, x ∈ l -> f x <> Hang) -> for_each f l <> Hang.
Proof.
  induction l as [|x l IH]; intros H; [done|]. simpl.
  destruct (f x) as [y| |] eqn:Hx; simpl; [|done|].
  - destruct (for_each f l) as [ys| |] eqn:Hl; simpl; [done|done|].
    exfalso. apply IH; [|done]. intros z Hz. apply H. by right.
  - exfalso. apply (H x); [by left|done].
Qed.

Lemma of_option_not_Hang {A} e (o : option A) : of_option e o <> Hang.
Proof. by destruct o. Qed.

End NpFacts.

Module PartitionFacts.

Import Np Interferometer Spec Examples NpFacts.

Global Instance freq_le_total : Total freq_le.
Proof. intros r1 r2. unfold freq_le. lia. Qed.

Global Instance freq_le_trans : Transitive freq_le.
Proof. intros r1 r2 r3. unfold freq_le. lia. Qed.

Lemma sort_by_freq_Permutation a : sort_by_freq a ≡ₚ a.
Proof. apply merge_sort_Permutation. Qed.

Lemma sort_by_freq_StronglySorted a : StronglySorted freq_le (sort_by_freq a).
Proof. apply (StronglySorted_merge_sort _). Qed.

Lemma sort_by_freq_length a : length (sort_by_freq a) = length a.
Proof. by rewrite sort_by_freq_Permutation. Qed.

(** Dense ranks follow the order of the values. *)
Lemma rank_of_mono fs f g : f <= g -> rank_of fs f <= rank_of fs g.
Proof.
  intros Hfg. unfold rank_of. apply inj_le, submseteq_length, NoDup_submseteq.
  - apply NoDup_remove_dups.
  - intros x. rewrite !elem_of_remove_dups, !list_elem_of_filter.
    intros [? ?]; split; [lia|done].
Qed.

Lemma rank_of_Permutation fs fs' f : fs ≡ₚ fs' -> rank_of fs f = rank_of fs' f.
Proof.
  intros Hp. unfold rank_of. f_equal. apply Permutation_length, NoDup_Permutation.
  - apply NoDup_remove_dups.
  - apply NoDup_remove_dups.
  - intros x. rewrite !elem_of_remove_dups, !list_elem_of_filter. by rewrite Hp.
Qed.

Lemma dense_rank_Permutation fs fs' : fs ≡ₚ fs' -> dense_rank fs ≡ₚ dense_rank fs'.
Proof.
  intros Hp. unfold dense_rank.
  transitivity (rank_of fs <$> fs'); [by apply fmap_Permutation|].
  erewrite (list_fmap_ext (rank_of fs)); [done|]. intros i x _.
  by apply rank_of_Permutation.
Qed.

Lemma ranks_of_sorted a :
  StronglySorted Z.le (dense_rank (freq <$> sort_by_freq a)).
Proof.
  unfold dense_rank.
  apply (StronglySorted_fmap _ Z.le Z.le); [intros x y; apply rank_of_mono|].
  apply (StronglySorted_fmap _ freq_le Z.le); [by intros x y|].
  apply sort_by_freq_StronglySorted.
Qed.

Lemma StronglySorted_lookup_le {A} (R : relation A) `{!Reflexive R} (l : list A) i j x y :
  StronglySorted R l -> (i <= j)%nat -> l !! i = Some x -> l !! j = Some y -> R x y.
Proof.
  intros Hs. revert i j. induction Hs as [|z l Hs IH Hall]; intros i j Hij Hi Hj; [done|].
  destruct i as [|i], j as [|j]; simpl in *; simplify_eq.
  - reflexivity.
  - rewrite Forall_forall in Hall. apply Hall. by eapply list_elem_of_lookup_2.
  - lia.
  - eapply IH; [|done..]. lia.
Qed.

(** In a sorted rank column the first positions of two ranks come in the
    order of the ranks. *)
Lemma first_index_mono ranks t1 t2 i1 i2 :
  StronglySorted Z.le ranks -> t1 <= t2 ->
  first_index_of_rank ranks t1 = Ok i1 ->
  first_index_of_rank ranks t2 = Ok i2 ->
  (i1 <= i2)%nat.
Proof.
  unfold first_index_of_rank. intros Hs Ht H1 H2.
  destruct (list_find _ ranks) as [[j1 x1]|] eqn:E1; simplify_eq.
  destruct (list_find (λ r, r = t2) ranks) as [[j2 x2]|] eqn:E2; simplify_eq.
  apply list_find_Some in E1 as (Hl1 & -> & Hmin1).
  apply list_find_Some in E2 as (Hl2 & -> & Hmin2).
  destruct (decide (i1 <= i2)%nat) as [|Hgt]; [done|]. exfalso.
  assert (t2 <= t1) as Hle.
  { eapply (StronglySorted_lookup_le Z.le ranks i2 i1); [done| lia |done..]. }
  assert (t1 = t2) as -> by lia.
  eapply (Hmin1 i2); [done| lia | done].
Qed.

Lemma first_index_lt_length ranks t i :
  first_index_of_rank ranks t = Ok i -> (i < length ranks)%nat.
Proof.
  unfold first_index_of_rank. intros H.
  destruct (list_find _ ranks) as [[j x]|] eqn:E; simplify_eq.
  apply list_find_Some in E as (Hl & _). by eapply lookup_lt_Some.
Qed.

Lemma split_idxs_sorted ranks ts idxs :
  StronglySorted Z.le ranks -> StronglySorted Z.le ts ->
  for_each (first_index_of_rank ranks) ts = Ok idxs ->
  StronglySorted le idxs /\ Forall (fun i => (i < length ranks)%nat) idxs.
Proof.
  intros Hr Hts. revert idxs.
  induction Hts as [|t ts Hts IH Hall]; intros idxs H; simpl in H.
  - inversion H. split; constructor.
  - destruct (first_index_of_rank ranks t) as [i| |] eqn:Hi; simpl in H; try discriminate.
    destruct (for_each _ ts) as [is'| |] eqn:Hrest; simpl in H; try discriminate.
    inversion H; subst. destruct (IH _ eq_refl) as [IH1 IH2].
    split.
    + constructor; [done|]. apply Forall_lookup. intros k j Hj.
      destruct (lookup_lt_is_Some_2 ts k) as [t' Ht'].
      { erewrite <-for_each_Ok_length by done. by eapply lookup_lt_Some. }
      destruct (for_each_Ok_lookup _ _ _ _ _ Hrest Ht') as (j' & Hj' & Hf).
      simplify_eq. eapply (first_index_mono ranks t t'); [done| |done..].
      rewrite Forall_forall in Hall. apply Hall. by eapply list_elem_of_lookup_2.
    + constructor; [|done]. by eapply first_index_lt_length.
Qed.

(** Slices that meet end to end. *)
Lemma slice_app {A} (l : list A) b m e :
  (b <= m)%nat -> (m <= e)%nat -> slice b m l ++ slice m e l = slice b e l.
Proof.
  intros Hbm Hme. unfold slice.
  replace (drop m l) with (drop (m - b) (drop b l))
    by (rewrite drop_drop; f_equal; lia).
  rewrite take_take_drop. f_equal. lia.
Qed.

Lemma slice_full {A} (l : list A) : slice 0 (length l) l = l.
Proof. unfold slice. rewrite drop_0, Nat.sub_0_r. by apply take_ge. Qed.

Lemma concat_split_at {A} (l : list A) b bs :
  StronglySorted le (b :: bs) ->
  concat (split_at (b :: bs) l) = slice b (default b (last (b :: bs))) l.
Proof.
  revert b. induction bs as [|b' bs IH]; intros b Hs.
  - simpl. unfold slice. by rewrite Nat.sub_diag.
  - apply StronglySorted_inv in Hs as [Hs Hall].
    change (split_at (b :: b' :: bs) l) with (slice b b' l :: split_at (b' :: bs) l).
    rewrite concat_cons, IH by done.
    rewrite last_cons_cons.
    assert (b' <= default b' (last (b' :: bs)))%nat as Hlast.
    { destruct (last (b' :: bs)) as [x|] eqn:Hx; simpl; [|lia].
      apply last_Some_elem_of in Hx. apply elem_of_cons in Hx as [->|Hx]; [lia|].
      apply StronglySorted_inv in Hs as [_ Hall']. rewrite Forall_forall in Hall'. by apply Hall'. }
    replace (default b (last (b' :: bs))) with (default b' (last (b' :: bs)))
      by (destruct (last (b' :: bs)) eqn:Hx; [done|]; by apply last_None in Hx).
    apply slice_app; [|done]. apply Forall_inv in Hall. lia.
Qed.


Lemma split_at_length {A} (l : list A) d : length (split_at d l) = pred (length d).
Proof.
  induction d as [|b d IH]; [done|].
  destruct d as [|b' d]; [done|].
  change (split_at (b :: b' :: d) l) with (slice b b' l :: split_at (b' :: d) l).
  rewrite length_cons, IH. done.
Qed.

Lemma split_at_lookup {A} (l : list A) d i c :
  split_at d l !! i = Some c ->
  exists st en, d !! i = Some st /\ d !! S i = Some en /\ c = slice st en l.
Proof.
  revert i. induction d as [|b d IH]; intros i H; [done|].
  destruct d as [|b' d]; [done|].
  change (split_at (b :: b' :: d) l) with (slice b b' l :: split_at (b' :: d) l) in H.
  destruct i as [|i]; simpl in H.
  - inversion H. by exists b, b'.
  - destruct (IH _ H) as (st & en & ? & ? & ?). by exists st, en.
Qed.

Lemma np_split_nonempty {A} (l : list A) idxs : np_split l idxs <> [].
Proof.
  intros H. apply (f_equal length) in H. unfold np_split in H.
  rewrite split_at_length in H. simpl in H. rewrite length_app in H. simpl in H. lia.
Qed.

Lemma StronglySorted_fmap_seq {B} (R : relation B) (f : nat -> B) a n :
  (forall i j, (i <= j)%nat -> R (f i) (f j)) -> StronglySorted R (f <$> seq a n).
Proof.
  intros Hf. revert a. induction n as [|n IH]; intros a; simpl; constructor; [done|].
  apply Forall_fmap, Forall_forall. intros j Hj. apply elem_of_seq in Hj. apply Hf. lia.
Qed.

Lemma StronglySorted_tail {B} (R : relation B) l :
  StronglySorted R l -> StronglySorted R (tail l).
Proof. destruct 1; [constructor|done]. Qed.

Lemma ceil_div_nonneg r n : 0 <= r -> 0 < n -> 0 <= ceil_div r n.
Proof.
  intros Hr Hn. unfold ceil_div.
  assert ((- r) `div` n <= 0); [|lia].
  apply Z.div_le_upper_bound; lia.
Qed.

Lemma dense_rank_nonneg fs : Forall (fun r => 0 <= r) (dense_rank fs).
Proof. unfold dense_rank, rank_of. apply Forall_fmap, Forall_forall. intros x _. simpl. lia. Qed.

(** The comparison of a truth value with [1] never holds: the body of the
    loop always ends in [break]. *)
Lemma int_of_bool_gt_1 b : (int_of_bool b >? 1) = false.
Proof. by destruct b. Qed.

Lemma split_body_breaks self gpu a ranks N :
  split_body self gpu a ranks N = (chunks ← split_once a ranks N; Ok (Break chunks)).
Proof.
  unfold split_body.
  destruct (split_once a ranks N) as [chunks| |] eqn:Hs; simpl; [|done..].
  destruct (is_cuda_available gpu && truthy_float (max_vram_usage_gpu self)); [|done].
  unfold split_once in Hs.
  destruct (of_option IndexError (last ranks)) as [r| |]; simpl in Hs; try discriminate.
  destruct (for_each _ _) as [idxs| |]; simpl in Hs; try discriminate.
  inversion Hs as [Hc].
  destruct (np_split a idxs) as [|c cs] eqn:Hnp; [by apply np_split_nonempty in Hnp|].
  simpl. by rewrite int_of_bool_gt_1.
Qed.

Lemma split_loop_one_pass fuel self gpu a ranks N :
  split_loop (S fuel) self gpu a ranks N = split_once a ranks N.
Proof.
  simpl. rewrite split_body_breaks.
  by destruct (split_once a ranks N).
Qed.

Lemma split_once_idxs a ranks N chunks :
  StronglySorted Z.le ranks -> Forall (fun r => 0 <= r) ranks ->
  length ranks = length a ->
  split_once a ranks N = Ok chunks ->
  exists idxs, chunks = np_split a idxs /\
    StronglySorted le (0%nat :: idxs ++ [length a]).
Proof.
  intros Hs Hpos Hlen H. unfold split_once in H.
  destruct (last ranks) as [r|] eqn:Hlast; simpl in H; [|discriminate].
  destruct (for_each _ _) as [idxs| |] eqn:Hidx; simpl in H; try discriminate.
  inversion H; subst. exists idxs. split; [done|].
  assert (StronglySorted Z.le
            (tail ((fun i : nat => 0 + ceil_div r (Z.of_nat N) * Z.of_nat i) <$> seq 0 N)))
    as Hts.
  { apply StronglySorted_tail.
    destruct N as [|N]; [constructor|].
    apply StronglySorted_fmap_seq. intros i j Hij.
    assert (0 <= ceil_div r (Z.of_nat (S N))).
    { apply ceil_div_nonneg; [|lia].
      rewrite Forall_forall in Hpos. apply Hpos. by eapply last_Some_elem_of. }
    nia. }
  destruct (split_idxs_sorted _ _ _ Hs Hts Hidx) as [Hi1 Hi2].
  constructor.
  - apply StronglySorted_app; split_and!; [|done|repeat constructor].
    intros x1 x2 Hx1 ->%list_elem_of_singleton.
    rewrite Forall_forall in Hi2. apply Hi2 in Hx1. lia.
  - apply Forall_forall. intros; lia.
Qed.

Lemma np_split_disjoint_slices {A} (l : list A) idxs :
  StronglySorted le (0%nat :: idxs ++ [length l]) ->
  disjoint_slices (np_split l idxs) l /\ concat (np_split l idxs) = l.
Proof.
  intros Hs. split.
  - exists (0%nat :: idxs ++ [length l]). split_and!; [done|done| | |].
    + by rewrite app_comm_cons, last_snoc.
    + unfold np_split. rewrite split_at_length. simpl. by rewrite length_app, Nat.add_1_r.
    + intros i c. apply split_at_lookup.
  - unfold np_split. rewrite concat_split_at by done.
    rewrite app_comm_cons, last_snoc. apply slice_full.
Qed.

Lemma frequency_split_Ok fuel self gpu N array_sky chunks :
  frequency_split fuel self gpu N array_sky = Ok chunks ->
  exists idxs, chunks = np_split (sort_by_freq array_sky) idxs /\
    StronglySorted le (0%nat :: idxs ++ [length (sort_by_freq array_sky)]).
Proof.
  unfold frequency_split. intros H.
  destruct (column6 array_sky) as [fs| |]; simpl in H; try discriminate.
  destruct fuel as [|fuel]; [discriminate|].
  rewrite split_loop_one_pass in H.
  eapply split_once_idxs; [apply ranks_of_sorted|apply dense_rank_nonneg| |done].
  unfold dense_rank. by rewrite !length_fmap.
Qed.

(** *** The 100-row scenario *)

Lemma column6_Ok a :
  Forall (fun r : list Z => (6 < length r)%nat) a -> column6 a = Ok (freq <$> a).
Proof.
  intros Ha. unfold column6. apply for_each_all_Ok. intros r Hr.
  rewrite Forall_forall in Ha. apply Ha in Hr.
  unfold freq. destruct (lookup_lt_is_Some_2 r 6 Hr) as [x ->]. done.
Qed.

Lemma split_sky_frequency fuel self gpu N a :
  frequency_mode self -> split_sky fuel self gpu N a = frequency_split fuel self gpu N a.
Proof. intros [H1 H2]. unfold split_sky. by rewrite H1, H2. Qed.

Lemma slice_length {A} (l : list A) st en :
  (en <= length l)%nat -> length (slice st en l) = (en - st)%nat.
Proof. intros H. unfold slice. rewrite length_take, length_drop. lia. Qed.

Lemma fmap_slice {A B} (f : A -> B) (l : list A) st en :
  f <$> slice st en l = slice st en (f <$> l).
Proof. unfold slice. by rewrite fmap_take, fmap_drop. Qed.

Lemma sorted_ranks_uniform a :
  dense_rank (freq <$> a) ≡ₚ uniform_ranks ->
  dense_rank (freq <$> sort_by_freq a) = uniform_ranks.
Proof.
  intros Hp. apply (StronglySorted_unique Z.le).
  - apply ranks_of_sorted.
  - apply (bool_decide_unpack _). by vm_compute.
  - rewrite <-Hp. apply dense_rank_Permutation, fmap_Permutation, sort_by_freq_Permutation.
Qed.

Lemma ranks_within_slice a st en lo hi :
  dense_rank (freq <$> sort_by_freq a) = uniform_ranks ->
  Forall (fun k => lo <= k < hi) (slice st en uniform_ranks) ->
  ranks_within a lo hi (slice st en (sort_by_freq a)).
Proof.
  intros Hu Hall. unfold ranks_within.
  apply (Forall_fmap (row_rank a) (fun k => lo <= k < hi)).
  rewrite fmap_slice.
  replace (row_rank a <$> sort_by_freq a) with uniform_ranks; [done|].
  rewrite <-Hu. unfold dense_rank. rewrite <-list_fmap_compose.
  apply list_fmap_ext. intros i r _. unfold row_rank. simpl.
  apply rank_of_Permutation, fmap_Permutation, sort_by_freq_Permutation.
Qed.

Lemma sky_100_uniform : dense_rank (freq <$> sky_100) ≡ₚ uniform_ranks.
Proof.
  rewrite <-(merge_sort_Permutation Z.le (dense_rank (freq <$> sky_100))).
  by vm_compute.
Qed.

Lemma sky_100_columns : Forall (fun r : list Z => (6 < length r)%nat) sky_100.
Proof. apply (bool_decide_unpack _). by vm_compute. Qed.

(** Whatever the GPU and the budget, the split is the one of the first
    pass. *)
Lemma split_sky_ignores_budget fuel fuel' self gpu gpu' N a :
  split_sky (S fuel) self gpu N a = split_sky (S fuel') self gpu' N a.
Proof.
  unfold split_sky, frequency_split.
  destruct (truthy_list _); [done|].
  destruct (String.eqb _ _); [|done].
  destruct (column6 a); [|done..].
  change (Ok ?x ≫= ?k) with (k x). cbv beta.
  by rewrite !split_loop_one_pass.
Qed.

Lemma take_row_py_index (a : list (list Z)) i :
  - Z.of_nat (length a) <= i < Z.of_nat (length a) ->
  exists r, take_row a i = Ok r /\ py_index a i = Some r.
Proof.
  intros Hi. unfold take_row, py_index.
  destruct (decide (0 <= i)) as [Hpos|Hneg].
  - destruct (lookup_lt_is_Some_2 a (Z.to_nat i)) as [r Hr]; [lia|].
    exists r. rewrite Hr.
    replace (0 <=? i) with true by lia. replace (i <? Z.of_nat (length a)) with true by lia.
    done.
  - destruct (lookup_lt_is_Some_2 a (Z.to_nat (Z.of_nat (length a) + i))) as [r Hr]; [lia|].
    exists r. rewrite Hr.
    replace (0 <=? i) with false by lia. simpl.
    replace (- Z.of_nat (length a) <=? i) with true by lia.
    replace (i <? 0) with true by lia. simpl.
    rewrite decide_True by lia. done.
Qed.

Lemma index_shape_ok_Ok groups k :
  groups <> [] -> (0 < k)%nat -> Forall (fun g : list Z => length g = k) groups ->
  index_shape_ok groups = Ok tt.
Proof.
  intros Hne Hk Hall. destruct groups as [|g gs]; [done|].
  apply Forall_cons in Hall as [Hg Hgs]. unfold index_shape_ok.
  replace (forallb _ gs) with true.
  - simpl. replace (length g =? 0)%nat with false; [done|].
    symmetry. apply Nat.eqb_neq. lia.
  - symmetry. apply forallb_forall. intros g' Hg'. apply Nat.eqb_eq.
    rewrite Forall_forall in Hgs. rewrite Hg. apply Hgs. by apply list_elem_of_In.
Qed.

Lemma split_sky_nonempty fuel self gpu N a chunks :
  split_sky fuel self gpu N a = Ok chunks -> chunks <> [].
Proof.
  unfold split_sky. intros H.
  destruct (split_idxs_per_group self) as [[|g gs]|] eqn:Hg; simpl in H.
  3:{ destruct (String.eqb _ _); [|discriminate].
      apply frequency_split_Ok in H as (idxs & -> & _). apply np_split_nonempty. }
  1:{ destruct (String.eqb _ _); [|discriminate].
      apply frequency_split_Ok in H as (idxs & -> & _). apply np_split_nonempty. }
  unfold np_take in H. apply bind_Ok in H as (u & _ & H).
  apply for_each_Ok_length in H. intros ->. discriminate.
Qed.

(** *** When the split returns *)

Lemma distinct_sorted_NoDup fs : NoDup (distinct_sorted fs).
Proof.
  unfold distinct_sorted. rewrite merge_sort_Permutation. apply NoDup_remove_dups.
Qed.

Lemma distinct_sorted_elem_of fs x : x ∈ distinct_sorted fs <-> x ∈ fs.
Proof.
  unfold distinct_sorted. rewrite merge_sort_Permutation. apply elem_of_remove_dups.
Qed.

Lemma distinct_sorted_length fs :
  length (distinct_sorted fs) = length (remove_dups fs).
Proof. unfold distinct_sorted. by rewrite merge_sort_Permutation. Qed.

Lemma distinct_sorted_lt fs i j x y :
  distinct_sorted fs !! i = Some x -> distinct_sorted fs !! j = Some y ->
  (i < j)%nat -> x < y.
Proof.
  intros Hi Hj Hij.
  assert (x <= y).
  { eapply (StronglySorted_lookup_le Z.le (distinct_sorted fs) i j); [|lia|done..].
    apply (StronglySorted_merge_sort _). }
  assert (x <> y); [|lia]. intros ->.
  pose proof (NoDup_lookup _ _ _ _ (distinct_sorted_NoDup fs) Hi Hj). lia.
Qed.

(** The [i]-th distinct value has dense rank [i + 1]. *)
Lemma rank_of_distinct fs i d :
  distinct_sorted fs !! i = Some d -> rank_of fs d = Z.of_nat (S i).
Proof.
  intros Hd. unfold rank_of. f_equal.
  assert (length (take (S i) (distinct_sorted fs)) = S i) as <-.
  { rewrite length_take. apply lookup_lt_Some in Hd. lia. }
  apply Permutation_length, NoDup_Permutation.
  - apply NoDup_remove_dups.
  - eapply sublist_NoDup; [apply distinct_sorted_NoDup|apply sublist_take].
  - intros x. rewrite elem_of_remove_dups, list_elem_of_filter, elem_of_take. split.
    + intros [Hle Hx]. apply distinct_sorted_elem_of in Hx.
      apply list_elem_of_lookup in Hx as [j Hj]. exists j. split; [done|].
      destruct (decide (j < S i)%nat) as [|Hge]; [done|]. exfalso.
      assert (d < x); [|lia]. eapply (distinct_sorted_lt fs i j); [done..|lia].
    + intros (j & Hj & Hlt). split.
      * destruct (decide (j = i)) as [->|Hne]; [by simplify_eq|].
        assert (x < d); [|lia]. eapply (distinct_sorted_lt fs j i); [done..|lia].
      * apply distinct_sorted_elem_of. by eapply list_elem_of_lookup_2.
Qed.

Lemma elem_of_length_pos {A} (l : list A) x : x ∈ l -> 1 <= Z.of_nat (length l).
Proof. destruct 1; simpl; lia. Qed.

Lemma rank_of_le_distinct fs f :
  rank_of fs f <= Z.of_nat (length (remove_dups fs)).
Proof.
  unfold rank_of. apply inj_le, submseteq_length, NoDup_submseteq.
  - apply NoDup_remove_dups.
  - intros x. rewrite !elem_of_remove_dups, list_elem_of_filter. by intros [_ ?].
Qed.

(** Every rank from 1 to the number of distinct values is taken. *)
Lemma dense_rank_covers fs t :
  1 <= t <= Z.of_nat (length (remove_dups fs)) -> t ∈ dense_rank fs.
Proof.
  intros Ht. rewrite <-distinct_sorted_length in Ht.
  destruct (lookup_lt_is_Some_2 (distinct_sorted fs) (Z.to_nat (t - 1))) as [d Hd]; [lia|].
  unfold dense_rank. apply list_elem_of_fmap. exists d. split.
  - rewrite (rank_of_distinct _ _ _ Hd). lia.
  - apply distinct_sorted_elem_of. by eapply list_elem_of_lookup_2.
Qed.

Lemma dense_rank_last fs r :
  StronglySorted Z.le (dense_rank fs) -> last (dense_rank fs) = Some r ->
  r = Z.of_nat (length (remove_dups fs)).
Proof.
  intros Hs Hlast.
  assert (r <= Z.of_nat (length (remove_dups fs))) as Hle.
  { apply last_Some_elem_of in Hlast. unfold dense_rank in Hlast.
    apply list_elem_of_fmap in Hlast as (f & -> & _). apply rank_of_le_distinct. }
  assert (1 <= r) as Hpos.
  { pose proof Hlast as Hl. apply last_Some_elem_of in Hl. unfold dense_rank in Hl.
    apply list_elem_of_fmap in Hl as (f & -> & Hf). unfold rank_of.
    apply (elem_of_length_pos _ f).
    apply elem_of_remove_dups, list_elem_of_filter. split; [lia|done]. }
  destruct (decide (r = Z.of_nat (length (remove_dups fs)))) as [|Hne]; [done|]. exfalso.
  assert (Z.of_nat (length (remove_dups fs)) ∈ dense_rank fs) as Hin
    by (apply dense_rank_covers; lia).
  apply list_elem_of_lookup in Hin as [i Hi].
  rewrite last_lookup in Hlast.
  assert (Z.of_nat (length (remove_dups fs)) <= r); [|lia].
  eapply (StronglySorted_lookup_le Z.le (dense_rank fs) i (pred (length (dense_rank fs))));
    [done| |done..].
  apply lookup_lt_Some in Hi. lia.
Qed.

Lemma first_index_of_rank_Ok ranks t :
  t ∈ ranks -> exists i, first_index_of_rank ranks t = Ok i.
Proof.
  intros Ht. unfold first_index_of_rank.
  destruct (list_find_elem_of (fun r => r = t) ranks t Ht eq_refl) as [[i x] ->]. eauto.
Qed.

(** The split returns whenever the collection is not empty, has its column
    6, and the last boundary [(N - 1) * spacing] is a rank that occurs. *)
Lemma frequency_split_returns fuel self gpu N a :
  a <> [] ->
  Forall (fun r : list Z => (6 < length r)%nat) a ->
  ceil_div (distinct_frequencies a) (Z.of_nat N) * (Z.of_nat N - 1)
    <= distinct_frequencies a ->
  exists chunks, frequency_split (S fuel) self gpu N a = Ok chunks.
Proof.
  intros Hne Hcols Hbound. unfold frequency_split.
  rewrite (column6_Ok a Hcols).
  change (Ok ?x ≫= ?k) with (k x). cbv beta.
  rewrite split_loop_one_pass.
  set (sorted := sort_by_freq a).
  assert (remove_dups (freq <$> sorted) ≡ₚ remove_dups (freq <$> a)) as Hperm.
  { apply NoDup_Permutation; [apply NoDup_remove_dups..|].
    intros x. rewrite !elem_of_remove_dups. unfold sorted.
    by rewrite sort_by_freq_Permutation. }
  assert (distinct_frequencies a = Z.of_nat (length (remove_dups (freq <$> sorted)))) as HR.
  { unfold distinct_frequencies. by rewrite Hperm. }
  destruct (last (dense_rank (freq <$> sorted))) as [r|] eqn:Hlast.
  2:{ apply last_None in Hlast. apply (f_equal length) in Hlast.
      unfold dense_rank in Hlast. rewrite !length_fmap in Hlast.
      unfold sorted in Hlast. rewrite sort_by_freq_length in Hlast.
      destruct a; [done|discriminate]. }
  pose proof (dense_rank_last _ _ (ranks_of_sorted a) Hlast) as Hr.
  fold sorted in Hr. rewrite <-HR in Hr. subst r.
  unfold split_once. rewrite Hlast. simpl of_option.
  change (Ok ?x ≫= ?k) with (k x). cbv beta.
  set (R := distinct_frequencies a) in *.
  set (spacing := ceil_div R (Z.of_nat N)) in *.
  assert (1 <= R) as HRpos.
  { rewrite HR. destruct sorted as [|x l] eqn:Hs.
    - apply (f_equal length) in Hs. unfold sorted in Hs. rewrite sort_by_freq_length in Hs.
      destruct a; [done|discriminate].
    - rewrite fmap_cons. apply (elem_of_length_pos _ (freq x)).
      apply elem_of_remove_dups. left. }
  destruct (for_each_Forall2 (first_index_of_rank (dense_rank (freq <$> sorted)))
              (fun _ _ => True)
              (tail ((fun i : nat => 0 + spacing * Z.of_nat i) <$> seq 0 N)))
    as (idxs & -> & _); [|by eexists].
  intros t Ht.
  destruct (first_index_of_rank_Ok (dense_rank (freq <$> sorted)) t) as [i Hi]; [|eauto].
  apply dense_rank_covers. rewrite <-HR.
  destruct N as [|N]; [by apply elem_of_nil in Ht|].
  simpl in Ht. rewrite <-fmap_S_seq, <-list_fmap_compose in Ht.
  apply list_elem_of_fmap in Ht as (j & -> & Hj). apply elem_of_seq in Hj. simpl.
  assert (1 <= spacing).
  { unfold spacing, ceil_div.
    assert ((- R) `div` Z.of_nat (S N) < 0); [|lia].
    apply Z.div_lt_upper_bound; lia. }
  nia.
Qed.

Lemma first_index_of_rank_not_Hang ranks t : first_index_of_rank ranks t <> Hang.
Proof. unfold first_index_of_rank. by destruct (list_find _ _) as [[]|]. Qed.

(** With fuel for one pass the loop comes to an end: it returns or raises. *)
Lemma split_sky_terminates fuel self gpu N a : split_sky (S fuel) self gpu N a <> Hang.
Proof.
  unfold split_sky. destruct (truthy_list _).
  - unfold np_take. destruct (index_shape_ok _) as [[]| |] eqn:Hs; simpl; [|done|].
    + apply for_each_not_Hang. intros g _. apply for_each_not_Hang. intros i _.
      unfold take_row. repeat case_match; try done; apply of_option_not_Hang.
    + unfold index_shape_ok in Hs. repeat case_match; discriminate.
  - destruct (String.eqb _ _); [|done]. unfold frequency_split.
    destruct (column6 a) as [fs| |] eqn:Hc; [|done|].
    + change (Ok ?x ≫= ?k) with (k x). cbv beta.
      rewrite split_loop_one_pass. unfold split_once.
      destruct (last _); simpl; [|done].
      destruct (for_each _ _) as [idxs| |] eqn:Hf; simpl; [done|done|].
      exfalso. revert Hf. apply for_each_not_Hang. intros t _.
      apply first_index_of_rank_not_Hang.
    + exfalso. revert Hc. apply for_each_not_Hang. intros r _. apply of_option_not_Hang.
Qed.

Lemma for_each_raise {A B} (f : A -> outcome B) (e0 : exn) l :
  (forall x, x ∈ l -> f x = Raise e0 \/ exists y, f x = Ok y) ->
  (exists x, x ∈ l /\ f x = Raise e0) ->
  for_each f l = Raise e0.
Proof.
  induction l as [|x l IH]; intros Hall (x0 & Hx0 & Hr).
  - by apply elem_of_nil in Hx0.
  - simpl. destruct (Hall x) as [Hx|[y Hy]]; [by left|by rewrite Hx|].
    rewrite Hy. simpl.
    rewrite IH; [done| |].
    + intros z Hz. apply Hall. by right.
    + apply elem_of_cons in Hx0 as [->|?]; [congruence|eauto].
Qed.

Lemma column6_raises a :
  ~ Forall (fun r : list Z => (6 < length r)%nat) a -> column6 a = Raise IndexError.
Proof.
  intros Hn. unfold column6. apply for_each_raise.
  - intros r _. destruct (r !! 6%nat); eauto.
  - apply not_Forall_Exists in Hn; [|apply _]. apply Exists_exists in Hn as (r & Hr & Hlen).
    exists r. split; [done|]. rewrite lookup_ge_None_2; [done|]. simpl in Hlen. lia.
Qed.

(** The rank column of the sorted array gives each row its dense rank in
    the collection. *)
Lemma sorted_ranks_are_row_ranks a :
  dense_rank (freq <$> sort_by_freq a) = row_rank a <$> sort_by_freq a.
Proof.
  unfold dense_rank. rewrite <-list_fmap_compose.
  apply list_fmap_ext. intros i r _. unfold row_rank. simpl.
  apply rank_of_Permutation, fmap_Permutation, sort_by_freq_Permutation.
Qed.

Lemma distinct_frequencies_sorted a :
  distinct_frequencies (sort_by_freq a) = distinct_frequencies a.
Proof.
  unfold distinct_frequencies. f_equal. apply Permutation_length.
  apply NoDup_Permutation; [apply NoDup_remove_dups..|].
  intros x. rewrite !elem_of_remove_dups. by rewrite sort_by_freq_Permutation.
Qed.

Lemma sorted_last_rank a :
  a <> [] ->
  last (dense_rank (freq <$> sort_by_freq a)) = Some (distinct_frequencies a).
Proof.
  intros Hne.
  destruct (last (dense_rank (freq <$> sort_by_freq a))) as [r|] eqn:Hlast.
  - rewrite (dense_rank_last _ _ (ranks_of_sorted a) Hlast).
    fold (distinct_frequencies (sort_by_freq a)). by rewrite distinct_frequencies_sorted.
  - apply last_None in Hlast. apply (f_equal length) in Hlast.
    unfold dense_rank in Hlast. rewrite !length_fmap, sort_by_freq_length in Hlast.
    destruct a; [done|discriminate].
Qed.

Lemma row_rank_bounds a r :
  r ∈ a -> 1 <= row_rank a r <= distinct_frequencies a.
Proof.
  intros Hr. unfold row_rank. split; [|apply rank_of_le_distinct].
  unfold rank_of. apply (elem_of_length_pos _ (freq r)).
  apply elem_of_remove_dups, list_elem_of_filter. split; [lia|].
  apply list_elem_of_fmap. eauto.
Qed.

Lemma distinct_frequencies_pos a : a <> [] -> 1 <= distinct_frequencies a.
Proof.
  destruct a as [|r a]; [done|]. intros _.
  assert (r ∈ r :: a) as Hin by left.
  pose proof (row_rank_bounds (r :: a) r Hin). lia.
Qed.

Lemma ceil_div_pos r n : 1 <= r -> 0 < n -> 1 <= ceil_div r n.
Proof.
  intros Hr Hn. unfold ceil_div.
  assert ((- r) `div` n < 0); [|lia]. apply Z.div_lt_upper_bound; lia.
Qed.

(** The boundaries the loop looks up for [N] workers. *)
Lemma split_targets spacing N :
  tail ((fun i : nat => 0 + spacing * Z.of_nat i) <$> seq 0 N)
    = (fun i : nat => spacing * (Z.of_nat i + 1)) <$> seq 0 (pred N).
Proof.
  destruct N as [|N]; [done|]. simpl.
  rewrite <-fmap_S_seq, <-list_fmap_compose. apply list_fmap_ext.
  intros i x _. simpl. f_equal. lia.
Qed.

Lemma frequency_split_unfold fuel self gpu N a :
  a <> [] ->
  Forall (fun r : list Z => (6 < length r)%nat) a ->
  frequency_split (S fuel) self gpu N a =
    (idxs ← for_each (first_index_of_rank (row_rank a <$> sort_by_freq a))
              ((fun i : nat =>
                  ceil_div (distinct_frequencies a) (Z.of_nat N) * (Z.of_nat i + 1))
                 <$> seq 0 (pred N));
     Ok (np_split (sort_by_freq a) idxs)).
Proof.
  intros Hne Hcols. unfold frequency_split. rewrite (column6_Ok a Hcols).
  change (Ok ?x ≫= ?k) with (k x). cbv beta.
  rewrite split_loop_one_pass. unfold split_once.
  rewrite (sorted_last_rank a Hne). simpl of_option.
  change (Ok ?x ≫= ?k) with (k x). cbv beta zeta.
  by rewrite split_targets, sorted_ranks_are_row_ranks.
Qed.

Lemma frequency_split_empty fuel self gpu N :
  frequency_split (S fuel) self gpu N [] = Raise IndexError.
Proof.
  unfold frequency_split. change (column6 []) with (Ok ([] : list Z)).
  change (Ok ?x ≫= ?k) with (k x). cbv beta.
  by rewrite split_loop_one_pass.
Qed.

Lemma frequency_split_raises fuel self gpu N a :
  ~ splittable N a -> frequency_split (S fuel) self gpu N a = Raise IndexError.
Proof.
  intros Hn.
  destruct (decide (a = [])) as [->|Hne]; [apply frequency_split_empty|].
  destruct (decide (Forall (fun r : list Z => (6 < length r)%nat) a)) as [Hcols|Hcols].
  2:{ unfold frequency_split. by rewrite (column6_raises a Hcols). }
  rewrite frequency_split_unfold by done.
  set (R := distinct_frequencies a). set (sp := ceil_div R (Z.of_nat N)).
  assert (~ sp * (Z.of_nat N - 1) <= R) as Hbound.
  { intros Hb. apply Hn. by split_and!. }
  pose proof (distinct_frequencies_pos a Hne) as HR. fold R in HR.
  assert (2 <= N)%nat as HN.
  { destruct N as [|[|N]]; [|exfalso; apply Hbound; lia|lia].
    exfalso; apply Hbound. unfold sp, ceil_div. rewrite Z.div_0_r. lia. }
  rewrite (for_each_raise _ IndexError); [done| |].
  - intros t _. unfold first_index_of_rank. destruct (list_find _ _) as [[i x]|]; eauto.
  - exists (sp * (Z.of_nat (N - 2) + 1)). split.
    + apply list_elem_of_fmap. exists (N - 2)%nat. split; [done|]. apply elem_of_seq. lia.
    + unfold first_index_of_rank.
      destruct (list_find _ _) as [[i x]|] eqn:Hf; [|done]. exfalso.
      apply list_find_Some in Hf as (Hl & -> & _).
      apply list_elem_of_lookup_2, list_elem_of_fmap in Hl as (r & Hr & Hin).
      rewrite sort_by_freq_Permutation in Hin.
      pose proof (row_rank_bounds a r Hin) as Hb. fold R in Hb.
      apply Hbound. rewrite <-Hr in Hb.
      replace (Z.of_nat N - 1) with (Z.of_nat (N - 2) + 1) by lia. lia.
Qed.


Lemma filter_Forall_id {A} (P : A -> Prop) `{!forall x, Decision (P x)} (l : list A) :
  Forall P l -> filter P l = l.
Proof.
  induction 1 as [|x l Hx _ IH]; [done|]. by rewrite filter_cons_True, IH.
Qed.

Lemma filter_Forall_nil {A} (P : A -> Prop) `{!forall x, Decision (P x)} (l : list A) :
  Forall (fun x => ~ P x) l -> filter P l = [].
Proof.
  induction 1 as [|x l Hx _ IH]; [done|]. by rewrite filter_cons_False.
Qed.

Lemma first_index_cuts {A} (g : A -> Z) (l : list A) t i :
  StronglySorted Z.le (g <$> l) ->
  first_index_of_rank (g <$> l) t = Ok i ->
  (i < length l)%nat /\ cuts g l i t.
Proof.
  intros Hs Hi. unfold first_index_of_rank in Hi.
  destruct (list_find _ _) as [[j x]|] eqn:Hf; simplify_eq.
  apply list_find_Some in Hf as (Hl & -> & Hmin).
  assert (i < length l)%nat as Hlt.
  { apply lookup_lt_Some in Hl. by rewrite length_fmap in Hl. }
  split; [done|]. split; apply Forall_lookup; intros j x Hj.
  - apply lookup_take_Some in Hj as [Hj Hji].
    assert ((g <$> l) !! j = Some (g x)) as Hgj by (by rewrite list_lookup_fmap, Hj).
    assert (g x <= t).
    { eapply (StronglySorted_lookup_le Z.le (g <$> l) j i); [done|lia|done..]. }
    assert (g x <> t); [|lia]. by eapply Hmin.
  - rewrite lookup_drop in Hj.
    assert ((g <$> l) !! (i + j)%nat = Some (g x)) as Hgj by (by rewrite list_lookup_fmap, Hj).
    eapply (StronglySorted_lookup_le Z.le (g <$> l) i (i + j)); [done|lia|done..].
Qed.

Lemma slice_between {A} (g : A -> Z) (l : list A) i1 t1 i2 t2 :
  cuts g l i1 t1 -> cuts g l i2 t2 -> (i1 <= i2)%nat -> (i2 <= length l)%nat -> t1 <= t2 ->
  slice i1 i2 l = filter (fun x => t1 <= g x /\ g x < t2) l.
Proof.
  intros [Hb1 Ha1] [Hb2 Ha2] Hi Hlen Ht.
  rewrite <-(take_drop i1 l) at 2. rewrite filter_app.
  rewrite (filter_Forall_nil _ (take i1 l)).
  2:{ eapply Forall_impl; [exact Hb1|]. simpl. intros; lia. }
  rewrite app_nil_l. unfold slice.
  rewrite <-(take_drop (i2 - i1) (drop i1 l)) at 2. rewrite filter_app.
  rewrite (filter_Forall_id _ (take (i2 - i1) (drop i1 l))).
  2:{ apply Forall_and. split; [by apply Forall_take|].
      rewrite take_drop_commute. apply Forall_drop.
      replace (i1 + (i2 - i1))%nat with i2 by lia. done. }
  rewrite (filter_Forall_nil _ (drop (i2 - i1) (drop i1 l))); [by rewrite app_nil_r|].
  rewrite drop_drop. replace (i1 + (i2 - i1))%nat with i2 by lia.
  eapply Forall_impl; [exact Ha2|]. simpl. intros; lia.
Qed.

Lemma slice_from {A} (g : A -> Z) (l : list A) i t :
  cuts g l i t -> slice i (length l) l = filter (fun x => t <= g x) l.
Proof.
  intros [Hb Ha]. rewrite <-(take_drop i l) at 3. rewrite filter_app.
  rewrite (filter_Forall_nil _ (take i l)).
  2:{ eapply Forall_impl; [exact Hb|]. simpl. intros; lia. }
  rewrite (filter_Forall_id _ (drop i l)) by done.
  unfold slice. rewrite app_nil_l. apply take_ge. rewrite length_drop. lia.
Qed.


Lemma for_each_fmap_seq {B} (f : Z -> outcome B) (t : nat -> Z) n ys :
  for_each f (t <$> seq 0 n) = Ok ys ->
  length ys = n /\ forall k y, ys !! k = Some y -> f (t k) = Ok y.
Proof.
  intros H. pose proof (for_each_Ok_length _ _ _ H) as Hlen.
  rewrite length_fmap, length_seq in Hlen. split; [done|].
  intros k y Hy.
  assert (k < n)%nat as Hk by (rewrite <-Hlen; by eapply lookup_lt_Some).
  assert ((t <$> seq 0 n) !! k = Some (t k)) as Hl
    by (by rewrite list_lookup_fmap, lookup_seq_lt).
  destruct (for_each_Ok_lookup _ _ _ _ _ H Hl) as (y' & Hy' & Hf). congruence.
Qed.

Lemma frequency_split_Ok_splittable fuel self gpu N a chunks :
  frequency_split fuel self gpu N a = Ok chunks ->
  exists fuel', fuel = S fuel' /\ a <> [] /\
    Forall (fun r : list Z => (6 < length r)%nat) a.
Proof.
  intros H. destruct fuel as [|fuel'].
  { unfold frequency_split in H. destruct (column6 a); discriminate. }
  exists fuel'. split; [done|]. split.
  - intros ->. by rewrite frequency_split_empty in H.
  - destruct (decide (Forall (fun r : list Z => (6 < length r)%nat) a)) as [|Hn]; [done|].
    unfold frequency_split in H. by rewrite (column6_raises a Hn) in H.
Qed.

(** Chunk [k] of the split is the part of the sorted collection whose ranks
    lie in the [k]-th interval. *)
Lemma frequency_split_chunks fuel self gpu N a chunks :
  frequency_split fuel self gpu N a = Ok chunks ->
  length chunks = Nat.max 1 N /\
  forall k c, chunks !! k = Some c ->
    c = filter (in_chunk a (ceil_div (distinct_frequencies a) (Z.of_nat N))
                  (length chunks) k)
          (sort_by_freq a).
Proof.
  intros H.
  destruct (frequency_split_Ok_splittable _ _ _ _ _ _ H) as (fuel' & -> & Hne & Hcols).
  rewrite frequency_split_unfold in H by done.
  set (R := distinct_frequencies a) in *.
  set (sp := ceil_div R (Z.of_nat N)) in *.
  set (sorted := sort_by_freq a) in *.
  apply bind_Ok in H as (idxs & Hidx & H). inversion H; subst chunks; clear H.
  assert (StronglySorted Z.le (row_rank a <$> sorted)) as Hsorted.
  { unfold sorted. rewrite <-sorted_ranks_are_row_ranks. apply ranks_of_sorted. }
  pose proof (distinct_frequencies_pos a Hne) as HR. fold R in HR.
  assert (0 <= sp) as Hsp.
  { destruct N as [|N]; [unfold sp, ceil_div; rewrite Z.div_0_r; lia|].
    pose proof (ceil_div_pos R (Z.of_nat (S N))). fold sp in H. lia. }
  assert (StronglySorted le idxs) as Hidxs.
  { eapply (split_idxs_sorted (row_rank a <$> sorted)); [done| |exact Hidx].
    apply StronglySorted_fmap_seq. intros i j Hij. nia. }
  apply for_each_fmap_seq in Hidx as [Hlen Hidx].
  assert (length (np_split sorted idxs) = Nat.max 1 N) as Hchunks.
  { unfold np_split. rewrite split_at_length. simpl. rewrite length_app. simpl. lia. }
  split; [done|]. rewrite Hchunks.
  intros k c Hc. unfold np_split in Hc.
  apply split_at_lookup in Hc as (st & en & Hst & Hen & ->).
  assert (cuts (row_rank a) sorted st (Z.of_nat k * sp) /\ (st <= length sorted)%nat
          /\ (k <= pred N)%nat) as (Hcut1 & Hst_len & Hk).
  { destruct k as [|k]; simpl in Hst.
    - inversion Hst; subst st. split_and!; [|lia..]. split; [constructor|].
      rewrite drop_0. apply Forall_forall. intros r Hr.
      unfold sorted in Hr. rewrite sort_by_freq_Permutation in Hr.
      pose proof (row_rank_bounds a r Hr). lia.
    - assert (k < length idxs)%nat as Hk.
      { destruct (decide (k < length idxs)%nat); [done|].
        rewrite lookup_app_r in Hst by lia.
        simpl in Hen. rewrite lookup_app_r in Hen by lia.
        destruct (k - length idxs)%nat as [|j] eqn:Hj; simpl in *.
        - replace (S k - length idxs)%nat with 1%nat in Hen by lia. done.
        - done. }
      rewrite lookup_app_l in Hst by done.
      destruct (first_index_cuts (row_rank a) sorted _ _ Hsorted (Hidx k st Hst))
        as [Hlt Hcut].
      replace (sp * (Z.of_nat k + 1)) with (Z.of_nat (S k) * sp) in Hcut by lia.
      split_and!; [done|lia|lia]. }
  simpl in Hen.
  destruct (decide (k < length idxs)%nat) as [Hlt|Hge].
  - rewrite lookup_app_l in Hen by done.
    destruct (first_index_cuts (row_rank a) sorted _ _ Hsorted (Hidx k en Hen))
      as [Hen_lt Hcut2].
    rewrite (slice_between (row_rank a) sorted st (Z.of_nat k * sp) en
               (sp * (Z.of_nat k + 1))); [|done|done| |lia|nia].
    + apply list_filter_iff. intros r. unfold in_chunk.
      split; [intros [? ?]; split; [done|right; lia]|].
      intros [? [?|?]]; [lia|]. split; [done|lia].
    + destruct k as [|k]; simpl in Hst; [inversion Hst; lia|].
      rewrite lookup_app_l in Hst by lia.
      eapply (StronglySorted_lookup_le le idxs k (S k)); [done|lia|done..].
  - rewrite lookup_app_r in Hen by lia.
    assert (k = length idxs) as Hkeq.
    { destruct (k - length idxs)%nat as [|j] eqn:Hj; [lia|]. by destruct j. }
    rewrite Hkeq, Nat.sub_diag in Hen. simpl in Hen. inversion Hen; subst en.
    rewrite (slice_from (row_rank a) sorted st (Z.of_nat k * sp)) by done.
    apply list_filter_iff. intros r. unfold in_chunk.
    split; [intros ?; split; [done|left; lia]|]. by intros [? _].
Qed.

End PartitionFacts.

Module PartitionSpec.

Import Np Interferometer Spec Examples NpFacts PartitionFacts.

(** C2. Whenever the frequency-rank split emits chunks, they are consecutive
    slices of the rank-sorted collection with pairwise disjoint index
    ranges, their concatenation is the sorted collection, and so their rows
    are, with multiplicity, exactly the rows of the input. *)
Theorem frequency_split_partitions fuel self gpu N array_sky chunks :
  frequency_split fuel self gpu N array_sky = Ok chunks ->
  StronglySorted freq_le (sort_by_freq array_sky) /\
  disjoint_slices chunks (sort_by_freq array_sky) /\
  concat chunks = sort_by_freq array_sky /\
  concat chunks ≡ₚ array_sky.
Proof.
  intros H. apply frequency_split_Ok in H as (idxs & -> & Hs).
  destruct (np_split_disjoint_slices _ _ Hs) as [Hd Hc].
  split_and!; [apply sort_by_freq_StronglySorted|done|done|].
  rewrite Hc. apply sort_by_freq_Permutation.
Qed.

(** C5 (as the code has it). With 100 rows spread evenly over the dense ranks
    1..10, four workers and no memory budget, the boundaries sit at the
    ranks 3, 6 and 9: four chunks of 20, 30, 30 and 20 rows, in rank order,
    covering the ranks [1,3), [3,6), [6,9) and [9,11). *)
Theorem scenario_100_rows_4_workers fuel self gpu array_sky :
  (0 < fuel)%nat ->
  frequency_mode self ->
  no_memory_budget self gpu ->
  Forall (fun r : list Z => (6 < length r)%nat) array_sky ->
  dense_rank (freq <$> array_sky) ≡ₚ uniform_ranks ->
  exists c0 c1 c2 c3,
    split_sky fuel self gpu 4 array_sky = Ok [c0; c1; c2; c3] /\
    length <$> [c0; c1; c2; c3] = [20; 30; 30; 20]%nat /\
    concat [c0; c1; c2; c3] = sort_by_freq array_sky /\
    ranks_within array_sky 1 3 c0 /\
    ranks_within array_sky 3 6 c1 /\
    ranks_within array_sky 6 9 c2 /\
    ranks_within array_sky 9 11 c3.
Proof.
  intros Hfuel Hmode _ Hcols Hranks.
  pose proof (sorted_ranks_uniform _ Hranks) as Hu.
  assert (length (sort_by_freq array_sky) = 100%nat) as Hlen.
  { rewrite <-(length_fmap freq), <-(length_fmap (rank_of (freq <$> sort_by_freq array_sky))).
    fold (dense_rank (freq <$> sort_by_freq array_sky)). by rewrite Hu. }
  set (sorted := sort_by_freq array_sky) in *.
  exists (slice 0 20 sorted), (slice 20 50 sorted), (slice 50 80 sorted), (slice 80 100 sorted).
  split_and!.
  - rewrite split_sky_frequency by done. unfold frequency_split.
    rewrite column6_Ok by done. simpl.
    destruct fuel as [|fuel]; [lia|].
    rewrite split_loop_one_pass. fold sorted. rewrite Hu.
    unfold split_once.
    change (last uniform_ranks) with (Some 10). simpl of_option.
    change (Ok 10 ≫= ?k) with (k 10). cbv beta.
    replace (for_each (first_index_of_rank uniform_ranks) _) with (Ok [20; 50; 80]%nat)
      by (by vm_compute).
    simpl. unfold np_split. simpl. rewrite Hlen. done.
  - simpl. rewrite !slice_length by lia. done.
  - assert (StronglySorted le [0; 20; 50; 80; 100]%nat) as Hs
      by (apply (bool_decide_unpack _); by vm_compute).
    pose proof (concat_split_at sorted 0 [20; 50; 80; 100]%nat Hs) as Hc.
    simpl in Hc. simpl. rewrite Hc. rewrite <-Hlen. apply slice_full.
  - apply ranks_within_slice; [done|]. apply (bool_decide_unpack _). by vm_compute.
  - apply ranks_within_slice; [done|]. apply (bool_decide_unpack _). by vm_compute.
  - apply ranks_within_slice; [done|]. apply (bool_decide_unpack _). by vm_compute.
  - apply ranks_within_slice; [done|]. apply (bool_decide_unpack _). by vm_compute.
Qed.

Lemma frequency_split_partitions_witness :
  StronglySorted freq_le (sort_by_freq sky_6) /\
  disjoint_slices
    [[source_row 1 110; source_row 3 110];
     [source_row 2 130; source_row 5 150; source_row 0 150; source_row 4 170]]
    (sort_by_freq sky_6) /\
  concat
    [[source_row 1 110; source_row 3 110];
     [source_row 2 130; source_row 5 150; source_row 0 150; source_row 4 170]]
    = sort_by_freq sky_6 /\
  concat
    [[source_row 1 110; source_row 3 110];
     [source_row 2 130; source_row 5 150; source_row 0 150; source_row 4 170]]
    ≡ₚ sky_6.
Proof.
  apply (frequency_split_partitions 1 sim no_gpu 2 sky_6).
  vm_compute. reflexivity.
Defined.

Lemma scenario_100_rows_4_workers_witness :
  exists c0 c1 c2 c3,
    split_sky 1 sim no_gpu 4 sky_100 = Ok [c0; c1; c2; c3] /\
    length <$> [c0; c1; c2; c3] = [20; 30; 30; 20]%nat /\
    concat [c0; c1; c2; c3] = sort_by_freq sky_100 /\
    ranks_within sky_100 1 3 c0 /\
    ranks_within sky_100 3 6 c1 /\
    ranks_within sky_100 6 9 c2 /\
    ranks_within sky_100 9 11 c3.
Proof.
  apply (scenario_100_rows_4_workers 1 sim no_gpu sky_100).
  - lia.
  - split; reflexivity.
  - reflexivity.
  - apply sky_100_columns.
  - apply sky_100_uniform.
Defined.

(** C5 (as stated) fails: on 100 rows spread evenly over the ranks 1..10 the
    four chunks do not have 25 rows each. *)
Lemma scenario_100_rows_not_25_each :
  frequency_mode sim /\ no_memory_budget sim no_gpu /\
  Forall (fun r : list Z => (6 < length r)%nat) sky_100 /\
  dense_rank (freq <$> sky_100) ≡ₚ uniform_ranks /\
  chunk_sizes (split_sky 1 sim no_gpu 4 sky_100) = Ok [20; 30; 30; 20]%nat /\
  ~ (exists c0 c1 c2 c3,
       split_sky 1 sim no_gpu 4 sky_100 = Ok [c0; c1; c2; c3] /\
       length <$> [c0; c1; c2; c3] = [25; 25; 25; 25]%nat).
Proof.
  assert (chunk_sizes (split_sky 1 sim no_gpu 4 sky_100) = Ok [20; 30; 30; 20]%nat) as Hsizes
    by (by vm_compute).
  split_and!; [by split|done|apply sky_100_columns|apply sky_100_uniform|done|].
  intros (c0 & c1 & c2 & c3 & Heq & Hlen).
  assert (Ok (length <$> [c0; c1; c2; c3]) = Ok [20; 30; 30; 20]%nat) as H.
  { rewrite <-Hsizes, Heq. reflexivity. }
  rewrite Hlen in H. discriminate.
Qed.

(** C1 (the code departs from it). With a GPU whose budget the first chunk
    exceeds, the loop is left after its first pass all the same: the split
    is the one made without any budget, the number of parts is still the
    number of workers, and the first chunk does not fit. *)
Lemma escalation_skipped_on_oversized_first_chunk :
  split_sky 1 sim small_gpu 2 sky_6
    = Ok [[source_row 1 110; source_row 3 110];
          [source_row 2 130; source_row 5 150; source_row 0 150; source_row 4 170]] /\
  over_budget sim small_gpu [source_row 1 110; source_row 3 110] /\
  forall fuel, split_sky (S fuel) sim small_gpu 2 sky_6 = split_sky 1 sim no_gpu 2 sky_6.
Proof.
  split_and!.
  - by vm_compute.
  - by vm_compute.
  - intros fuel. apply split_sky_ignores_budget.
Qed.

(** C6 (as the code has it). A non-empty list of index groups that numpy
    accepts is used as it is: chunk [g] holds the rows at the indices of
    group [g], whatever the number of workers, the GPU and the budget. *)
Theorem explicit_groups_verbatim fuel self gpu N a groups :
  split_idxs_per_group self = Some groups ->
  groups <> [] ->
  well_formed_groups a groups ->
  exists chunks,
    split_sky fuel self gpu N a = Ok chunks /\ rows_of_groups a groups chunks.
Proof.
  intros Hg Hne [(k & Hk & Hlen) Hrange].
  unfold split_sky. rewrite Hg.
  destruct groups as [|g gs] eqn:Hgroups; [done|]. rewrite <-Hgroups in *.
  replace (truthy_list (Some groups)) with true by (by rewrite Hgroups).
  simpl default. unfold np_take.
  rewrite (index_shape_ok_Ok groups k) by done.
  change (Ok tt ≫= ?f) with (f tt). cbv beta.
  apply for_each_Forall2. intros grp Hgrp.
  apply for_each_Forall2. intros i Hi.
  apply take_row_py_index.
  rewrite Forall_forall in Hrange. specialize (Hrange _ Hgrp).
  rewrite Forall_forall in Hrange. by apply Hrange.
Qed.

Lemma explicit_groups_verbatim_witness :
  exists chunks,
    split_sky 0 (with_groups sim (Some [[0; -1]; [2; 3]])) small_gpu 7 sky_6 = Ok chunks /\
    rows_of_groups sky_6 [[0; -1]; [2; 3]] chunks.
Proof.
  apply (explicit_groups_verbatim 0 (with_groups sim (Some [[0; -1]; [2; 3]]))
           small_gpu 7 sky_6 [[0; -1]; [2; 3]]).
  - reflexivity.
  - discriminate.
  - split.
    + exists 2%nat. split; [lia|]. repeat constructor.
    + repeat constructor; simpl; lia.
Defined.

(** C6 (as stated) fails: an empty list of groups is not used as it is, the
    frequency-rank split takes over. *)
Lemma empty_groups_are_rebalanced :
  split_sky 1 (with_groups sim (Some [])) no_gpu 2 sky_6
    = Ok [[source_row 1 110; source_row 3 110];
          [source_row 2 130; source_row 5 150; source_row 0 150; source_row 4 170]] /\
  ~ (exists chunks,
       split_sky 1 (with_groups sim (Some [])) no_gpu 2 sky_6 = Ok chunks /\
       rows_of_groups sky_6 [] chunks).
Proof.
  assert (split_sky 1 (with_groups sim (Some [])) no_gpu 2 sky_6
    = Ok [[source_row 1 110; source_row 3 110];
          [source_row 2 130; source_row 5 150; source_row 0 150; source_row 4 170]]) as H
    by (by vm_compute).
  split; [done|].
  intros (chunks & Heq & Hrows). rewrite H in Heq. inversion Heq; subst.
  inversion Hrows.
Qed.

(** Seven workers on ten ranks: spacing 2, and the boundary rank 12 is held
    by no row. *)
Example boundary_rank_absent_raises :
  split_sky 1 sim no_gpu 7 sky_100 = Raise IndexError.
Proof. by vm_compute. Qed.

End PartitionSpec.

Module PartitionExtra.

Import Np Interferometer Spec Examples NpFacts PartitionFacts.

(** X1. The frequency-rank split returns exactly for the collections that
    are not empty, have a column 6 in every row and hold a row at the last
    boundary rank; for every other input it raises [IndexError]. *)
Theorem frequency_split_returns_or_raises fuel self gpu N a :
  (splittable N a -> exists chunks, frequency_split (S fuel) self gpu N a = Ok chunks) /\
  (~ splittable N a -> frequency_split (S fuel) self gpu N a = Raise IndexError).
Proof.
  split.
  - intros (Hne & Hcols & Hbound). by apply frequency_split_returns.
  - apply frequency_split_raises.
Qed.

(** X2. When the split returns it has as many chunks as there are workers
    (one for no worker), and chunk [k] consists, in sorted order, of exactly
    the rows whose dense rank lies in [k*spacing, (k+1)*spacing), the last
    chunk taking every rank from [k*spacing] on. *)
Theorem chunks_are_rank_intervals fuel self gpu N a chunks :
  frequency_split fuel self gpu N a = Ok chunks ->
  length chunks = Nat.max 1 N /\
  forall k c, chunks !! k = Some c ->
    c = filter (in_chunk a (ceil_div (distinct_frequencies a) (Z.of_nat N))
                  (length chunks) k)
          (sort_by_freq a).
Proof. apply frequency_split_chunks. Qed.

Lemma chunks_are_rank_intervals_witness :
  length chunks_6 = Nat.max 1 2 /\
  forall k c, chunks_6 !! k = Some c ->
    c = filter (in_chunk sky_6 (ceil_div (distinct_frequencies sky_6) (Z.of_nat 2))
                  (length chunks_6) k)
          (sort_by_freq sky_6).
Proof.
  apply (chunks_are_rank_intervals 1 sim small_gpu 2 sky_6 chunks_6).
  vm_compute. reflexivity.
Defined.

(** X3. With a single worker (or none) the split of a non-empty collection
    with a column 6 is one chunk holding the whole sorted collection,
    whatever the GPU and the budget. *)
Theorem single_worker_single_chunk fuel self gpu N a :
  (N <= 1)%nat ->
  a <> [] ->
  Forall (fun r : list Z => (6 < length r)%nat) a ->
  frequency_split (S fuel) self gpu N a = Ok [sort_by_freq a].
Proof.
  intros HN Hne Hcols. rewrite frequency_split_unfold by done.
  replace (pred N) with 0%nat by lia. simpl.
  unfold np_split. simpl. by rewrite slice_full.
Qed.

Lemma single_worker_single_chunk_witness :
  frequency_split 1 sim small_gpu 1 sky_6 = Ok [sort_by_freq sky_6].
Proof.
  apply (single_worker_single_chunk 0 sim small_gpu 1 sky_6).
  - lia.
  - discriminate.
  - repeat constructor.
Defined.

(** X4. With at least two workers and no more distinct frequencies than
    workers the spacing is 1 and the first boundary is the first row: the
    first chunk of the split is empty. *)
Theorem first_chunk_empty fuel self gpu N a chunks :
  frequency_split fuel self gpu N a = Ok chunks ->
  (2 <= N)%nat ->
  distinct_frequencies a <= Z.of_nat N ->
  head chunks = Some [].
Proof.
  intros H HN HR.
  destruct (frequency_split_Ok_splittable _ _ _ _ _ _ H) as (fuel' & -> & Hne & Hcols).
  destruct (frequency_split_chunks _ _ _ _ _ _ H) as [Hlen Hchunks].
  destruct chunks as [|c chunks]; [simpl in Hlen; lia|]. simpl. f_equal.
  rewrite (Hchunks 0%nat c eq_refl). apply filter_Forall_nil.
  apply Forall_forall. intros r Hr [_ [Hlast|Hlt]].
  - rewrite Hlen in Hlast. lia.
  - rewrite sort_by_freq_Permutation in Hr.
    pose proof (row_rank_bounds a r Hr) as Hb.
    pose proof (distinct_frequencies_pos a Hne) as Hpos.
    assert (ceil_div (distinct_frequencies a) (Z.of_nat N) <= 1); [|lia].
    unfold ceil_div.
    assert (-1 <= (- distinct_frequencies a) `div` Z.of_nat N); [|lia].
    apply Z.div_le_lower_bound; lia.
Qed.

Lemma first_chunk_empty_witness :
  head [[]; [source_row 1 110; source_row 3 110]; [source_row 2 130];
        [source_row 5 150; source_row 0 150; source_row 4 170]] = Some [].
Proof.
  apply (first_chunk_empty 1 sim no_gpu 4 sky_6
           [[]; [source_row 1 110; source_row 3 110]; [source_row 2 130];
            [source_row 5 150; source_row 0 150; source_row 4 170]]).
  - vm_compute. reflexivity.
  - lia.
  - vm_compute. discriminate.
Defined.

(** X5. The outcome of the split does not depend on the GPU, on the
    budget, on the precision or on how often the loop may turn: two
    simulations that agree on the index groups and on the split attribute
    split a collection in the same way. *)
Theorem split_independent_of_gpu fuel fuel' self self' gpu gpu' N a :
  split_idxs_per_group self = split_idxs_per_group self' ->
  split_sky_for_dask_by self = split_sky_for_dask_by self' ->
  split_sky (S fuel) self gpu N a = split_sky (S fuel') self' gpu' N a.
Proof.
  intros Hg Hs. unfold split_sky, frequency_split. rewrite Hg, Hs.
  destruct (truthy_list _); [done|].
  destruct (String.eqb _ _); [|done].
  destruct (column6 a); [|done..].
  change (Ok ?x ≫= ?k) with (k x). cbv beta.
  by rewrite !split_loop_one_pass.
Qed.

Lemma split_independent_of_gpu_witness :
  split_sky 1 sim small_gpu 2 sky_6 = split_sky 3 sim no_gpu 2 sky_6.
Proof.
  apply (split_independent_of_gpu 0 2 sim sim small_gpu no_gpu 2 sky_6); reflexivity.
Defined.

End PartitionExtra.

(** ** Dispatch *)

Module DispatchFacts.

Import Np Interferometer Spec NpFacts.

Section gather.
Context (run : WorkItem -> outcome string) (tasks : list WorkItem) (futures : list nat).

Lemma all_done_spec (done : gmap nat string) :
  all_done futures done = true <-> forall k, k ∈ futures -> is_Some (done !! k).
Proof.
  unfold all_done. rewrite forallb_forall. split.
  - intros H k Hk. apply list_elem_of_In in Hk. apply H in Hk.
    by apply bool_decide_eq_true in Hk.
  - intros H k Hk. apply bool_decide_eq_true, H. by apply list_elem_of_In.
Qed.

Lemma collected_empty : collected run tasks ∅.
Proof. intros k r H. by rewrite lookup_empty in H. Qed.

Lemma collected_insert done k w r :
  collected run tasks done -> tasks !! k = Some w -> run w = Ok r -> collected run tasks (<[k := r]> done).
Proof.
  intros Hc Hk Hr k' r' H. destruct (decide (k = k')) as [->|Hne].
  - rewrite lookup_insert_eq in H. simplify_eq. eauto.
  - rewrite lookup_insert_ne in H by done. eauto.
Qed.

(** [wait] returns only once every future has a result. *)
Lemma wait_Ok order done done' :
  collected run tasks done ->
  wait run tasks futures order done = Ok done' ->
  collected run tasks done' /\ forall k, k ∈ futures -> is_Some (done' !! k).
Proof.
  revert done. induction order as [|k order IH]; intros done Hc H; simpl in H.
  - destruct (all_done futures done) eqn:Hall; [|discriminate].
    inversion H; subst. split; [done|]. by apply all_done_spec.
  - destruct (all_done futures done) eqn:Hall.
    { inversion H; subst. split; [done|]. by apply all_done_spec. }
    destruct (tasks !! k) as [w|] eqn:Hk; [|by eapply IH].
    destruct (run w) as [r| |] eqn:Hr; [|discriminate|by eapply IH].
    eapply IH; [|done]. by eapply collected_insert.
Qed.

(** When every future completes and every task succeeds, [wait] returns. *)
Lemma wait_all_succeed order done :
  (forall k w, tasks !! k = Some w -> exists r, run w = Ok r) ->
  (forall k, k ∈ futures -> is_Some (tasks !! k)) ->
  (forall k, k ∈ futures -> done !! k = None -> k ∈ order) ->
  exists done', wait run tasks futures order done = Ok done'.
Proof.
  intros Hok Hfut. revert done. induction order as [|k order IH]; intros done Hin; simpl.
  - destruct (all_done futures done) eqn:Hall; [eauto|]. exfalso.
    apply not_true_iff_false in Hall. apply Hall, all_done_spec.
    intros k Hk. destruct (done !! k) eqn:Hd; [eauto|].
    specialize (Hin k Hk Hd). by apply elem_of_nil in Hin.
  - destruct (all_done futures done) eqn:Hall; [eauto|].
    destruct (tasks !! k) as [w|] eqn:Hk.
    + destruct (Hok k w Hk) as [r Hr]. rewrite Hr.
      apply IH. intros k' Hk' Hd.
      destruct (decide (k = k')) as [->|Hne]; [by rewrite lookup_insert_eq in Hd|].
      rewrite lookup_insert_ne in Hd by done.
      specialize (Hin k' Hk' Hd). apply elem_of_cons in Hin as [->|]; done.
    + apply IH. intros k' Hk' Hd. specialize (Hin k' Hk' Hd).
      apply elem_of_cons in Hin as [->|]; [|done].
      destruct (Hfut k Hk') as [w' ?]. congruence.
Qed.

(** When a future's task fails and that future completes, [wait] raises
    the error of a task that failed. *)
Lemma wait_failure order done kf wf ef :
  kf ∈ futures -> tasks !! kf = Some wf -> run wf = Raise ef ->
  kf ∈ order -> collected run tasks done ->
  exists w e, w ∈ tasks /\ run w = Raise e /\
    wait run tasks futures order done = Raise e.
Proof.
  intros Hkf Hwf Hef. revert done.
  induction order as [|k order IH]; intros done Hin Hc; [by apply elem_of_nil in Hin|].
  assert (done !! kf = None) as Hnone.
  { destruct (done !! kf) as [r|] eqn:Hd; [|done].
    destruct (Hc kf r Hd) as (w & ? & ?). congruence. }
  simpl.
  replace (all_done futures done) with false.
  2:{ symmetry. apply not_true_iff_false. intros Hall.
      rewrite all_done_spec in Hall. destruct (Hall kf Hkf) as [r Hr]. congruence. }
  destruct (tasks !! k) as [w|] eqn:Hk.
  - destruct (run w) as [r|e|] eqn:Hr.
    + apply IH; [|by eapply collected_insert].
      apply elem_of_cons in Hin as [->|]; [congruence|done].
    + exists w, e. split_and!; [|done..]. by eapply list_elem_of_lookup_2.
    + apply IH; [|done]. apply elem_of_cons in Hin as [->|]; [congruence|done].
  - apply IH; [|done]. apply elem_of_cons in Hin as [->|]; [congruence|done].
Qed.

(** With a failed task among the futures, [wait] never returns. *)
Lemma wait_failure_not_Ok order kf wf ef done' :
  kf ∈ futures -> tasks !! kf = Some wf -> run wf = Raise ef ->
  wait run tasks futures order ∅ <> Ok done'.
Proof.
  intros Hkf Hwf Hef H. apply wait_Ok in H as [Hc Hall]; [|apply collected_empty].
  destruct (Hall kf Hkf) as [r Hr]. destruct (Hc kf r Hr) as (w & ? & ?). congruence.
Qed.
End gather.

Lemma for_each_lookup_done (done : gmap nat string) (tasks : list WorkItem)
    (run : WorkItem -> outcome string) (res : WorkItem -> string) :
  collected run tasks done ->
  (forall w, w ∈ tasks -> run w = Ok (res w)) ->
  (forall k, k ∈ seq 0 (length tasks) -> is_Some (done !! k)) ->
  for_each (fun k => of_option (KeyError "future") (done !! k)) (seq 0 (length tasks))
    = Ok (res <$> tasks).
Proof.
  intros Hc Hres Hall.
  rewrite (for_each_all_Ok _ (fun k => default "" (res <$> tasks !! k))).
  - f_equal. apply list_eq. intros i. rewrite !list_lookup_fmap.
    destruct (decide (i < length tasks)%nat) as [Hlt|Hge].
    + rewrite lookup_seq_lt by done. simpl.
      destruct (lookup_lt_is_Some_2 tasks i Hlt) as [w ->]. done.
    + rewrite lookup_seq_ge by lia. rewrite lookup_ge_None_2 by lia. done.
  - intros k Hk. destruct (Hall k Hk) as [r Hr]. rewrite Hr. simpl.
    destruct (Hc k r Hr) as (w & Hw & Hrun). rewrite Hw. simpl.
    rewrite Hres in Hrun by (by eapply list_elem_of_lookup_2). congruence.
Qed.

(** [gather] over all submitted tasks: the results in submission order,
    whatever the order of completion. *)
Lemma gather_in_order run tasks res order :
  (forall w, w ∈ tasks -> run w = Ok (res w)) ->
  (forall k, (k < length tasks)%nat -> k ∈ order) ->
  gather run tasks (seq 0 (length tasks)) order = Ok (res <$> tasks).
Proof.
  intros Hres Horder. unfold gather.
  destruct (wait_all_succeed run tasks (seq 0 (length tasks)) order ∅) as [done' Hw].
  - intros k w Hk. exists (res w). apply Hres. by eapply list_elem_of_lookup_2.
  - intros k Hk. apply elem_of_seq in Hk. apply lookup_lt_is_Some_2. lia.
  - intros k Hk _. apply elem_of_seq in Hk. apply Horder. lia.
  - rewrite Hw. change (Ok done' ≫= ?f) with (f done'). cbv beta.
    apply wait_Ok in Hw as [Hc Hall]; [|apply collected_empty].
    by apply (for_each_lookup_done done' tasks run res).
Qed.

(** [gather] with a failed task: no list of results. *)
Lemma gather_failure_not_Ok run tasks order wf ef rs :
  wf ∈ tasks -> run wf = Raise ef ->
  gather run tasks (seq 0 (length tasks)) order <> Ok rs.
Proof.
  intros Hwf Hef H. unfold gather in H.
  destruct (wait _ _ _ _ _) as [done'| |] eqn:Hw; try discriminate.
  apply list_elem_of_lookup in Hwf as [kf Hkf].
  eapply wait_failure_not_Ok in Hw; [done| |done..].
  apply elem_of_seq. apply lookup_lt_Some in Hkf. lia.
Qed.

Lemma gather_failure run tasks order wf ef :
  wf ∈ tasks -> run wf = Raise ef ->
  (forall k, (k < length tasks)%nat -> k ∈ order) ->
  exists w e, w ∈ tasks /\ run w = Raise e /\
    gather run tasks (seq 0 (length tasks)) order = Raise e.
Proof.
  intros Hwf Hef Horder.
  apply list_elem_of_lookup in Hwf as [kf Hkf].
  assert (kf < length tasks)%nat as Hlt by (by eapply lookup_lt_Some).
  destruct (wait_failure run tasks (seq 0 (length tasks)) order ∅ kf wf ef)
    as (w & e & Hw & He & Hwait); [|done|done|by apply Horder|apply collected_empty|].
  { apply elem_of_seq. lia. }
  exists w, e. split_and!; [done..|]. unfold gather. by rewrite Hwait.
Qed.

Lemma work_items_length ext self tel obs handle chunks :
  length (work_items ext self tel obs handle chunks) = length chunks.
Proof. unfold work_items. apply length_imap. Qed.

Lemma settings_tree_interferometer self input_telpath ms_file_path :
  exists section,
    (get_OSKAR_settings_tree self input_telpath ms_file_path : gmap _ _) !! "interferometer"
      = Some section /\
    section !! "ms_filename" = Some ms_file_path.
Proof.
  unfold get_OSKAR_settings_tree, settings. cbv zeta.
  rewrite lookup_insert_ne by done. rewrite lookup_insert_eq.
  eexists. split; [done|].
  destruct (vis_path self) as [p|]; [|by rewrite lookup_insert_eq].
  destruct (String.eqb p ""); [by rewrite lookup_insert_eq|].
  rewrite lookup_insert_ne by done. by rewrite lookup_insert_eq.
Qed.

Lemma merge_params_lookup (interferometer_params observation_params :
    gmap string (gmap string string)) key :
  merge_params interferometer_params observation_params !! key =
    match observation_params !! key with
    | Some section => Some section
    | None => interferometer_params !! key
    end.
Proof.
  unfold merge_params, settings. rewrite lookup_union.
  destruct (observation_params !! key), (interferometer_params !! key); reflexivity.
Qed.

(** Without an interferometer section in the observation settings a task
    that OSKAR completes returns the measurement-set name it was given. *)
Lemma run_simulation_oskar_own_ms ext self tel ms obs sky prec :
  (obs : gmap _ _) !! "interferometer" = None ->
  oskar_run ext (merge_params (get_OSKAR_settings_tree self tel ms) obs) sky prec = Ok tt ->
  run_simulation_oskar ext (merge_params (get_OSKAR_settings_tree self tel ms) obs) sky prec
    = Ok ms.
Proof.
  intros Hobs Hrun. unfold run_simulation_oskar. rewrite Hrun.
  change (Ok tt ≫= ?k) with (k tt). cbv beta.
  rewrite merge_params_lookup, Hobs.
  destruct (settings_tree_interferometer self tel ms) as (section & -> & Hms).
  simpl. by rewrite Hms.
Qed.

Lemma work_items_lookup ext self tel obs handle chunks i chunk :
  chunks !! i = Some chunk ->
  work_items ext self tel obs handle chunks !! i =
    Some {| params_total :=
              merge_params (get_OSKAR_settings_tree self tel
                              (new_file_handle ext (handle + i))) obs;
            sky_ := chunk |}.
Proof. intros H. unfold work_items. by rewrite list_lookup_imap, H. Qed.

End DispatchFacts.

Module DispatchSpec.

Import Np Interferometer Spec Examples NpFacts PartitionFacts DispatchFacts.

(** C3 (as the code has it). When every task succeeds and every future
    completes, in whatever order, the gathered list has one result per
    submitted item in the order of submission; the call itself returns a
    [Visibility] of the first of them only. *)
Theorem dispatch_in_order_first_returned ext fuel self c telescope_path sky obs
    handle chunks (res : WorkItem -> string) :
  client self = Some c ->
  split_sky fuel self (gpu_util ext) (workers c)
    (oskar_sky_array ext sky (precision self)) = Ok chunks ->
  (forall w, w ∈ work_items ext self telescope_path obs handle chunks ->
     run_item ext (precision self) w = Ok (res w)) ->
  (forall k, (k < length chunks)%nat ->
     k ∈ completion_order c (seq 0 (length chunks))) ->
  dispatch ext self c telescope_path obs handle chunks
    = Ok (res <$> work_items ext self telescope_path obs handle chunks) /\
  length (res <$> work_items ext self telescope_path obs handle chunks) = length chunks /\
  exists first,
    head (res <$> work_items ext self telescope_path obs handle chunks) = Some first /\
    setup_run_simulation_oskar ext fuel self telescope_path sky obs handle
      = Ok ({| vis_file := first |}, (handle + length chunks)%nat).
Proof.
  intros Hc Hsplit Hres Horder.
  set (items := work_items ext self telescope_path obs handle chunks) in *.
  assert (length items = length chunks) as Hlen by apply work_items_length.
  assert (dispatch ext self c telescope_path obs handle chunks = Ok (res <$> items)) as Hd.
  { unfold dispatch. fold items. apply gather_in_order; [done|].
    rewrite Hlen. done. }
  split_and!; [done|by rewrite length_fmap|].
  destruct items as [|w ws] eqn:Hitems.
  { apply split_sky_nonempty in Hsplit. destruct chunks; [done|discriminate]. }
  exists (res w). split; [done|].
  unfold setup_run_simulation_oskar. rewrite Hc, Hsplit.
  change (Ok chunks ≫= ?f) with (f chunks). cbv beta.
  rewrite Hd. done.
Qed.

(** C4. When a submitted task fails, the call returns nothing, neither the
    list of results nor a [Visibility]; and once every future completes, in
    whatever order, what it raises is the error of a task that failed. *)
Theorem dispatch_fails_as_a_whole ext fuel self c telescope_path sky obs handle
    chunks wf ef :
  client self = Some c ->
  split_sky fuel self (gpu_util ext) (workers c)
    (oskar_sky_array ext sky (precision self)) = Ok chunks ->
  wf ∈ work_items ext self telescope_path obs handle chunks ->
  run_item ext (precision self) wf = Raise ef ->
  (forall rs, dispatch ext self c telescope_path obs handle chunks <> Ok rs) /\
  (forall v, setup_run_simulation_oskar ext fuel self telescope_path sky obs handle
             <> Ok v) /\
  ((forall k, (k < length chunks)%nat ->
      k ∈ completion_order c (seq 0 (length chunks))) ->
   exists w e,
     w ∈ work_items ext self telescope_path obs handle chunks /\
     run_item ext (precision self) w = Raise e /\
     dispatch ext self c telescope_path obs handle chunks = Raise e /\
     setup_run_simulation_oskar ext fuel self telescope_path sky obs handle = Raise e).
Proof.
  intros Hc Hsplit Hwf Hef.
  set (items := work_items ext self telescope_path obs handle chunks) in *.
  assert (length items = length chunks) as Hlen by apply work_items_length.
  assert (forall rs, dispatch ext self c telescope_path obs handle chunks <> Ok rs) as Hno.
  { intros rs. unfold dispatch. fold items. by eapply gather_failure_not_Ok. }
  split_and!; [done| |].
  - intros v. unfold setup_run_simulation_oskar. rewrite Hc, Hsplit.
    change (Ok chunks ≫= ?f) with (f chunks). cbv beta.
    pose proof Hno as Hno'.
    destruct (dispatch _ _ _ _ _ _ _) as [rs| |]; [by destruct (Hno' rs)|done..].
  - intros Horder.
    destruct (gather_failure (run_item ext (precision self)) items
                (completion_order c (seq 0 (length items))) wf ef)
      as (w & e & Hw & He & Hg); [done|done|by rewrite Hlen|].
    exists w, e. split_and!; [done|done|done|].
    unfold setup_run_simulation_oskar. rewrite Hc, Hsplit.
    change (Ok chunks ≫= ?f) with (f chunks). cbv beta.
    unfold dispatch. fold items. by rewrite Hg.
Qed.

Lemma dispatch_in_order_first_returned_witness :
  dispatch ext_ok (with_client sim (Some (cluster 2))) (cluster 2) "/tm" ∅ 0 chunks_6
    = Ok (result_of ext_ok "single" <$>
            work_items ext_ok (with_client sim (Some (cluster 2))) "/tm" ∅ 0 chunks_6) /\
  length (result_of ext_ok "single" <$>
            work_items ext_ok (with_client sim (Some (cluster 2))) "/tm" ∅ 0 chunks_6)
    = length chunks_6 /\
  exists first,
    head (result_of ext_ok "single" <$>
            work_items ext_ok (with_client sim (Some (cluster 2))) "/tm" ∅ 0 chunks_6)
      = Some first /\
    setup_run_simulation_oskar ext_ok 1 (with_client sim (Some (cluster 2))) "/tm" sky_6 ∅ 0
      = Ok ({| vis_file := first |}, (0 + length chunks_6)%nat).
Proof.
  apply (dispatch_in_order_first_returned ext_ok 1 (with_client sim (Some (cluster 2)))
           (cluster 2) "/tm" sky_6 ∅ 0 chunks_6 (result_of ext_ok "single")).
  - reflexivity.
  - vm_compute. reflexivity.
  - intros w Hw. vm_compute in Hw.
    repeat (apply elem_of_cons in Hw as [->|Hw]); [vm_compute; reflexivity..|].
    by apply elem_of_nil in Hw.
  - intros k Hk. vm_compute. destruct k as [|[|k]]; [set_solver..|simpl in Hk; lia].
Defined.

(** C3 (as stated) fails: with two chunks and both tasks succeeding, two
    results are gathered and the call returns the first one alone. *)
Lemma two_results_first_returned :
  dispatch ext_ok (with_client sim (Some (cluster 2))) (cluster 2) "/tm" ∅ 0 chunks_6
    = Ok ["/tmp/vis_0"; "/tmp/vis_1"] /\
  setup_run_simulation_oskar ext_ok 1 (with_client sim (Some (cluster 2))) "/tm" sky_6 ∅ 0
    = Ok ({| vis_file := "/tmp/vis_0" |}, 2%nat) /\
  ~ (exists v n,
       setup_run_simulation_oskar ext_ok 1 (with_client sim (Some (cluster 2))) "/tm" sky_6 ∅ 0
         = Ok (v, n) /\
       returned_results v = ["/tmp/vis_0"; "/tmp/vis_1"]).
Proof.
  assert (setup_run_simulation_oskar ext_ok 1 (with_client sim (Some (cluster 2))) "/tm" sky_6 ∅ 0
    = Ok ({| vis_file := "/tmp/vis_0" |}, 2%nat)) as H by (by vm_compute).
  split_and!; [by vm_compute|done|].
  intros (v & n & Heq & Hret). rewrite H in Heq. inversion Heq; subst. discriminate.
Qed.

Lemma dispatch_fails_as_a_whole_witness :
  (forall rs,
     dispatch ext_fail_on_empty (with_client sim (Some (cluster 4))) (cluster 4) "/tm" ∅ 0
       [[]; [source_row 1 110; source_row 3 110]; [source_row 2 130];
        [source_row 5 150; source_row 0 150; source_row 4 170]] <> Ok rs) /\
  (forall v,
     setup_run_simulation_oskar ext_fail_on_empty 1 (with_client sim (Some (cluster 4)))
       "/tm" sky_6 ∅ 0 <> Ok v) /\
  (exists w e,
     w ∈ work_items ext_fail_on_empty (with_client sim (Some (cluster 4))) "/tm" ∅ 0
           [[]; [source_row 1 110; source_row 3 110]; [source_row 2 130];
            [source_row 5 150; source_row 0 150; source_row 4 170]] /\
     run_item ext_fail_on_empty "single" w = Raise e /\
     dispatch ext_fail_on_empty (with_client sim (Some (cluster 4))) (cluster 4) "/tm" ∅ 0
       [[]; [source_row 1 110; source_row 3 110]; [source_row 2 130];
        [source_row 5 150; source_row 0 150; source_row 4 170]] = Raise e /\
     setup_run_simulation_oskar ext_fail_on_empty 1 (with_client sim (Some (cluster 4)))
       "/tm" sky_6 ∅ 0 = Raise e).
Proof.
  destruct (dispatch_fails_as_a_whole ext_fail_on_empty 1
           (with_client sim (Some (cluster 4)))
           (cluster 4) "/tm" sky_6 ∅ 0
           [[]; [source_row 1 110; source_row 3 110]; [source_row 2 130];
            [source_row 5 150; source_row 0 150; source_row 4 170]]
           {| params_total :=
                merge_params
                  (get_OSKAR_settings_tree (with_client sim (Some (cluster 4))) "/tm"
                     "/tmp/vis_0") ∅;
              sky_ := [] |}
           (External "oskar: empty sky")) as (H1 & H2 & H3).
  - reflexivity.
  - vm_compute. reflexivity.
  - vm_compute. left.
  - vm_compute. reflexivity.
  - split_and!; [exact H1|exact H2|].
    apply H3. intros k Hk. vm_compute.
    destruct k as [|[|[|[|k]]]]; [set_solver..|simpl in Hk; lia].
Defined.

End DispatchSpec.

Module DispatchExtra.

Import Np Interferometer Spec Examples NpFacts PartitionFacts DispatchFacts.

(** X6. When the observation settings bring no interferometer section,
    OSKAR completes every chunk and every future completes, the gathered
    results are the visibility files created for the chunks, in the order of
    the chunks, and the call returns the first of them and has used one
    temporary file per chunk. *)
Theorem dispatch_returns_fresh_paths ext fuel self c tel sky obs handle chunks :
  client self = Some c ->
  split_sky fuel self (gpu_util ext) (workers c)
    (oskar_sky_array ext sky (precision self)) = Ok chunks ->
  (obs : gmap string (gmap string string)) !! "interferometer" = None ->
  (forall params chunk, chunk ∈ chunks ->
     oskar_run ext params chunk (precision self) = Ok tt) ->
  (forall k, (k < length chunks)%nat ->
     k ∈ completion_order c (seq 0 (length chunks))) ->
  dispatch ext self c tel obs handle chunks
    = Ok ((fun i => new_file_handle ext (handle + i)) <$> seq 0 (length chunks)) /\
  setup_run_simulation_oskar ext fuel self tel sky obs handle
    = Ok ({| vis_file := new_file_handle ext handle |}, (handle + length chunks)%nat).
Proof.
  intros Hc Hsplit Hobs Hrun Horder.
  set (items := work_items ext self tel obs handle chunks).
  assert (length items = length chunks) as Hlen by apply work_items_length.
  assert (forall i w, items !! i = Some w ->
            run_item ext (precision self) w = Ok (new_file_handle ext (handle + i))) as Hitem.
  { intros i w Hw.
    destruct (lookup_lt_is_Some_2 chunks i) as [chunk Hchunk].
    { rewrite <-Hlen. by eapply lookup_lt_Some. }
    unfold items in Hw. rewrite (work_items_lookup _ _ _ _ _ _ _ _ Hchunk) in Hw.
    inversion Hw; subst w. unfold run_item. simpl.
    apply run_simulation_oskar_own_ms; [done|].
    apply Hrun. by eapply list_elem_of_lookup_2. }
  assert (dispatch ext self c tel obs handle chunks
    = Ok ((fun i => new_file_handle ext (handle + i)) <$> seq 0 (length chunks))) as Hd.
  { unfold dispatch. fold items.
    rewrite (gather_in_order _ items (result_of ext (precision self))).
    - f_equal. apply list_eq. intros i. rewrite !list_lookup_fmap.
      destruct (items !! i) as [w|] eqn:Hw.
      + rewrite lookup_seq_lt by (rewrite <-Hlen; by eapply lookup_lt_Some).
        simpl. unfold result_of. by rewrite (Hitem i w Hw).
      + rewrite lookup_seq_ge; [done|]. rewrite <-Hlen. by apply lookup_ge_None.
    - intros w Hw. apply list_elem_of_lookup in Hw as [i Hw].
      unfold result_of. by rewrite (Hitem i w Hw).
    - by rewrite Hlen. }
  split; [done|].
  unfold setup_run_simulation_oskar. rewrite Hc, Hsplit.
  change (Ok chunks ≫= ?f) with (f chunks). cbv beta. rewrite Hd.
  change (Ok ?x ≫= ?f) with (f x). cbv beta.
  destruct chunks as [|chunk chunks].
  { by apply split_sky_nonempty in Hsplit. }
  simpl. by rewrite Nat.add_0_r.
Qed.

Lemma dispatch_returns_fresh_paths_witness :
  dispatch ext_ok (with_client sim (Some (cluster 2))) (cluster 2) "/tm" ∅ 3 chunks_6
    = Ok ((fun i => new_file_handle ext_ok (3 + i)) <$> seq 0 (length chunks_6)) /\
  setup_run_simulation_oskar ext_ok 1 (with_client sim (Some (cluster 2))) "/tm" sky_6 ∅ 3
    = Ok ({| vis_file := new_file_handle ext_ok 3 |}, (3 + length chunks_6)%nat).
Proof.
  apply (dispatch_returns_fresh_paths ext_ok 1 (with_client sim (Some (cluster 2)))
           (cluster 2) "/tm" sky_6 ∅ 3 chunks_6).
  - reflexivity.
  - vm_compute. reflexivity.
  - reflexivity.
  - reflexivity.
  - intros k Hk. vm_compute. destruct k as [|[|k]]; [set_solver..|simpl in Hk; lia].
Defined.

(** X7. Without a client nothing is split: the index groups, the split
    attribute, the GPU and the number of turns play no part, no [ValueError]
    is raised for an unknown split attribute, and OSKAR runs once on the
    whole sky array. When it completes, and the observation settings bring
    no interferometer section, the call returns the one visibility file it
    created; when it raises, the call raises the same. *)
Theorem local_run_is_not_split ext fuel self tel sky obs handle :
  client self = None ->
  (obs : gmap string (gmap string string)) !! "interferometer" = None ->
  setup_run_simulation_oskar ext fuel self tel sky obs handle =
    match oskar_run ext
            (merge_params (get_OSKAR_settings_tree self tel (new_file_handle ext handle)) obs)
            (oskar_sky_array ext sky (precision self)) (precision self) with
    | Ok _ => Ok ({| vis_file := new_file_handle ext handle |}, S handle)
    | Raise e => Raise e
    | Hang => Hang
    end.
Proof.
  intros Hc Hobs. unfold setup_run_simulation_oskar. rewrite Hc.
  destruct (oskar_run _ _ _ _) as [[]| |] eqn:Hrun.
  - by rewrite run_simulation_oskar_own_ms.
  - unfold run_simulation_oskar. by rewrite Hrun.
  - unfold run_simulation_oskar. by rewrite Hrun.
Qed.

Lemma local_run_is_not_split_witness :
  setup_run_simulation_oskar ext_ok 0 sim_unknown_split "/tm" sky_6 ∅ 0 =
    match oskar_run ext_ok
            (merge_params
               (get_OSKAR_settings_tree sim_unknown_split "/tm" (new_file_handle ext_ok 0)) ∅)
            (oskar_sky_array ext_ok sky_6 (precision sim_unknown_split))
            (precision sim_unknown_split) with
    | Ok _ => Ok ({| vis_file := new_file_handle ext_ok 0 |}, 1%nat)
    | Raise e => Raise e
    | Hang => Hang
    end.
Proof.
  apply (local_run_is_not_split ext_ok 0 sim_unknown_split "/tm" sky_6 ∅ 0); reflexivity.
Defined.

(** X8. The two settings trees are merged section by section, not key by
    key: an interferometer section of the observation settings replaces the
    one built from [self] as a whole. The task then returns the
    [ms_filename] of that section, whatever file was created for it, and
    raises [KeyError] when the section has none. *)
Theorem observation_section_replaces ext self tel ms obs section sky prec :
  (obs : gmap string (gmap string string)) !! "interferometer" = Some section ->
  oskar_run ext (merge_params (get_OSKAR_settings_tree self tel ms) obs) sky prec = Ok tt ->
  (merge_params (get_OSKAR_settings_tree self tel ms) obs
     : gmap string (gmap string string)) !! "interferometer" = Some section /\
  run_simulation_oskar ext (merge_params (get_OSKAR_settings_tree self tel ms) obs) sky prec
    = match section !! "ms_filename" with
      | Some name => Ok name
      | None => Raise (KeyError "ms_filename")
      end.
Proof.
  intros Hobs Hrun.
  assert ((merge_params (get_OSKAR_settings_tree self tel ms) obs
             : gmap string (gmap string string)) !! "interferometer" = Some section) as Hm
    by (by rewrite merge_params_lookup, Hobs).
  split; [done|].
  unfold run_simulation_oskar. rewrite Hrun.
  change (Ok tt ≫= ?k) with (k tt). cbv beta. unfold settings in *. rewrite Hm. simpl.
  by destruct (section !! "ms_filename").
Qed.

Lemma observation_section_replaces_witness :
  (merge_params (get_OSKAR_settings_tree sim "/tm" "/tmp/vis_0") obs_with_interferometer
     : gmap string (gmap string string)) !! "interferometer"
    = Some (<["channel_bandwidth_hz" := "1000.0"]> ∅) /\
  run_simulation_oskar ext_ok
    (merge_params (get_OSKAR_settings_tree sim "/tm" "/tmp/vis_0") obs_with_interferometer)
    sky_6 "single"
    = match (<["channel_bandwidth_hz" := "1000.0"]> ∅ : gmap string string) !! "ms_filename" with
      | Some name => Ok name
      | None => Raise (KeyError "ms_filename")
      end.
Proof.
  apply (observation_section_replaces ext_ok sim "/tm" "/tmp/vis_0" obs_with_interferometer
           (<["channel_bandwidth_hz" := "1000.0"]> ∅) sky_6 "single"); reflexivity.
Defined.

End DispatchExtra.

(** ** The day loop *)

Module CampaignFacts.

Import Np Interferometer Campaign Spec NpFacts.

Lemma elem_of_os_listdir (entries : gmap string entry_kind) name :
  name ∈ os_listdir entries <-> is_Some (entries !! name).
Proof.
  unfold os_listdir. rewrite list_elem_of_fmap. split.
  - intros ([n k] & -> & H). apply elem_of_map_to_list in H. eauto.
  - intros [k Hk]. exists (name, k). split; [done|]. by apply elem_of_map_to_list.
Qed.

Lemma remove_bin_files_lookup items (entries entries' : gmap string entry_kind) name :
  remove_bin_files items entries = Ok entries' ->
  entries' !! name =
    if decide (name ∈ items /\ endswith name ".bin" = true) then None
    else entries !! name.
Proof.
  revert entries. induction items as [|item items IH]; intros entries H; simpl in H.
  - inversion H; subst. rewrite decide_False; [done|]. intros [Hin _]. by apply elem_of_nil in Hin.
  - destruct (endswith item ".bin") eqn:Hbin.
    + apply bind_Ok in H as (e1 & Hrm & H). rewrite (IH _ H).
      unfold os_remove in Hrm.
      destruct (entries !! item) as [[]|] eqn:Hitem; simplify_eq.
      destruct (decide (name = item)) as [->|Hne].
      * rewrite lookup_delete_eq. rewrite (decide_True (P := _ ∈ item :: _ /\ _)); [|split; [left|done]].
        by destruct (decide _).
      * rewrite lookup_delete_ne by done.
        destruct (decide (name ∈ items /\ _)) as [[? ?]|Hn].
        -- rewrite decide_True; [done|]. split; [by right|done].
        -- rewrite decide_False; [done|]. intros [Hin ?]. apply Hn.
           apply elem_of_cons in Hin as [?|?]; [done|]. done.
    + rewrite (IH _ H).
      destruct (decide (name ∈ items /\ _)) as [[? ?]|Hn].
      * rewrite decide_True; [done|]. split; [by right|done].
      * rewrite decide_False; [done|]. intros [Hin Hb]. apply Hn.
        apply elem_of_cons in Hin as [->|?]; [congruence|done].
Qed.

(** The purge removes the entries named [*.bin] and nothing else. *)
Lemma purge_beam_files_lookup (entries entries' : gmap string entry_kind) name :
  purge_beam_files entries = Ok entries' ->
  entries' !! name = if endswith name ".bin" then None else entries !! name.
Proof.
  intros H. unfold purge_beam_files in H.
  rewrite (remove_bin_files_lookup _ _ _ name H).
  destruct (endswith name ".bin") eqn:Hbin.
  - destruct (decide _) as [|Hn]; [done|].
    destruct (entries !! name) eqn:Hl; [|done].
    exfalso. apply Hn. split; [|done]. apply elem_of_os_listdir. eauto.
  - rewrite decide_False; [done|]. intros [_ ?]. congruence.
Qed.

Lemma purge_no_beam_binaries (entries entries' : gmap string entry_kind) :
  purge_beam_files entries = Ok entries' -> no_beam_binaries entries'.
Proof.
  intros H name kind Hl. rewrite (purge_beam_files_lookup _ _ name H) in Hl.
  by destruct (endswith name ".bin").
Qed.

Lemma deepcopy_Ok objects a a' objects' :
  deepcopy objects a = Ok (a', objects') ->
  exists o, objects !! a = Some o /\ a' <> a /\ objects !! a' = None /\
            objects' = <[a' := o]> objects.
Proof.
  unfold deepcopy. intros H.
  destruct (objects !! a) as [o'|] eqn:Hl; [|discriminate].
  inversion H; subst. exists o'.
  assert (objects !! fresh (dom objects) = None) as Hfresh.
  { apply not_elem_of_dom. apply is_fresh. }
  split_and!; [done| |done|done]. intros Heq. congruence.
Qed.

(** One day, when it succeeds. *)
Lemma run_day_Ok ext day_ext fuel telescope sky observation vis_dir_path st i date st' base :
  objects st !! observation = Some base ->
  run_day ext day_ext fuel telescope sky observation vis_dir_path st i date = Ok st' ->
  objects st' !! observation = Some base /\
  visiblity_files st' = visiblity_files st ++ [vis_file_of vis_dir_path i] /\
  exists rec,
    journal st' = journal st ++ [rec] /\
    no_beam_binaries (entries_at_beam rec) /\
    day_on_its_own vis_dir_path base (i, date) rec.
Proof.
  intros Hbase H. unfold run_day in H.
  apply bind_Ok in H as (telescope_run & Htel & H).
  apply bind_Ok in H as (purged & Hpurge & H).
  apply bind_Ok in H as (entries' & Hbeam & H).
  apply bind_Ok in H as (vis & Hvis & H).
  apply bind_Ok in H as ([observation_run objects'] & Hcopy & H).
  apply bind_Ok in H as (run_obs & Hrun & H).
  apply bind_Ok in H as ([visibility handles'] & Hsim & H).
  apply bind_Ok in H as (u & Hwrite & H).
  inversion H; subst; clear H. simpl.
  rewrite last_snoc in Hvis. simpl in Hvis. inversion Hvis; subst; clear Hvis.
  apply deepcopy_Ok in Hcopy as (o & Ho & Hne & Hfresh & ->).
  rewrite Hbase in Ho. inversion Ho; subst o; clear Ho.
  unfold set_start_date in *.
  rewrite lookup_alter_eq, lookup_insert_eq in Hrun. simpl in Hrun. inversion Hrun; subst; clear Hrun.
  assert (alter (fun o => {| start_date_and_time := date;
                             number_of_days := number_of_days o;
                             observation_entries := observation_entries o |})
            observation_run (<[observation_run := base]> (objects st)) !! observation
          = Some base) as Hkept.
  { rewrite lookup_alter_ne by done. by rewrite lookup_insert_ne. }
  split_and!; [done|done|].
  eexists. split_and!; [done| |].
  - simpl. by eapply purge_no_beam_binaries.
  - by split_and!.
Qed.

Lemma days_loop_Ok ext day_ext fuel telescope sky observation vis_dir_path days st st' base :
  objects st !! observation = Some base ->
  days_loop ext day_ext fuel telescope sky observation vis_dir_path st days = Ok st' ->
  objects st' !! observation = Some base /\
  visiblity_files st' = visiblity_files st ++ (vis_file_of vis_dir_path <$> days.*1) /\
  exists recs,
    journal st' = journal st ++ recs /\
    Forall (fun rec => no_beam_binaries (entries_at_beam rec)) recs /\
    Forall2 (day_on_its_own vis_dir_path base) days recs.
Proof.
  revert st. induction days as [|[i date] days IH]; intros st Hbase H; simpl in H.
  - inversion H; subst. split_and!; [done|by rewrite app_nil_r|].
    exists []. split_and!; [by rewrite app_nil_r|constructor|constructor].
  - apply bind_Ok in H as (st1 & Hday & H).
    apply (run_day_Ok _ _ _ _ _ _ _ _ _ _ _ base Hbase) in Hday
      as (Hbase1 & Hfiles1 & rec & Hj1 & Hbin & Hown).
    destruct (IH st1 Hbase1 H) as (Hbase' & Hfiles' & recs & Hj' & Hbins & Howns).
    split_and!; [done| |].
    + rewrite Hfiles', Hfiles1. by rewrite <-app_assoc.
    + exists (rec :: recs). split_and!; [|by constructor|by constructor].
      rewrite Hj', Hj1. by rewrite <-app_assoc.
Qed.

Lemma enumerate1_fst {A} (l : list A) : (enumerate1 l).*1 = seq 1 (length l).
Proof. unfold enumerate1. apply fst_zip. by rewrite length_seq. Qed.

Lemma enumerate1_snd {A} (l : list A) : (enumerate1 l).*2 = l.
Proof. unfold enumerate1. apply snd_zip. by rewrite length_seq. Qed.

Lemma date_range_length start n : length (date_range start n) = n.
Proof. unfold date_range. by rewrite length_fmap, length_seq. Qed.

Lemma run_simulation_long_Ok ext day_ext fuel st telescope sky observation files st' :
  run_simulation_long ext day_ext fuel st telescope sky observation = Ok (files, st') ->
  exists base recs,
    objects st !! observation = Some base /\
    objects st' !! observation = Some base /\
    files = vis_file_of (new_file_handle ext (handles st))
              <$> seq 1 (number_of_days base) /\
    journal st' = journal st ++ recs /\
    Forall (fun rec => no_beam_binaries (entries_at_beam rec)) recs /\
    Forall2 (day_on_its_own (new_file_handle ext (handles st)) base)
      (enumerate1 (date_range (start_date_and_time base) (number_of_days base))) recs.
Proof.
  unfold run_simulation_long. intros H.
  apply bind_Ok in H as (base & Hbase & H).
  destruct (objects st !! observation) as [b|] eqn:Hl; [|discriminate].
  inversion Hbase; subst b; clear Hbase.
  apply bind_Ok in H as (st1 & Hloop & H). inversion H; subst; clear H.
  apply (days_loop_Ok _ _ _ _ _ _ _ _ _ _ base) in Hloop
    as (Hbase' & Hfiles & recs & Hj & Hbins & Howns); [|done].
  simpl in *. exists base, recs. split_and!; [done|done| |done|done|done].
  rewrite Hfiles, enumerate1_fst, date_range_length. done.
Qed.

Lemma Forall2_days_of base dir days recs :
  Forall2 (day_on_its_own dir base) days recs -> day <$> recs = days.*1.
Proof.
  induction 1 as [|d rec days recs [Hd _] _ IH]; [done|].
  rewrite !fmap_cons. by f_equal.
Qed.

Lemma enumerate1_date_range_lookup start n j :
  (j < n)%nat ->
  enumerate1 (date_range start n) !! j
    = Some (S j, Date (ordinal_of start + Z.of_nat j)).
Proof.
  intros Hj. unfold enumerate1. rewrite date_range_length.
  apply lookup_zip_with_Some. exists (S j), (Date (ordinal_of start + Z.of_nat j)).
  split_and!; [done|by rewrite lookup_seq_lt|].
  unfold date_range. rewrite list_lookup_fmap, lookup_seq_lt by done. done.
Qed.

(** The settings of a simulation carry the [vis_path] of [self]. *)
Lemma settings_tree_vis_path self input_telpath ms_file_path p :
  vis_path self = Some p -> p <> "" ->
  get_OSKAR_settings_tree self input_telpath ms_file_path !! "interferometer"
    ≫= (fun section => section !! "oskar_vis_filename") = Some p.
Proof.
  intros Hp Hne. unfold get_OSKAR_settings_tree, settings. rewrite Hp. cbv zeta.
  replace (String.eqb p "") with false by (symmetry; by apply String.eqb_neq).
  rewrite lookup_insert_ne by done. rewrite lookup_insert_eq. simpl.
  by rewrite lookup_insert_eq.
Qed.

Lemma append_not_empty a c r : a +:+ String c r <> "".
Proof. by destruct a. Qed.

Lemma vis_file_of_not_empty dir i : vis_file_of dir i <> "".
Proof.
  unfold vis_file_of, os_path_join, beam_vis_prefix.
  change ("beam_vis_" +:+ ?x) with (String "b"%char ("eam_vis_" +:+ x)).
  repeat case_match; try done; apply append_not_empty.
Qed.

Lemma without_binaries_lookup (entries : gmap string entry_kind) name :
  without_binaries entries !! name =
    if endswith name ".bin" then None else entries !! name.
Proof.
  unfold without_binaries.
  destruct (endswith name ".bin") eqn:Hbin.
  - apply map_lookup_filter_None. right. intros kind _. simpl. congruence.
  - destruct (entries !! name) as [kind|] eqn:Hl.
    + by apply map_lookup_filter_Some.
    + apply map_lookup_filter_None. by left.
Qed.

Lemma purge_beam_files_without_binaries (entries entries' : gmap string entry_kind) :
  purge_beam_files entries = Ok entries' -> entries' = without_binaries entries.
Proof.
  intros H. apply map_eq. intros name.
  by rewrite (purge_beam_files_lookup _ _ name H), without_binaries_lookup.
Qed.

Lemma remove_bin_files_Ok items (entries : gmap string entry_kind) :
  NoDup items ->
  (forall item, item ∈ items -> endswith item ".bin" = true ->
     entries !! item = Some RegularFile) ->
  exists entries', remove_bin_files items entries = Ok entries'.
Proof.
  intros Hnd. revert entries. induction Hnd as [|item items Hnotin Hnd IH]; intros entries Hfiles.
  - by eexists.
  - simpl. destruct (endswith item ".bin") eqn:Hbin.
    + unfold os_remove. rewrite (Hfiles item) by (done || left).
      change (Ok ?x ≫= ?k) with (k x). cbv beta.
      apply IH. intros item' Hin Hbin'.
      rewrite lookup_delete_ne by (intros ->; done).
      apply Hfiles; [by right|done].
    + apply IH. intros item' Hin Hbin'. apply Hfiles; [by right|done].
Qed.

Lemma remove_bin_files_directory items (entries entries' : gmap string entry_kind) name :
  name ∈ items -> entries !! name = Some Directory -> endswith name ".bin" = true ->
  remove_bin_files items entries <> Ok entries'.
Proof.
  revert entries. induction items as [|item items IH]; intros entries Hin Hdir Hbin H.
  - by apply elem_of_nil in Hin.
  - simpl in H. destruct (decide (item = name)) as [->|Hne].
    + rewrite Hbin in H. unfold os_remove in H. by rewrite Hdir in H.
    + apply elem_of_cons in Hin as [?|Hin]; [done|].
      destruct (endswith item ".bin").
      * apply bind_Ok in H as (e1 & Hrm & H). unfold os_remove in Hrm.
        destruct (entries !! item) as [[]|]; simplify_eq.
        eapply (IH (delete item entries)); [done| |done|done].
        by rewrite lookup_delete_ne.
      * by eapply IH.
Qed.

Lemma purge_beam_files_Ok_iff (entries : gmap string entry_kind) :
  (exists entries', purge_beam_files entries = Ok entries') <-> no_bin_directory entries.
Proof.
  split.
  - intros [entries' H] name Hdir.
    destruct (endswith name ".bin") eqn:Hbin; [|done]. exfalso.
    eapply (remove_bin_files_directory (os_listdir entries)); [|done|done|exact H].
    apply elem_of_os_listdir. eauto.
  - intros Hno. apply remove_bin_files_Ok.
    + apply NoDup_fst_map_to_list.
    + intros item Hin Hbin. apply elem_of_os_listdir in Hin as [kind Hk].
      destruct kind; [done|]. rewrite (Hno item Hk) in Hbin. discriminate.
Qed.

Lemma set_vis_path_twice self p q : set_vis_path (set_vis_path self p) q = set_vis_path self q.
Proof. done. Qed.

Lemma without_binaries_twice (entries : gmap string entry_kind) :
  without_binaries (without_binaries entries) = without_binaries entries.
Proof.
  apply map_eq. intros name. rewrite !without_binaries_lookup.
  by destruct (endswith name ".bin").
Qed.

(** What one day leaves in [self] and in the telescope directory. *)
Lemma run_day_leaves ext day_ext fuel telescope sky observation vis_dir_path st i date st' :
  run_day ext day_ext fuel telescope sky observation vis_dir_path st i date = Ok st' ->
  self_ st' = set_vis_path (self_ st) (vis_file_of vis_dir_path i) /\
  (enable_array_beam (self_ st) = false -> entries st' = without_binaries (entries st)).
Proof.
  intros H. unfold run_day in H.
  apply bind_Ok in H as (telescope_run & Htel & H).
  apply bind_Ok in H as (purged & Hpurge & H).
  apply bind_Ok in H as (entries' & Hbeam & H).
  apply bind_Ok in H as (vis & Hvis & H).
  apply bind_Ok in H as ([observation_run objects'] & Hcopy & H).
  apply bind_Ok in H as (run_obs & Hrun & H).
  apply bind_Ok in H as ([visibility handles'] & Hsim & H).
  apply bind_Ok in H as (u & Hwrite & H).
  inversion H; subst; clear H. simpl.
  rewrite last_snoc in Hvis. simpl in Hvis. inversion Hvis; subst; clear Hvis.
  split; [done|]. intros Hoff. rewrite Hoff in Hbeam. inversion Hbeam; subst.
  by apply purge_beam_files_without_binaries.
Qed.

Lemma days_loop_leaves ext day_ext fuel telescope sky observation vis_dir_path days st st' :
  days_loop ext day_ext fuel telescope sky observation vis_dir_path st days = Ok st' ->
  self_ st' = match last days with
              | Some (i, _) => set_vis_path (self_ st) (vis_file_of vis_dir_path i)
              | None => self_ st
              end /\
  (enable_array_beam (self_ st) = false ->
   entries st' = match days with
                 | [] => entries st
                 | _ => without_binaries (entries st)
                 end).
Proof.
  revert st. induction days as [|[i date] days IH]; intros st H; simpl in H.
  - by inversion H.
  - apply bind_Ok in H as (st1 & Hday & H).
    apply run_day_leaves in Hday as [Hself1 Hent1].
    destruct (IH st1 H) as [Hself Hent]. split.
    + rewrite Hself, Hself1. destruct days as [|d days]; [done|].
      rewrite last_cons_cons.
      destruct (last (d :: days)) as [[j ?]|] eqn:Hl; [|by apply last_None in Hl].
      apply set_vis_path_twice.
    + intros Hoff. rewrite Hent by (by rewrite Hself1). rewrite (Hent1 Hoff).
      destruct days; [done|]. apply without_binaries_twice.
Qed.

Lemma enumerate1_last {A} (l : list A) x :
  last l = Some x -> last (enumerate1 l) = Some (length l, x).
Proof.
  intros Hl. apply last_Some in Hl as [l' ->].
  unfold enumerate1. rewrite length_app. simpl.
  replace (length l' + 1)%nat with (S (length l')) by lia.
  rewrite seq_S, zip_with_app by (by rewrite length_seq).
  simpl. by rewrite last_snoc.
Qed.


Lemma remove_bin_files_outcome items (entries : gmap string entry_kind) :
  NoDup items ->
  (forall item, item ∈ items -> is_Some (entries !! item)) ->
  (exists entries', remove_bin_files items entries = Ok entries') \/
  (exists name, name ∈ items /\ entries !! name = Some Directory /\
     endswith name ".bin" = true /\
     remove_bin_files items entries = Raise (IsADirectoryError name)).
Proof.
  intros Hnd. revert entries.
  induction Hnd as [|item items Hnotin Hnd IH]; intros entries Hkeys; [left; by eexists|].
  simpl. destruct (endswith item ".bin") eqn:Hbin.
  - destruct (Hkeys item) as [[] Hk]; [by left| |].
    + unfold os_remove. rewrite Hk. change (Ok ?x ≫= ?k) with (k x). cbv beta.
      destruct (IH (delete item entries)) as [?|(name & Hin & Hdir & Hb & Hr)]; [|by left|].
      * intros item' Hin. rewrite lookup_delete_ne by (intros ->; done).
        apply Hkeys. by right.
      * right. exists name. split_and!; [by right| |done|done].
        rewrite lookup_delete_ne in Hdir by (intros ->; done). done.
    + right. exists item. split_and!; [by left|done|done|].
      unfold os_remove. by rewrite Hk.
  - destruct (IH entries) as [?|(name & Hin & Hdir & Hb & Hr)]; [|by left|].
    + intros item' Hin. apply Hkeys. by right.
    + right. exists name. split_and!; [by right|done..].
Qed.

End CampaignFacts.

Module CampaignSpec.

Import Np Interferometer Campaign Spec Examples NpFacts CampaignFacts.

(** C7. A campaign in which every step succeeds returns one path per day,
    [beam_vis_1.vis], [beam_vis_2.vis], ... in the campaign's directory, the
    counter running from 1 to the number of days; and when a day's beam
    regeneration begins the telescope directory holds no [*.bin] entry. *)
Theorem campaign_paths_and_purge ext day_ext fuel st telescope sky observation
    files st' :
  run_simulation_long ext day_ext fuel st telescope sky observation = Ok (files, st') ->
  exists base recs,
    objects st !! observation = Some base /\
    files = vis_file_of (new_file_handle ext (handles st))
              <$> seq 1 (number_of_days base) /\
    length files = number_of_days base /\
    journal st' = journal st ++ recs /\
    day <$> recs = seq 1 (number_of_days base) /\
    Forall (fun rec => no_beam_binaries (entries_at_beam rec)) recs.
Proof.
  intros H. apply run_simulation_long_Ok in H
    as (base & recs & Hbase & _ & Hfiles & Hj & Hbins & Howns).
  exists base, recs. split_and!; [done|done| |done| |done].
  - by rewrite Hfiles, length_fmap, length_seq.
  - rewrite (Forall2_days_of _ _ _ _ Howns), enumerate1_fst, date_range_length. done.
Qed.

Lemma campaign_paths_and_purge_witness :
  exists base recs,
    objects campaign_start !! 5%nat = Some base /\
    ["/tmp/vis_0/beam_vis_1.vis"; "/tmp/vis_0/beam_vis_2.vis"; "/tmp/vis_0/beam_vis_3.vis"]
      = vis_file_of (new_file_handle ext_ok (handles campaign_start))
          <$> seq 1 (number_of_days base) /\
    length ["/tmp/vis_0/beam_vis_1.vis"; "/tmp/vis_0/beam_vis_2.vis";
            "/tmp/vis_0/beam_vis_3.vis"] = number_of_days base /\
    journal campaign_end = journal campaign_start ++ recs /\
    day <$> recs = seq 1 (number_of_days base) /\
    Forall (fun rec => no_beam_binaries (entries_at_beam rec)) recs.
Proof.
  apply (campaign_paths_and_purge ext_ok day_ext_ok 1 campaign_start {| path := "/tm" |}
           sky_6 5).
  vm_compute. reflexivity.
Defined.

(** C9. In a campaign that succeeds, the simulation of day [j+1] is invoked
    with [self.vis_path] set to that day's own path, which is the
    [oskar_vis_filename] of the settings it builds, and with a copy of the
    caller's observation carrying that day's own date; the caller's
    observation object is the same after every day and at the end. *)
Theorem campaign_days_do_not_leak ext day_ext fuel st telescope sky observation
    files st' :
  run_simulation_long ext day_ext fuel st telescope sky observation = Ok (files, st') ->
  exists base recs,
    objects st !! observation = Some base /\
    journal st' = journal st ++ recs /\
    length recs = number_of_days base /\
    (forall j rec, recs !! j = Some rec ->
       day rec = S j /\
       vis_path (sim_self rec)
         = Some (vis_file_of (new_file_handle ext (handles st)) (S j)) /\
       (forall input_telpath ms_file_path,
          get_OSKAR_settings_tree (sim_self rec) input_telpath ms_file_path
            !! "interferometer" ≫= (fun section => section !! "oskar_vis_filename")
          = Some (vis_file_of (new_file_handle ext (handles st)) (S j))) /\
       sim_observation rec
         = on_date base (Date (ordinal_of (start_date_and_time base) + Z.of_nat j)) /\
       base_observation_after rec = Some base) /\
    objects st' !! observation = Some base.
Proof.
  intros H. apply run_simulation_long_Ok in H
    as (base & recs & Hbase & Hbase' & _ & Hj & _ & Howns).
  assert (length recs = number_of_days base) as Hlen.
  { apply Forall2_length in Howns. rewrite <-Howns.
    unfold enumerate1. rewrite length_zip_with, length_seq, date_range_length. lia. }
  exists base, recs. split_and!; [done|done|done| |done].
  intros j rec Hrec.
  assert (j < number_of_days base)%nat as Hlt by (rewrite <-Hlen; by eapply lookup_lt_Some).
  pose proof (enumerate1_date_range_lookup (start_date_and_time base) _ j Hlt) as Hday.
  destruct (Forall2_lookup_lr _ _ _ _ _ _ Howns Hday Hrec) as (H1 & H2 & H3 & H4).
  split_and!; [done|done| |done|done].
  intros input_telpath ms_file_path.
  apply settings_tree_vis_path; [done|apply vis_file_of_not_empty].
Qed.

Lemma campaign_days_do_not_leak_witness :
  exists base recs,
    objects campaign_start !! 5%nat = Some base /\
    journal campaign_end = journal campaign_start ++ recs /\
    length recs = number_of_days base /\
    (forall j rec, recs !! j = Some rec ->
       day rec = S j /\
       vis_path (sim_self rec)
         = Some (vis_file_of (new_file_handle ext_ok (handles campaign_start)) (S j)) /\
       (forall input_telpath ms_file_path,
          get_OSKAR_settings_tree (sim_self rec) input_telpath ms_file_path
            !! "interferometer" ≫= (fun section => section !! "oskar_vis_filename")
          = Some (vis_file_of (new_file_handle ext_ok (handles campaign_start)) (S j))) /\
       sim_observation rec
         = on_date base (Date (ordinal_of (start_date_and_time base) + Z.of_nat j)) /\
       base_observation_after rec = Some base) /\
    objects campaign_end !! 5%nat = Some base.
Proof.
  apply (campaign_days_do_not_leak ext_ok day_ext_ok 1 campaign_start {| path := "/tm" |}
           sky_6 5
           ["/tmp/vis_0/beam_vis_1.vis"; "/tmp/vis_0/beam_vis_2.vis";
            "/tmp/vis_0/beam_vis_3.vis"]).
  vm_compute. reflexivity.
Defined.

End CampaignSpec.

Module CampaignExtra.

Import Np Interferometer Campaign Spec Examples NpFacts CampaignFacts.

(** X9. A campaign over no day returns the empty list at once: one
    temporary directory is created, and neither [self], nor the observation
    objects, nor the telescope directory is read or changed. *)
Theorem campaign_without_days ext day_ext fuel st telescope sky observation base :
  objects st !! observation = Some base ->
  number_of_days base = 0%nat ->
  run_simulation_long ext day_ext fuel st telescope sky observation
    = Ok ([], campaign_begun st).
Proof.
  intros Hbase Hn. unfold run_simulation_long. rewrite Hbase. simpl. by rewrite Hn.
Qed.

Lemma campaign_without_days_witness :
  run_simulation_long ext_ok day_ext_ok 0 campaign_start_no_days {| path := "/tm" |} sky_6 5
    = Ok ([], campaign_begun campaign_start_no_days).
Proof.
  apply (campaign_without_days ext_ok day_ext_ok 0 campaign_start_no_days
           {| path := "/tm" |} sky_6 5 no_days); reflexivity.
Defined.

(** X10. A campaign that succeeds leaves [self.vis_path] at the path of its
    last day and every other attribute of [self] as it was; over no day
    [self] is not touched. *)
Theorem campaign_leaves_last_vis_path ext day_ext fuel st telescope sky observation
    files st' :
  run_simulation_long ext day_ext fuel st telescope sky observation = Ok (files, st') ->
  self_ st' = match last files with
              | Some p => set_vis_path (self_ st) p
              | None => self_ st
              end.
Proof.
  unfold run_simulation_long. intros H.
  apply bind_Ok in H as (base & Hbase & H).
  destruct (objects st !! observation) as [b|] eqn:Hl; [|discriminate].
  inversion Hbase; subst b; clear Hbase.
  apply bind_Ok in H as (st1 & Hloop & H). inversion H; subst; clear H.
  pose proof (days_loop_leaves _ _ _ _ _ _ _ _ _ _ Hloop) as [Hself _].
  apply (days_loop_Ok _ _ _ _ _ _ _ _ _ _ base) in Hloop as (_ & Hfiles & _); [|done].
  simpl in *. rewrite Hself, Hfiles, <-list_fmap_compose, fmap_last.
  by destruct (last (enumerate1 _)) as [[i d]|].
Qed.

Lemma campaign_leaves_last_vis_path_witness :
  self_ campaign_end
    = match last ["/tmp/vis_0/beam_vis_1.vis"; "/tmp/vis_0/beam_vis_2.vis";
                  "/tmp/vis_0/beam_vis_3.vis"] with
      | Some p => set_vis_path (self_ campaign_start) p
      | None => self_ campaign_start
      end.
Proof.
  apply (campaign_leaves_last_vis_path ext_ok day_ext_ok 1 campaign_start
           {| path := "/tm" |} sky_6 5).
  vm_compute. reflexivity.
Defined.

(** X11. When the purge of the telescope directory succeeds, exactly the
    entries named [*.bin] are gone and every other entry is kept with its
    kind; purging again changes nothing. *)
Theorem purge_removes_exactly_binaries (entries entries' : gmap string entry_kind) :
  purge_beam_files entries = Ok entries' ->
  (forall name, entries' !! name
                = if endswith name ".bin" then None else entries !! name) /\
  purge_beam_files entries' = Ok entries'.
Proof.
  intros H. split; [intros name; by apply purge_beam_files_lookup|].
  destruct (proj2 (purge_beam_files_Ok_iff entries')) as [entries'' H2].
  { intros name Hdir. rewrite (purge_beam_files_lookup _ _ name H) in Hdir.
    by destruct (endswith name ".bin"). }
  rewrite H2. f_equal.
  rewrite (purge_beam_files_without_binaries _ _ H2).
  rewrite (purge_beam_files_without_binaries _ _ H).
  apply without_binaries_twice.
Qed.

Lemma purge_removes_exactly_binaries_witness :
  (forall name, without_binaries tm_entries !! name
                = if endswith name ".bin" then None else tm_entries !! name) /\
  purge_beam_files (without_binaries tm_entries) = Ok (without_binaries tm_entries).
Proof.
  apply (purge_removes_exactly_binaries tm_entries (without_binaries tm_entries)).
  vm_compute. reflexivity.
Defined.

(** X12. The purge succeeds exactly when no directory is named [*.bin];
    otherwise it raises [IsADirectoryError] for such a directory. *)
Theorem purge_fails_on_bin_directory (entries : gmap string entry_kind) :
  ((exists entries', purge_beam_files entries = Ok entries') <-> no_bin_directory entries) /\
  (~ no_bin_directory entries ->
   exists name, entries !! name = Some Directory /\ endswith name ".bin" = true /\
     purge_beam_files entries = Raise (IsADirectoryError name)).
Proof.
  split; [apply purge_beam_files_Ok_iff|].
  intros Hn.
  destruct (remove_bin_files_outcome (os_listdir entries) entries)
    as [Hok|(name & _ & Hdir & Hbin & Hr)].
  - apply NoDup_fst_map_to_list.
  - intros item Hin. by apply elem_of_os_listdir.
  - by apply purge_beam_files_Ok_iff in Hok.
  - by exists name.
Qed.

(** A directory named like a binary stops the purge. *)
Example purge_raises_on_bin_directory :
  purge_beam_files tm_entries_bin_directory = Raise (IsADirectoryError "cache.bin").
Proof. by vm_compute. Qed.

(** X13. With at least one day to run, a telescope directory without the
    file [position.txt] makes the campaign raise a [KaraboException] on its
    first day: no path is returned. *)
Theorem campaign_aborts_without_position_file ext day_ext fuel st telescope sky
    observation base :
  objects st !! observation = Some base ->
  (0 < number_of_days base)%nat ->
  entries st !! "position.txt" <> Some RegularFile ->
  run_simulation_long ext day_ext fuel st telescope sky observation
    = Raise (KaraboException "Missing crucial position.txt file").
Proof.
  intros Hbase Hn Hpos. unfold run_simulation_long. rewrite Hbase.
  change (of_option _ (Some base)) with (Ok base).
  change (Ok base ≫= ?k) with (k base). cbv beta zeta.
  destruct (number_of_days base) as [|n]; [lia|].
  unfold date_range, enumerate1. simpl seq. rewrite fmap_cons. simpl length.
  simpl seq. simpl zip. unfold zip. simpl zip_with.
  simpl days_loop. unfold run_day at 1. simpl entries.
  unfold read_OSKAR_tm_file.
  rewrite bool_decide_eq_false_2 by done. done.
Qed.

Lemma campaign_aborts_without_position_file_witness :
  run_simulation_long ext_ok day_ext_ok 1 campaign_start_no_position {| path := "/tm" |}
    sky_6 5
    = Raise (KaraboException "Missing crucial position.txt file").
Proof.
  apply (campaign_aborts_without_position_file ext_ok day_ext_ok 1
           campaign_start_no_position {| path := "/tm" |} sky_6 5 three_days).
  - reflexivity.
  - simpl. lia.
  - vm_compute. discriminate.
Defined.

(** X14. Without array beam, a campaign that succeeds over at least one
    day leaves the telescope directory purged (its entries without the
    [*.bin] ones); over no day it leaves the directory as it was. *)
Theorem campaign_without_beam_leaves_directory_purged ext day_ext fuel st telescope sky
    observation files st' :
  run_simulation_long ext day_ext fuel st telescope sky observation = Ok (files, st') ->
  enable_array_beam (self_ st) = false ->
  entries st' = match files with
                | [] => entries st
                | _ => without_binaries (entries st)
                end.
Proof.
  unfold run_simulation_long. intros H Hoff.
  apply bind_Ok in H as (base & Hbase & H).
  destruct (objects st !! observation) as [b|] eqn:Hl; [|discriminate].
  inversion Hbase; subst b; clear Hbase.
  apply bind_Ok in H as (st1 & Hloop & H). inversion H; subst; clear H.
  pose proof (days_loop_leaves _ _ _ _ _ _ _ _ _ _ Hloop) as [_ Hent].
  apply (days_loop_Ok _ _ _ _ _ _ _ _ _ _ base) in Hloop as (_ & Hfiles & _); [|done].
  simpl in *. rewrite (Hent Hoff), Hfiles.
  by destruct (enumerate1 _).
Qed.

Lemma campaign_without_beam_leaves_directory_purged_witness :
  entries campaign_end_no_beam
    = match ["/tmp/vis_0/beam_vis_1.vis"; "/tmp/vis_0/beam_vis_2.vis";
             "/tmp/vis_0/beam_vis_3.vis"] with
      | [] => entries campaign_start_no_beam
      | _ => without_binaries (entries campaign_start_no_beam)
      end.
Proof.
  apply (campaign_without_beam_leaves_directory_purged ext_ok day_ext_ok 1
           campaign_start_no_beam {| path := "/tm" |} sky_6 5).
  - vm_compute. reflexivity.
  - reflexivity.
Defined.

End CampaignExtra.

(** ** The performance report *)

Module ReportFacts.

Import Spec PerformanceTest.

Lemma count_char_app c s1 s2 :
  count_char c (s1 +:+ s2) = (count_char c s1 + count_char c s2)%nat.
Proof. induction s1 as [|c' s1 IH]; simpl; [done|]. rewrite IH. lia. Qed.

Lemma pretty_N_go_line_feeds x s :
  line_feeds (pretty_N_go x s) = line_feeds s.
Proof.
  revert s. induction (N.lt_wf_0 x) as [x _ IH]; intros s.
  destruct (decide (0 < x)%N) as [Hpos|Hz].
  - rewrite pretty_N_go_step by done. rewrite IH by (by apply N.div_lt).
    unfold line_feeds.
    change (count_char ?c (String ?c' ?r))
      with ((if Ascii.eqb c c' then 1 else 0) + count_char c r)%nat.
    assert (Ascii.eqb (Ascii.ascii_of_nat 10) (pretty_N_char (x `mod` 10)) = false) as ->; [|done].
    unfold pretty_N_char. by repeat case_match.
  - assert (x = 0%N) as -> by lia. by rewrite pretty_N_go_0.
Qed.

Lemma pretty_N_line_feeds (x : N) : line_feeds (pretty x) = 0%nat.
Proof.
  unfold pretty, pretty_N. case_decide; [done|]. by rewrite pretty_N_go_line_feeds.
Qed.

Lemma str_int_line_feeds i : line_feeds (str_int i) = 0%nat.
Proof.
  unfold str_int. destruct i as [|p|p]; [done| |].
  - apply (pretty_N_line_feeds (N.pos p)).
  - change (pretty (Z.neg p)) with ("-" +:+ pretty (N.pos p)).
    unfold line_feeds. rewrite count_char_app.
    fold (line_feeds (pretty (N.pos p))). by rewrite pretty_N_line_feeds.
Qed.

Lemma report_line_one_line n time_taken :
  line_feeds time_taken = 0%nat -> line_feeds (report_line n time_taken) = 1%nat.
Proof.
  intros Ht. unfold report_line, line_feeds.
  rewrite !count_char_app.
  fold (line_feeds (str_int n)). fold (line_feeds time_taken).
  rewrite str_int_line_feeds, Ht. done.
Qed.

Lemma string_append_assoc (a b c : string) : (a +:+ b) +:+ c = a +:+ (b +:+ c).
Proof.
  induction a as [|x a IH]; [done|].
  change (String x ((a +:+ b) +:+ c) = String x (a +:+ (b +:+ c))). by f_equal.
Qed.

Lemma count_char_cons c c' s :
  count_char c (String c' s) = ((if Ascii.eqb c c' then 1 else 0) + count_char c s)%nat.
Proof. done. Qed.

Lemma pretty_N_go_count c x s :
  (forall d, Ascii.eqb c (pretty_N_char d) = false) ->
  count_char c (pretty_N_go x s) = count_char c s.
Proof.
  intros Hc. revert s. induction (N.lt_wf_0 x) as [x _ IH]; intros s.
  destruct (decide (0 < x)%N) as [Hpos|Hz].
  - rewrite pretty_N_go_step by done. rewrite IH by (by apply N.div_lt).
    change (count_char c (String ?c' ?r))
      with ((if Ascii.eqb c c' then 1 else 0) + count_char c r)%nat.
    by rewrite Hc.
  - assert (x = 0%N) as -> by lia. by rewrite pretty_N_go_0.
Qed.

Lemma pretty_N_char_not_underscore d : Ascii.eqb "_"%char (pretty_N_char d) = false.
Proof. unfold pretty_N_char. by repeat case_match. Qed.

Lemma str_int_no_underscore i : count_char "_"%char (str_int i) = 0%nat.
Proof.
  assert (forall x : N, count_char "_"%char (pretty x) = 0%nat) as HN.
  { intros x. unfold pretty, pretty_N. case_decide; [done|].
    rewrite pretty_N_go_count; [done|]. apply pretty_N_char_not_underscore. }
  unfold str_int. destruct i as [|p|p]; [done| |].
  - apply (HN (N.pos p)).
  - change (pretty (Z.neg p)) with ("-" +:+ pretty (N.pos p)).
    rewrite count_char_app. by rewrite (HN (N.pos p)).
Qed.

(** Two texts without underscore that are followed by one: they end at the
    same place. *)
Lemma append_underscore_inj a a' r r' :
  count_char "_"%char a = 0%nat -> count_char "_"%char a' = 0%nat ->
  a +:+ String "_"%char r = a' +:+ String "_"%char r' -> a = a' /\ r = r'.
Proof.
  revert a'. induction a as [|c a IH]; intros [|c' a'] Ha Ha' H; simpl in H.
  - by inversion H.
  - inversion H; subst c'. rewrite count_char_cons, Ascii.eqb_refl in Ha'. discriminate.
  - inversion H; subst c. rewrite count_char_cons, Ascii.eqb_refl in Ha. discriminate.
  - inversion H; subst c'. rewrite count_char_cons in Ha, Ha'.
    destruct (Ascii.eqb "_"%char c); [discriminate|].
    destruct (IH a') as [-> ->]; done.
Qed.

Lemma report_file_name_inj w n w' n' :
  report_file_name w n = report_file_name w' n' -> w = w' /\ n = n'.
Proof.
  unfold report_file_name. intros H.
  change ("output_" +:+ ?x) with
    (String "o" (String "u" (String "t" (String "p" (String "u" (String "t"
       (String "_" x))))))) in H.
  inversion H as [H1]; clear H.
  change ("_nodes_" +:+ ?x) with (String "_"%char ("nodes_" +:+ x)) in H1.
  apply append_underscore_inj in H1 as [Hw H2]; [|apply str_int_no_underscore..].
  change ("nodes_" +:+ ?x) with
    (String "n" (String "o" (String "d" (String "e" (String "s" (String "_" x)))))) in H2.
  inversion H2 as [H3]; clear H2.
  change ("_channels.txt") with (String "_"%char "channels.txt") in H3.
  apply append_underscore_inj in H3 as [Hn _]; [|apply str_int_no_underscore..].
  unfold str_int in *. split; by apply (inj pretty).
Qed.

End ReportFacts.

Module ReportSpec.

Import Spec Examples PerformanceTest ReportFacts.

(** C8 (as the code has it). A run with [w] nodes and [n] channels whose
    simulation returned [n] visibilities appends the text
    "Number of channels: n. Time taken: t min." and a line feed, one line,
    to the file [output_w_nodes_n_channels.txt]: what the file held stays in
    front of it, a file that is not there is created, and no other file
    changes. *)
Theorem report_appended (files : gmap string string) w n time_taken :
  line_feeds time_taken = 0%nat ->
  exists files',
    main files w n n time_taken = Ok files' /\
    report_file_name w n
      = "output_" +:+ str_int w +:+ "_nodes_" +:+ str_int n +:+ "_channels.txt" /\
    report_line n time_taken
      = "Number of channels: " +:+ str_int n +:+ ". Time taken: " +:+ time_taken
          +:+ " min." +:+ newline /\
    line_feeds (report_line n time_taken) = 1%nat /\
    files' !! report_file_name w n
      = Some (default "" (files !! report_file_name w n) +:+ report_line n time_taken) /\
    forall other, other <> report_file_name w n -> files' !! other = files !! other.
Proof.
  intros Ht. unfold main. rewrite Z.eqb_refl. simpl negb. cbv iota.
  eexists. split_and!; [done|done|done|by apply report_line_one_line| |].
  - unfold open_append_write. by rewrite lookup_insert_eq.
  - intros other Hne. unfold open_append_write. by rewrite lookup_insert_ne.
Qed.

Lemma report_appended_witness :
  exists files',
    main report_files 4 10 10 "1.25" = Ok files' /\
    report_file_name 4 10
      = "output_" +:+ str_int 4 +:+ "_nodes_" +:+ str_int 10 +:+ "_channels.txt" /\
    report_line 10 "1.25"
      = "Number of channels: " +:+ str_int 10 +:+ ". Time taken: " +:+ "1.25"
          +:+ " min." +:+ newline /\
    line_feeds (report_line 10 "1.25") = 1%nat /\
    files' !! report_file_name 4 10
      = Some (default "" (report_files !! report_file_name 4 10)
                +:+ report_line 10 "1.25") /\
    forall other, other <> report_file_name 4 10 ->
      files' !! other = report_files !! other.
Proof.
  apply (report_appended report_files 4 10 "1.25").
  reflexivity.
Defined.

(** C8 (as stated) fails: the file is not called [..._items.txt] and the
    line does not start with "Number of items". *)
Lemma report_names_channels_not_items :
  report_file_name 2 3 = "output_2_nodes_3_channels.txt" /\
  report_line 3 "1.5" = "Number of channels: 3. Time taken: 1.5 min." +:+ newline /\
  (forall files', main ∅ 2 3 3 "1.5" = Ok files' ->
     files' !! "output_2_nodes_3_items.txt" = None /\
     files' !! "output_2_nodes_3_channels.txt"
       <> Some ("Number of items: 3. Time taken: 1.5 min." +:+ newline)).
Proof.
  split_and!; [by vm_compute..|].
  intros files' H. vm_compute in H. inversion H; subst; clear H.
  split; [by vm_compute|]. vm_compute. discriminate.
Qed.

(** Two runs leave two lines. *)
Example two_runs_two_lines :
  (files1 ← main ∅ 4 10 10 "1.25"; main files1 4 10 10 "1.31")
    = Ok (<["output_4_nodes_10_channels.txt" :=
             "Number of channels: 10. Time taken: 1.25 min." +:+ newline +:+
             "Number of channels: 10. Time taken: 1.31 min." +:+ newline]> ∅).
Proof. by vm_compute. Qed.

End ReportSpec.

Module ReportExtra.

Import Spec Examples PerformanceTest ReportFacts.

(** X15. Runs accumulate: after two runs with the same node and channel
    counts the report file holds what it held before, then the line of the
    first run, then the line of the second, and no other file has changed. *)
Theorem reports_accumulate (files files1 files2 : gmap string string) w n t1 t2 :
  main files w n n t1 = Ok files1 ->
  main files1 w n n t2 = Ok files2 ->
  files2 !! report_file_name w n
    = Some (default "" (files !! report_file_name w n)
              +:+ report_line n t1 +:+ report_line n t2) /\
  forall other, other <> report_file_name w n -> files2 !! other = files !! other.
Proof.
  unfold main. rewrite Z.eqb_refl. simpl negb. cbv iota.
  intros H1 H2. inversion H1; subst files1; clear H1. inversion H2; subst files2; clear H2.
  unfold open_append_write. split.
  - rewrite !lookup_insert_eq. simpl. by rewrite string_append_assoc.
  - intros other Hne. by rewrite !lookup_insert_ne.
Qed.

Lemma reports_accumulate_witness :
  (<["output_4_nodes_10_channels.txt" :=
       "Number of channels: 10. Time taken: 1.31 min." +:+ newline +:+
       report_line 10 "1.25" +:+ report_line 10 "1.27"]> ∅ : gmap string string)
    !! report_file_name 4 10
    = Some (default "" (report_files !! report_file_name 4 10)
              +:+ report_line 10 "1.25" +:+ report_line 10 "1.27") /\
  forall other, other <> report_file_name 4 10 ->
    (<["output_4_nodes_10_channels.txt" :=
         "Number of channels: 10. Time taken: 1.31 min." +:+ newline +:+
         report_line 10 "1.25" +:+ report_line 10 "1.27"]> ∅ : gmap string string)
      !! other = report_files !! other.
Proof.
  apply (reports_accumulate report_files
           (<["output_4_nodes_10_channels.txt" :=
                "Number of channels: 10. Time taken: 1.31 min." +:+ newline +:+
                report_line 10 "1.25"]> ∅)
           _ 4 10 "1.25" "1.27").
  - vm_compute. reflexivity.
  - vm_compute. reflexivity.
Defined.

(** X16. The name of the report file tells the node count and the channel
    count: runs that differ in one of them write to different files. *)
Theorem report_files_do_not_mix w n w' n' :
  report_file_name w n = report_file_name w' n' -> w = w' /\ n = n'.
Proof. apply report_file_name_inj. Qed.

Lemma report_files_do_not_mix_witness : (11 : Z) = 11 /\ (-1 : Z) = -1.
Proof.
  apply (report_files_do_not_mix 11 (-1) 11 (-1)). reflexivity.
Defined.

End ReportExtra.

(** ** The sky model *)

Module SkyFacts.

Import Py SkyModel Spec Examples NpFacts.

Lemma rows_of_length n k d : length (rows_of n k d) = n.
Proof. unfold rows_of. by rewrite length_fmap, length_seq. Qed.

Lemma rows_of_cons n k r d :
  length r = k -> rows_of (S n) k (r ++ d) = r :: rows_of n k d.
Proof.
  intros Hr. unfold rows_of. rewrite <-cons_seq, fmap_cons. f_equal.
  - rewrite Nat.mul_0_l, drop_0. by apply take_app_length'.
  - rewrite <-fmap_S_seq, <-list_fmap_compose. apply list_fmap_ext.
    intros _ i _. simpl. f_equal.
    replace (k + i * k)%nat with (length r + i * k)%nat by lia.
    apply drop_app_add.
Qed.

Lemma rows_of_concat k rs :
  Forall (fun r => length r = k) rs -> rows_of (length rs) k (concat rs) = rs.
Proof.
  induction 1 as [|r rs Hr _ IH]; [done|].
  simpl. rewrite rows_of_cons by done. by rewrite IH.
Qed.

Lemma length_concat_const k (rs : list (list cell)) :
  Forall (fun r => length r = k) rs -> length (concat rs) = (length rs * k)%nat.
Proof.
  induction 1 as [|r rs Hr _ IH]; [done|].
  simpl. rewrite length_app. lia.
Qed.

Lemma rows_of_S n k d :
  (S n * k <= length d)%nat ->
  rows_of (S n) k d = take k d :: rows_of n k (drop k d).
Proof.
  intros Hd. rewrite <-(take_drop k d) at 1.
  apply rows_of_cons. rewrite length_take. lia.
Qed.

Lemma rows_of_row_length n k d :
  (n * k <= length d)%nat -> Forall (fun r => length r = k) (rows_of n k d).
Proof.
  revert d. induction n as [|n IH]; intros d Hd; [constructor|].
  rewrite rows_of_S by done. constructor.
  - rewrite length_take. lia.
  - apply IH. rewrite length_drop. lia.
Qed.

Lemma concat_rows_of n k d :
  length d = (n * k)%nat -> concat (rows_of n k d) = d.
Proof.
  revert d. induction n as [|n IH]; intros d Hd.
  - by destruct d.
  - rewrite rows_of_S by lia. simpl. rewrite IH, take_drop; [done|].
    rewrite length_drop. lia.
Qed.

Lemma rows_of_app n1 n2 k d1 d2 :
  length d1 = (n1 * k)%nat ->
  rows_of (n1 + n2) k (d1 ++ d2) = rows_of n1 k d1 ++ rows_of n2 k d2.
Proof.
  revert d1. induction n1 as [|n1 IH]; intros d1 Hd.
  - by destruct d1.
  - rewrite (rows_of_S n1 k d1) by lia.
    rewrite <-(take_drop k d1) at 1. rewrite <-(assoc_L (++)).
    change (S n1 + n2)%nat with (S (n1 + n2)).
    rewrite rows_of_cons by (rewrite length_take; lia).
    simpl. f_equal. apply IH. rewrite length_drop. lia.
Qed.

Lemma table_rows n k a :
  table n k a -> rows a = rows_of n k (data a).
Proof. intros [Hs _]. unfold rows. by rewrite Hs. Qed.

Lemma padded_length k r :
  (2 < k)%nat -> (k < 14)%nat -> length r = k -> length (padded k r) = 13%nat.
Proof.
  intros ?? Hr. unfold padded. destruct (k <? 13)%nat eqn:Hk.
  - apply Nat.ltb_lt in Hk. rewrite !length_app, length_replicate. simpl. lia.
  - apply Nat.ltb_ge in Hk. lia.
Qed.

(** The array that [add_point_sources] stacks under the model: a table of
    thirteen columns holding the completed rows. *)
Lemma completed_table n k srcs :
  table n k srcs -> (2 < k)%nat -> (k < 14)%nat ->
  let a := if (k <? 13)%nat then fill_missing n k (data srcs) else srcs in
  table n 13 a /\ rows a = padded k <$> rows srcs.
Proof.
  intros Ht H2 H14 a. pose proof Ht as [Hs Hd].
  rewrite (table_rows _ _ _ Ht). subst a. unfold padded.
  destruct (k <? 13)%nat eqn:Hk.
  - apply Nat.ltb_lt in Hk.
    assert (Hrows : Forall (fun r => length r = 13%nat)
              ((fun r => r ++ replicate (12 - k) (Num 0) ++ [PyNone])
                 <$> rows_of n k (data srcs))).
    { apply Forall_fmap. eapply Forall_impl; [apply (rows_of_row_length n k (data srcs)); lia|].
      intros r Hr. unfold compose. rewrite !length_app, length_replicate, Hr. change (length [PyNone]) with 1%nat. lia. }
    assert (Hlen : length ((fun r => r ++ replicate (12 - k) (Num 0) ++ [PyNone])
                     <$> rows_of n k (data srcs)) = n)
      by (by rewrite length_fmap, rows_of_length).
    split.
    + split; [done|]. simpl.
      rewrite (length_concat_const 13) by done. by rewrite Hlen.
    + unfold rows, fill_missing. simpl.
      rewrite <-Hlen at 1. by apply rows_of_concat.
  - apply Nat.ltb_ge in Hk. assert (k = 13%nat) as -> by lia.
    split; [exact Ht|]. rewrite (table_rows _ _ _ Ht). symmetry. apply list_fmap_id.
Qed.

Lemma well_formed_count m :
  well_formed_model m -> num_sources m = Z.of_nat (length (model_rows m)).
Proof.
  unfold well_formed_model, model_rows. destruct (sources m) as [a|]; [|done].
  intros (n & Ht & ->). simpl. by rewrite (table_rows _ _ _ Ht), rows_of_length.
Qed.

Lemma add_point_sources_table self srcs n k :
  well_formed_model self -> table n k srcs ->
  exists m', add_point_sources self srcs = Ok m' /\
    well_formed_model m' /\
    model_rows m' =
      model_rows self ++
      (if (2 <? k)%nat && (k <? 14)%nat then padded k <$> rows srcs else []).
Proof.
  intros Hwf Ht. pose proof Ht as [Hs Hd].
  unfold add_point_sources. rewrite Hs. simpl.
  destruct ((2 <? k)%nat && (k <? 14)%nat) eqn:Hk.
  2:{ exists self. by rewrite app_nil_r. }
  apply andb_true_iff in Hk as [H2 H14].
  apply Nat.ltb_lt in H2, H14.
  destruct (completed_table n k srcs Ht H2 H14) as [Hta Hrows].
  set (a := if (k <? 13)%nat then fill_missing n k (data srcs) else srcs) in *.
  unfold well_formed_model, model_rows in *.
  destruct (sources self) as [old|] eqn:Hold.
  - destruct Hwf as (n0 & Hold_t & Hnum). pose proof Hold_t as [Hos Hod].
    pose proof Hta as [Has Had].
    unfold vstack, atleast_2d. rewrite Hos, Has. simpl.
    rewrite Hos, Has. rewrite bool_decide_eq_true_2 by done. simpl.
    eexists. split; [done|]. simpl. split.
    + exists (n0 + n)%nat. split; [|lia].
      split; [done|]. simpl. rewrite length_app. lia.
    + unfold rows at 1. simpl. rewrite (rows_of_app _ _ _ _ _ Hod).
      by rewrite <-Hrows, (table_rows _ _ _ Hold_t), (table_rows _ _ _ Hta).
  - simpl. eexists. split; [done|]. simpl. split; [|done].
    exists n. split; [done|lia].
Qed.

Lemma add_point_source_Ok self p m :
  add_point_source self p = Ok m ->
  sources self = None /\
  m = {| num_sources := num_sources self + 1; sources := Some (new_sources p) |}.
Proof.
  unfold add_point_source. destruct (sources self); [done|].
  intros [= <-]. done.
Qed.

Lemma new_sources_table p : table 1 13 (new_sources p).
Proof. done. Qed.

(** What one block contributes to [filter_by_flux] when the array is a
    table and the flux a number: the row itself, if it is within the
    bounds. *)
Lemma flux_hit lo hi (r : list cell) :
  has_flux r ->
  (within ← for_each (flux_within lo hi) (take 1 (drop 2 r));
   Ok (replicate (length (filter (fun b => b = true) within)) r))
  = Ok (if flux_in_range lo hi r then [r] else []).
Proof.
  intros (x & Hx). unfold flux_in_range. rewrite Hx.
  destruct r as [|c0 [|c1 [|c2 r]]]; try discriminate.
  simpl in Hx. injection Hx as ->. simpl.
  rewrite (andb_comm (lo <=? x)).
  by destruct ((x <=? hi) && (lo <=? x)).
Qed.

Lemma concat_hits {A} (P : A -> bool) (l : list A) :
  concat ((fun r => if P r then [r] else []) <$> l) = filter (fun r => P r = true) l.
Proof.
  induction l as [|r l IH]; [done|].
  rewrite fmap_cons, filter_cons. simpl. rewrite IH.
  by destruct (P r).
Qed.

Lemma filter_by_flux_table self a n k lo hi :
  sources self = Some a -> table n k a -> (3 <= k)%nat ->
  Forall has_flux (rows a) ->
  let kept := filter (fun r => flux_in_range lo hi r = true) (rows a) in
  filter_by_flux self lo hi =
    Ok {| num_sources := Z.of_nat (length kept);
          sources := Some {| shape := [length kept; k]; data := concat kept |} |}.
Proof.
  intros Ha Ht Hk Hflux kept. pose proof Ht as [Hs Hd].
  unfold filter_by_flux. rewrite Ha, Hs.
  destruct (k <? 3)%nat eqn:Hk3; [apply Nat.ltb_lt in Hk3; lia|].
  unfold inner_size. rewrite Hs. simpl foldr.
  rewrite !Nat.mul_1_r.
  rewrite <-(table_rows _ _ _ Ht).
  rewrite (for_each_all_Ok _ (fun r => if flux_in_range lo hi r then [r] else [])).
  2:{ intros r Hr. apply flux_hit. by eapply Forall_forall in Hflux. }
  change (Ok ?x ≫= ?f) with (f x). cbv beta.
  by rewrite concat_hits.
Qed.

Lemma filtered_table (P : list cell -> Prop) `{!forall r, Decision (P r)} n k a :
  table n k a ->
  let kept := filter P (rows a) in
  table (length kept) k {| shape := [length kept; k]; data := concat kept |} /\
  rows {| shape := [length kept; k]; data := concat kept |} = kept.
Proof.
  intros Ht kept.
  assert (Hrows : Forall (fun r => length r = k) kept).
  { apply Forall_forall. intros r Hr. apply list_elem_of_filter in Hr as [_ Hr].
    rewrite (table_rows _ _ _ Ht) in Hr.
    revert r Hr. apply Forall_forall, rows_of_row_length. destruct Ht as [_ ->]. lia. }
  split.
  - split; [done|]. simpl. by apply length_concat_const.
  - unfold rows. simpl. by apply rows_of_concat.
Qed.

(** The blocks [filter_by_flux] keeps are blocks of the array. *)
Lemma for_each_hits {A B} (f : A -> outcome B) (h : B -> nat) (l : list A) hits :
  for_each (fun x => w ← f x; Ok (replicate (h w) x)) l = Ok hits ->
  Forall (fun x => x ∈ l) (concat hits).
Proof.
  revert hits. induction l as [|x l IH]; intros hits H; simpl in H.
  - injection H as <-. constructor.
  - apply bind_Ok in H as (ys & Hx & H).
    apply bind_Ok in H as (hits' & Hl & H). injection H as <-.
    apply bind_Ok in Hx as (w & _ & Hx). injection Hx as <-.
    simpl. apply Forall_app. split.
    + apply Forall_forall. intros y Hy. apply elem_of_replicate in Hy as [-> _].
      apply list_elem_of_here.
    + eapply Forall_impl; [by apply IH|]. intros y Hy. by apply list_elem_of_further.
Qed.

Lemma filter_by_flux_well_formed self lo hi m :
  well_formed_model self -> filter_by_flux self lo hi = Ok m -> well_formed_model m.
Proof.
  unfold well_formed_model at 1, filter_by_flux.
  destruct (sources self) as [a|]; [|done].
  intros (n & [Hs Hd] & _) H. rewrite Hs in H. simpl in H.
  apply bind_Ok in H as (hits & Hhits & H). injection H as <-.
  apply for_each_hits in Hhits.
  assert (Hrows : Forall (fun r => length r = 13%nat) (concat hits)).
  { eapply Forall_impl; [exact Hhits|]. intros r Hr. revert r Hr.
    apply Forall_forall. unfold inner_size. rewrite Hs.
    apply (rows_of_row_length n 13). lia. }
  exists (length (concat hits)). split; [|done].
  split; [done|]. simpl. by apply length_concat_const.
Qed.

Lemma run_call_well_formed m c m' :
  sound_call c -> well_formed_model m -> run_call m c = Ok m' -> well_formed_model m'.
Proof.
  destruct c as [srcs|p|lo hi]; simpl; intros Hc Hwf H.
  - destruct (shape srcs) as [|n [|k [|k' rest]]] eqn:Hs.
    + unfold add_point_sources in H. by rewrite Hs in H.
    + unfold add_point_sources in H. by rewrite Hs in H.
    + assert (Ht : table n k srcs).
      { split; [done|]. unfold sound_array in Hc. rewrite Hc, Hs. simpl. lia. }
      destruct (add_point_sources_table m srcs n k Hwf Ht) as (m'' & Hm & Hwf' & _).
      congruence.
    + unfold add_point_sources in H. rewrite Hs in H. simpl in H. by injection H as <-.
  - apply add_point_source_Ok in H as [Hnone ->].
    unfold well_formed_model in *. rewrite Hnone in Hwf. simpl.
    exists 1%nat. split; [apply new_sources_table|lia].
  - by eapply filter_by_flux_well_formed.
Qed.

Lemma run_calls_well_formed cs m m' :
  Forall sound_call cs -> well_formed_model m -> run_calls m cs = Ok m' ->
  well_formed_model m'.
Proof.
  intros Hcs. revert m. induction Hcs as [|c cs Hc _ IH]; intros m Hwf H; simpl in H.
  - by injection H as <-.
  - apply bind_Ok in H as (m1 & H1 & H). eapply IH; [|done].
    by eapply run_call_well_formed.
Qed.

Lemma init_well_formed srcs0 m :
  from_option sound_array True srcs0 -> init srcs0 = Ok m -> well_formed_model m.
Proof.
  destruct srcs0 as [a|]; simpl; intros Ha H.
  - apply (run_call_well_formed {| num_sources := 0; sources := None |}
             (AddPointSources a)); done.
  - by injection H as <-.
Qed.

End SkyFacts.

Module SkySpec.

Import SkyModel Examples.

(** C10. An array of more than two dimensions, or one whose second
    dimension has at most 2 or at least 14 entries, is ignored:
    [add_point_sources] returns without raising and the model keeps its
    [sources] and [num_sources]. *)
Theorem invalid_shape_ignored (self : SkyModel) (srcs : array) :
  (2 < length (shape srcs))%nat \/
  (exists k, shape srcs !! 1%nat = Some k /\ (k <= 2 \/ 14 <= k)%nat) ->
  add_point_sources self srcs = Ok self.
Proof.
  intros H. unfold add_point_sources.
  destruct (2 <? length (shape srcs))%nat eqn:Hdim; [done|].
  destruct H as [H|(k & Hk & Hrange)]; [apply Nat.ltb_ge in Hdim; lia|].
  destruct (shape srcs) as [|n [|k' rest]] eqn:Hshape; try discriminate.
  simpl in Hk. inversion Hk; subst k'. simpl.
  replace ((2 <? k)%nat && (k <? 14)%nat) with false; [done|].
  symmetry. apply andb_false_iff.
  destruct Hrange; [left; apply Nat.ltb_ge|right; apply Nat.ltb_ge]; lia.
Qed.

Lemma invalid_shape_ignored_witness :
  add_point_sources model_1 {| shape := [2; 3; 4]%nat; data := replicate 24 (Num 1) |}
    = Ok model_1 /\
  add_point_sources model_1 {| shape := [2; 2]%nat; data := replicate 4 (Num 1) |}
    = Ok model_1 /\
  add_point_sources model_1 {| shape := [1; 14]%nat; data := replicate 14 (Num 1) |}
    = Ok model_1.
Proof.
  split_and!.
  - apply (invalid_shape_ignored model_1). left. simpl. lia.
  - apply (invalid_shape_ignored model_1). right. exists 2%nat. split; [reflexivity|lia].
  - apply (invalid_shape_ignored model_1). right. exists 14%nat. split; [reflexivity|lia].
Defined.

(** A valid array is taken in: three columns are completed to thirteen. *)
Example valid_shape_added :
  add_point_sources {| num_sources := 0; sources := None |}
    {| shape := [1; 3]%nat; data := [Num 10; Num 20; Num 5] |}
  = Ok {| num_sources := 1;
          sources := Some {| shape := [1; 13]%nat;
                             data := [Num 10; Num 20; Num 5] ++ replicate 9 (Num 0)
                                       ++ [PyNone] |} |}.
Proof. by vm_compute. Qed.

End SkySpec.

Module SkyExtra.

Import Py SkyModel Spec Examples NpFacts SkyFacts.

(** X17. [add_point_sources] with a table of 3 to 13 columns on a
    well-formed model returns: the model then holds its former rows followed by the
    rows of the table, each completed to thirteen cells with zeros and
    [None], and [num_sources] has grown by the number of rows of the
    table. *)
Theorem add_point_sources_appends_completed_rows
    (self : SkyModel) (srcs : array) (n k : nat) :
  well_formed_model self -> table n k srcs -> (3 <= k <= 13)%nat ->
  exists m', add_point_sources self srcs = Ok m' /\
    well_formed_model m' /\
    model_rows m' = model_rows self ++ (padded k <$> rows srcs) /\
    num_sources m' = num_sources self + Z.of_nat n.
Proof.
  intros Hwf Ht Hk.
  destruct (add_point_sources_table self srcs n k Hwf Ht) as (m' & Hm & Hwf' & Hrows).
  replace ((2 <? k)%nat && (k <? 14)%nat) with true in Hrows.
  2:{ symmetry. apply andb_true_iff. split; apply Nat.ltb_lt; lia. }
  exists m'. split_and!; try done.
  rewrite (well_formed_count _ Hwf'), (well_formed_count _ Hwf), Hrows.
  rewrite length_app, length_fmap, (table_rows _ _ _ Ht), rows_of_length. lia.
Qed.

Lemma add_point_sources_appends_completed_rows_witness :
  exists m', add_point_sources model_3_bright three_sources = Ok m' /\
    well_formed_model m' /\
    model_rows m' = model_rows model_3_bright ++ (padded 3 <$> rows three_sources) /\
    num_sources m' = num_sources model_3_bright + Z.of_nat 3.
Proof.
  apply (add_point_sources_appends_completed_rows model_3_bright three_sources 3 3).
  - exists 2%nat. by vm_compute.
  - by vm_compute.
  - lia.
Defined.

(** X18. Once a model has been changed by a successful call - a point source
    added, a table of 3 to 13 columns taken in, or a filter by flux -
    [add_point_source] raises [TypeError]: point sources cannot be added
    one after the other. *)
Theorem add_point_source_only_on_fresh_model
    (self m : SkyModel) (q : point_source) :
  (exists p, add_point_source self p = Ok m) \/
  (exists srcs n k, table n k srcs /\ (3 <= k <= 13)%nat /\
                    add_point_sources self srcs = Ok m) \/
  (exists lo hi, filter_by_flux self lo hi = Ok m) ->
  add_point_source m q = Raise TypeError.
Proof.
  intros H.
  assert (Hm : exists a, sources m = Some a).
  { destruct H as [(p & H)|[(srcs & n & k & [Hs _] & Hk & H)|(lo & hi & H)]].
    - apply add_point_source_Ok in H as [_ ->]. by eexists.
    - unfold add_point_sources in H. rewrite Hs in H. simpl in H.
      replace ((2 <? k)%nat && (k <? 14)%nat) with true in H.
      2:{ symmetry. apply andb_true_iff. split; apply Nat.ltb_lt; lia. }
      apply bind_Ok in H as (stacked & _ & H). injection H as <-. by eexists.
    - unfold filter_by_flux in H. destruct (sources self) as [a|]; [|done].
      destruct (shape a) as [|n [|k rest]]; try done.
      destruct (k <? 3)%nat; [done|].
      apply bind_Ok in H as (hits & _ & H). injection H as <-. by eexists. }
  destruct Hm as [a Ha]. unfold add_point_source. by rewrite Ha.
Qed.

Lemma add_point_source_only_on_fresh_model_witness :
  add_point_source
    {| num_sources := 1; sources := Some (new_sources a_point_source) |}
    a_point_source = Raise TypeError.
Proof.
  apply (add_point_source_only_on_fresh_model empty_model).
  left. exists a_point_source. reflexivity.
Defined.

(** X19. [filter_by_flux] on a well-formed model that holds an array
    whose fluxes are numbers returns: the model then holds, in their order, the
    rows whose flux is within the bounds, both included, [num_sources] is
    their number, and filtering again with the same bounds changes
    nothing. *)
Theorem filter_by_flux_keeps_rows_in_range
    (self : SkyModel) (min_flux_jy max_flux_jy : Z) :
  well_formed_model self -> sources self <> None ->
  Forall has_flux (model_rows self) ->
  exists m', filter_by_flux self min_flux_jy max_flux_jy = Ok m' /\
    well_formed_model m' /\
    model_rows m' =
      filter (fun r => flux_in_range min_flux_jy max_flux_jy r = true) (model_rows self) /\
    num_sources m' = Z.of_nat (length (model_rows m')) /\
    filter_by_flux m' min_flux_jy max_flux_jy = Ok m'.
Proof.
  intros Hwf Hsome Hflux. unfold well_formed_model, model_rows in *.
  destruct (sources self) as [a|] eqn:Ha; [|done].
  destruct Hwf as (n & Ht & _). simpl in Hflux.
  set (P := fun r => flux_in_range min_flux_jy max_flux_jy r = true).
  destruct (filtered_table P n 13 a Ht) as [Ht' Hrows'].
  eexists. split; [by eapply filter_by_flux_table; [done..|lia|]|].
  simpl. fold P. split_and!.
  - by eexists.
  - done.
  - by rewrite Hrows'.
  - erewrite filter_by_flux_table; [|reflexivity|exact Ht'|lia|].
    + rewrite Hrows'. fold P. by rewrite list_filter_filter_l.
    + rewrite Hrows'. apply Forall_forall. intros r Hr.
      apply list_elem_of_filter in Hr as [_ Hr]. by eapply Forall_forall in Hflux.
Qed.

Lemma filter_by_flux_keeps_rows_in_range_witness :
  exists m', filter_by_flux model_3 6 100 = Ok m' /\
    well_formed_model m' /\
    model_rows m' = filter (fun r => flux_in_range 6 100 r = true) (model_rows model_3) /\
    num_sources m' = Z.of_nat (length (model_rows m')) /\
    filter_by_flux m' 6 100 = Ok m'.
Proof.
  apply (filter_by_flux_keeps_rows_in_range model_3 6 100).
  - exists 3%nat. by vm_compute.
  - discriminate.
  - repeat constructor; eexists; reflexivity.
Defined.

(** The fainter source of [model_3] is filtered out. *)
Example filter_by_flux_model_3 :
  filter_by_flux model_3 6 100 = Ok model_3_bright.
Proof. by vm_compute. Qed.

(** X20. A model made by [SkyModel(sources)] and changed by any calls of
    [add_point_sources], [add_point_source] and [filter_by_flux] that all
    return is well formed: it holds no array and counts zero sources, or a
    2-D array of thirteen columns, and [num_sources] is the number of its
    rows. *)
Theorem sky_model_counts_its_rows
    (srcs0 : option array) (calls : list call) (m0 m : SkyModel) :
  from_option sound_array True srcs0 -> Forall sound_call calls ->
  init srcs0 = Ok m0 -> run_calls m0 calls = Ok m ->
  well_formed_model m /\
  num_sources m = Z.of_nat (length (model_rows m)) /\
  Forall (fun r => length r = 13%nat) (model_rows m).
Proof.
  intros H0 Hcs Hinit Hrun.
  assert (Hwf : well_formed_model m).
  { eapply run_calls_well_formed; [done| |done]. by eapply init_well_formed. }
  split_and!; [done|by apply well_formed_count|].
  unfold well_formed_model, model_rows in *.
  destruct (sources m) as [a|]; [|constructor].
  destruct Hwf as (n & Ht & _). simpl. rewrite (table_rows _ _ _ Ht).
  apply rows_of_row_length. destruct Ht as [_ ->]. lia.
Qed.

Lemma sky_model_counts_its_rows_witness :
  well_formed_model model_3_bright /\
  num_sources model_3_bright = Z.of_nat (length (model_rows model_3_bright)) /\
  Forall (fun r => length r = 13%nat) (model_rows model_3_bright).
Proof.
  apply (sky_model_counts_its_rows (Some three_sources)
           [AddPointSources {| shape := [2; 2]%nat; data := replicate 4 (Num 1) |};
            FilterByFlux 6 100] model_3).
  - reflexivity.
  - repeat constructor.
  - reflexivity.
  - reflexivity.
Defined.

End SkyExtra.

(** ** The telescope layout files *)

Module LayoutFacts.

Import Py Layout Spec Examples NpFacts.

Lemma str_split_length sep s :
  length (str_split sep s) = S (count_char sep s).
Proof.
  induction s as [|c s IH]; [done|].
  change (count_char sep (String c s))
    with ((if Ascii.eqb sep c then 1 else 0) + count_char sep s)%nat.
  rewrite Ascii.eqb_sym. simpl str_split.
  destruct (Ascii.eqb c sep).
  - simpl. by rewrite IH.
  - destruct (str_split sep s) as [|tok toks]; [done|]. simpl in *. lia.
Qed.

Section read_layout.

Variable float : string -> option Z.

Lemma stored_prefix (values : list Z) i x :
  (i < length values)%nat ->
  take (S i) (<[i := x]> values) = take i values ++ [x].
Proof.
  intros Hi. rewrite (take_S_r _ _ x) by (by apply list_lookup_insert_eq).
  by rewrite take_insert_ge by lia.
Qed.

Lemma store_values_Ok values i toks res :
  store_values float values i toks = Ok res ->
  exists vals,
    Forall2 (fun tok v => float tok = Some v) toks vals /\
    (toks <> [] -> (i + length toks <= length values)%nat) /\
    res = take i values ++ vals ++ drop (i + length vals) values.
Proof.
  revert values i. induction toks as [|pos rest IH]; intros values i H; simpl in H.
  - injection H as <-. exists []. split_and!; [constructor|done|].
    simpl. by rewrite Nat.add_0_r, take_drop.
  - apply bind_Ok in H as (x & Hx & H).
    destruct (float pos) as [x'|] eqn:Hpos; [|done]. injection Hx as ->.
    destruct (i <? length values)%nat eqn:Hi; [|done]. apply Nat.ltb_lt in Hi.
    apply IH in H as (vals & Hvals & Hlen & ->).
    exists (x :: vals). split_and!.
    + by constructor.
    + intros _. simpl. destruct rest as [|pos' rest]; [simpl; lia|].
      rewrite length_insert in Hlen. specialize (Hlen ltac:(done)). simpl in *. lia.
    + rewrite stored_prefix by done. rewrite drop_insert_lt by lia.
      rewrite <-(assoc_L (++)). simpl. by rewrite Nat.add_succ_r.
Qed.

Lemma store_values_returns values i toks vals :
  Forall2 (fun tok v => float tok = Some v) toks vals ->
  (i + length toks <= length values)%nat ->
  store_values float values i toks
    = Ok (take i values ++ vals ++ drop (i + length vals) values).
Proof.
  intros H. revert values i. induction H as [|pos x rest vals Hpos _ IH];
    intros values i Hlen; simpl.
  - by rewrite Nat.add_0_r, take_drop.
  - rewrite Hpos. simpl in *.
    replace (i <? length values)%nat with true by (symmetry; apply Nat.ltb_lt; lia).
    rewrite IH by (rewrite length_insert; lia).
    rewrite stored_prefix by lia. rewrite drop_insert_lt by lia.
    rewrite <-(assoc_L (++)). simpl. by rewrite Nat.add_succ_r.
Qed.

Lemma store_values_not_Hang values i toks :
  store_values float values i toks <> Hang.
Proof.
  revert values i. induction toks as [|pos rest IH]; intros values i; simpl; [done|].
  destruct (float pos); simpl; [|done].
  destruct (i <? length values)%nat; [apply IH|done].
Qed.

(** One line of a layout file. *)
Lemma line_Ok line position :
  store_values float (replicate 6 0) 0 (str_split "," line) = Ok position ->
  position_of_line float line position /\ length position = 6%nat /\
  (values_in_line line <= 6)%nat.
Proof.
  intros H. apply store_values_Ok in H as (vals & Hvals & Hlen & ->).
  pose proof (Forall2_length _ _ _ Hvals) as Hl.
  rewrite str_split_length in Hl.
  assert (Hne : str_split "," line <> []).
  { intros Hnil. apply (f_equal length) in Hnil. by rewrite str_split_length in Hnil. }
  specialize (Hlen Hne). rewrite str_split_length, length_replicate in Hlen.
  rewrite drop_replicate. simpl take. simpl app at 1.
  split_and!.
  - by exists vals.
  - rewrite !length_app, length_replicate. simpl. lia.
  - unfold values_in_line. lia.
Qed.

Lemma line_returns line :
  (values_in_line line <= 6)%nat ->
  Forall (fun tok => is_Some (float tok)) (str_split "," line) ->
  exists position,
    store_values float (replicate 6 0) 0 (str_split "," line) = Ok position.
Proof.
  intros Hlen Htoks.
  assert (exists vals, Forall2 (fun tok v => float tok = Some v) (str_split "," line) vals)
    as [vals Hvals].
  { induction Htoks as [|tok toks [v Hv] _ [vals IH]]; [by exists []|].
    exists (v :: vals). by constructor. }
  eexists. apply store_values_returns; [done|].
  rewrite str_split_length, length_replicate. unfold values_in_line in Hlen. lia.
Qed.

Lemma read_layout_txt_Ok files path positions :
  read_layout_txt float files path = Ok positions ->
  exists lines, files !! path = Some lines /\
    Forall2 (fun line position =>
               position_of_line float line position /\ length position = 6%nat /\
               (values_in_line line <= 6)%nat) lines positions.
Proof.
  unfold read_layout_txt. intros H. apply bind_Ok in H as (lines & Hfile & H).
  destruct (files !! path) as [lines'|]; [|done]. injection Hfile as ->.
  exists lines. split; [done|].
  apply Forall2_same_length_lookup. split.
  - symmetry. by eapply for_each_Ok_length.
  - intros j line position Hline Hpos.
    destruct (for_each_Ok_lookup _ _ _ _ _ H Hline) as (position' & Hpos' & Hstore).
    assert (position' = position) as -> by congruence.
    by apply line_Ok.
Qed.

Lemma read_layout_txt_returns files path lines :
  files !! path = Some lines ->
  Forall (fun line => (values_in_line line <= 6)%nat /\
                      Forall (fun tok => is_Some (float tok)) (str_split "," line)) lines ->
  exists positions, read_layout_txt float files path = Ok positions.
Proof.
  intros Hfile Hlines. unfold read_layout_txt. rewrite Hfile. simpl.
  destruct (for_each_Forall2
              (fun line => store_values float (replicate 6 0) 0 (str_split "," line))
              (fun _ _ => True) lines) as (positions & Hpos & _); [|by eauto].
  intros line Hline. eapply Forall_forall in Hlines as [Hlen Htoks]; [|done].
  destruct (line_returns line Hlen Htoks) as [position Hp]. eauto.
Qed.

End read_layout.

End LayoutFacts.

Module LayoutExtra.

Import Py Layout Spec Examples NpFacts LayoutFacts.

(** X21. What [__read_layout_txt] returns has one position for each line of the
    file, in the order of the lines; a position holds six values: the
    values of its line as [float] reads them, followed by zeros. *)
Theorem layout_positions_have_six_values
    (float : string -> option Z) (files : gmap string (list string))
    (path : string) (positions : list (list Z)) :
  read_layout_txt float files path = Ok positions ->
  exists lines, files !! path = Some lines /\
    Forall2 (fun line position =>
               position_of_line float line position /\ length position = 6%nat)
            lines positions.
Proof.
  intros H. apply read_layout_txt_Ok in H as (lines & Hfile & Hlines).
  exists lines. split; [done|].
  eapply Forall2_impl; [exact Hlines|]. by intros line position (? & ? & _).
Qed.

Lemma layout_positions_have_six_values_witness :
  exists lines, layout_files !! "tm/layout.txt" = Some lines /\
    Forall2 (fun line position =>
               position_of_line float_digits line position /\ length position = 6%nat)
            lines [[0; 0; 0; 0; 0; 0]; [25; 1; 0; 0; 0; 0]].
Proof.
  apply (layout_positions_have_six_values float_digits layout_files "tm/layout.txt").
  by vm_compute.
Defined.

(** X22. [__read_layout_txt] returns exactly when the file exists and every
    line of it holds at most six comma-separated values that [float] all
    reads; a line of seven values, or one with a value that is no number,
    makes the whole call fail. *)
Theorem layout_file_read_iff_readable
    (float : string -> option Z) (files : gmap string (list string)) (path : string) :
  (exists positions, read_layout_txt float files path = Ok positions) <->
  (exists lines, files !! path = Some lines /\ Forall (readable_line float) lines).
Proof.
  split.
  - intros (positions & H). apply read_layout_txt_Ok in H as (lines & Hfile & Hlines).
    exists lines. split; [done|].
    apply Forall_forall. intros line Hline.
    apply list_elem_of_lookup in Hline as [j Hj].
    destruct (Forall2_lookup_l _ _ _ _ _ Hlines Hj)
      as (position & _ & (vals & Hvals & _) & _ & Hlen).
    split; [done|].
    clear -Hvals. induction Hvals; constructor; eauto.
  - intros (lines & Hfile & Hlines). by eapply read_layout_txt_returns.
Qed.

(** A line of seven values is refused with [IndexError]. *)
Example seven_values_raise :
  read_layout_txt float_digits layout_files "bad/layout.txt" = Raise IndexError.
Proof. by vm_compute. Qed.

End LayoutExtra.
